(** * CodeGrade: the submission-evaluation pipeline

    A shallow embedding of the grading core of the platform:
    - [server/services/openai.ts]: the template problem generator
      [generateSampleProblems], the heuristic analyzer [analyzeCodeBuiltIn] and
      the two provider-aware entry points [generateAssignment], [analyzeCode];
    - the storage module: the in-memory repository [MemStorage];
    - the routes module: the [POST /api/submissions] handler of
      [registerRoutes].

    JavaScript strings are modelled as [string] (byte sequences, UTF-8 for the
    few non-ASCII characters of the template bank); [String.prototype.includes]
    is a case-sensitive substring test and [toLowerCase] acts on the ASCII
    letters.  Integer-valued JavaScript numbers are [Z] or [nat]; the one
    place where the handler can produce [NaN] (an average over zero test
    results) is kept explicit in the type [jsnum].

    Three places are modelled on a part of their domain only.  A score
    answered by the provider is an integer or absent: the source passes a
    fractional score through and turns a non-numeric one into [NaN], and
    neither is represented.  [Math.round] and [parseInt] are computed in exact
    arithmetic: [parseInt] agrees with the double-precision result up to
    [2 ^ 53], and the rounded percentage agrees with it except where the
    double-precision product falls on the other side of a half. *)

(** The development then covers the rest of the server: the repository class
    with the insertion order of its maps ([OMap], [Storage]), [parseInt] and
    the distribution pattern ([Text]), the other routes ([Routes]), and the
    navigation of the student dashboard ([Dashboard]). *)

From Stdlib Require Import ZArith QArith Ascii String.
From stdpp Require Import gmap strings list pretty.

Local Open Scope string_scope.
Local Open Scope Z_scope.

(** ** JavaScript string primitives *)

Module JS.

(** [s.includes(needle)]: [needle] occurs in [s] as a contiguous substring. *)
Fixpoint includes (s needle : string) : bool :=
  if String.prefix needle s then true
  else match s with
       | EmptyString => false
       | String _ s' => includes s' needle
       end.

Definition lower_ascii (c : ascii) : ascii :=
  let n := N_of_ascii c in
  if ((65 <=? n) && (n <=? 90))%N then ascii_of_N (n + 32) else c.

(** [s.toLowerCase()] on the ASCII letters; other bytes are kept. *)
Fixpoint toLowerCase (s : string) : string :=
  match s with
  | EmptyString => EmptyString
  | String c s' => String (lower_ascii c) (toLowerCase s')
  end.

(** The line feed written [\n] in the source, and the double quote. *)
Definition nl : string := String (ascii_of_nat 10) EmptyString.
Definition dq : string := String (ascii_of_nat 34) EmptyString.

(** [array.push(x)] on an array held in a local variable. *)
Definition push {A} (xs : list A) (x : A) : list A := xs ++ [x].

(** [Math.max(0, Math.min(100, x))] on integers. *)
Definition clamp100 (x : Z) : Z := Z.max 0 (Z.min 100 x).

(** A JavaScript number that is an integer or [NaN]. *)
Inductive jsnum : Type :=
| Num (z : Z)
| NaN.

(** [Math.min(a, b)]: [NaN] as soon as one argument is. *)
Definition min (a b : jsnum) : jsnum :=
  match a, b with
  | Num x, Num y => Num (Z.min x y)
  | _, _ => NaN
  end.

(** [a <= b]: false as soon as one operand is [NaN]. *)
Definition le (a b : jsnum) : bool :=
  match a, b with
  | Num x, Num y => x <=? y
  | _, _ => false
  end.

(** [a >= b]. *)
Definition ge (a b : jsnum) : bool := le b a.

(** [a < b]. *)
Definition lt (a b : jsnum) : bool :=
  match a, b with
  | Num x, Num y => x <? y
  | _, _ => false
  end.

(** [Math.round((p / t) * 100)] for counts [p] and [t]: rounding to the
    nearest integer, halves upwards, in exact arithmetic; [0 / 0] is [NaN].
    The double-precision product can fall just below a half that the exact
    quotient reaches (23 of 40 is 57 in JavaScript and 58 here); for
    [p <= t] both values lie between 0 and 100, and both are 0 for [p = 0]
    and 100 for [p = t]. *)
Definition roundPercent (p t : nat) : jsnum :=
  match t with
  | O => NaN
  | S _ => Num ((200 * Z.of_nat p + Z.of_nat t) / (2 * Z.of_nat t))
  end.

End JS.

(** ** Data model ([shared/schema.ts]) *)

(** [z.enum(["easy", "medium", "hard"])]. *)
Inductive Difficulty : Type := Easy | Medium | Hard.

Record TestCase : Type := mkTestCase {
  input : string;
  expectedOutput : string
}.

Record Problem : Type := mkProblem {
  id : string;
  title : string;
  description : string;
  inputFormat : string;
  outputFormat : string;
  constraints : string;
  sampleInput : string;
  sampleOutput : string;
  difficulty : Difficulty;
  timeLimit : Z;
  memoryLimit : Z;
  testCases : list TestCase
}.

(** The value returned by the analyzers. *)
Record Analysis : Type := mkAnalysis {
  feedback : string;
  suggestions : list string;
  score : Z
}.

(** ** The template generator ([generateSampleProblems]) *)

(** An entry of [problemTemplates]. *)
Record Template : Type := mkTemplate {
  t_title : string;
  t_description : string;
  t_inputFormat : string;
  t_outputFormat : string;
  t_constraints : string;
  t_sampleInput : string;
  t_sampleOutput : string;
  t_testCases : list TestCase
}.

Module problemTemplates.

Definition easy : list Template :=
  [ mkTemplate "Hello World Program"
      "Write a C program that prints 'Hello, World!' to the console."
      "No input required."
      "Print 'Hello, World!' followed by a newline."
      "None"
      EmptyString
      "Hello, World!"
      [ mkTestCase EmptyString "Hello, World!" ];
    mkTemplate "Sum of Two Numbers"
      "Write a C program that reads two integers and prints their sum."
      "Two integers a and b separated by a space."
      "Print the sum of a and b."
      "1 ≤ a, b ≤ 1000"
      "5 3"
      "8"
      [ mkTestCase "5 3" "8"; mkTestCase "10 20" "30"; mkTestCase "1 1" "2" ];
    mkTemplate "Even or Odd"
      "Write a C program that checks if a number is even or odd."
      "A single integer n."
      "Print 'Even' if n is even, 'Odd' if n is odd."
      "1 ≤ n ≤ 1000"
      "4"
      "Even"
      [ mkTestCase "4" "Even"; mkTestCase "7" "Odd"; mkTestCase "100" "Even" ] ].

Definition medium : list Template :=
  [ mkTemplate "Factorial Calculator"
      "Write a C program to calculate the factorial of a given number using iteration."
      "A single integer n."
      "Print the factorial of n."
      "0 ≤ n ≤ 10"
      "5"
      "120"
      [ mkTestCase "5" "120"; mkTestCase "0" "1"; mkTestCase "3" "6" ];
    mkTemplate "Array Sum"
      "Write a C program that calculates the sum of all elements in an array."
      "First line contains n (size of array). Second line contains n integers."
      "Print the sum of all elements."
      "1 ≤ n ≤ 100, 1 ≤ arr[i] ≤ 1000"
      ("5" +:+ JS.nl +:+ "1 2 3 4 5")
      "15"
      [ mkTestCase ("5" +:+ JS.nl +:+ "1 2 3 4 5") "15";
        mkTestCase ("3" +:+ JS.nl +:+ "10 20 30") "60";
        mkTestCase ("1" +:+ JS.nl +:+ "42") "42" ] ].

Definition hard : list Template :=
  [ mkTemplate "Prime Number Check"
      "Write a C program to check if a given number is prime. Use efficient algorithm."
      "A single integer n."
      "Print 'Prime' if n is prime, 'Not Prime' otherwise."
      "2 ≤ n ≤ 10000"
      "17"
      "Prime"
      [ mkTestCase "17" "Prime"; mkTestCase "4" "Not Prime"; mkTestCase "2" "Prime" ];
    mkTemplate "Binary Search Implementation"
      "Implement binary search algorithm to find an element in a sorted array."
      "First line: n (array size), target. Second line: n sorted integers."
      "Print the index of target (0-based) or -1 if not found."
      "1 ≤ n ≤ 1000, elements are sorted in ascending order"
      ("5 7" +:+ JS.nl +:+ "1 3 5 7 9")
      "3"
      [ mkTestCase ("5 7" +:+ JS.nl +:+ "1 3 5 7 9") "3";
        mkTestCase ("5 6" +:+ JS.nl +:+ "1 3 5 7 9") "-1";
        mkTestCase ("3 1" +:+ JS.nl +:+ "1 2 3") "0" ] ].

End problemTemplates.

(** The requested distribution.  The counts reach the generator from
    [parseInt] applied to the [\d+] groups of the distribution string, so they
    are natural numbers. *)
Record DifficultyCounts : Type := mkCounts {
  easy : nat;
  medium : nat;
  hard : nat
}.

(** The two mutable locals of the generator: the output array and the id
    counter. *)
Record GenState : Type := mkGenState {
  problems : list Problem;
  problemId : nat
}.

(** [for (let i = 0; i < n; i++) body(i)], started at [i], with [n] rounds
    left, on the state the body mutates. *)
Fixpoint for_from {St : Type} (i n : nat) (body : nat → St → St) (s : St) : St :=
  match n with
  | O => s
  | S n' => for_from (S i) n' body (body i s)
  end.

Definition for_upto {St : Type} (n : nat) (body : nat → St → St) (s : St) : St :=
  for_from 0 n body s.

(** [bank[i % bank.length]]; the index is always in range for the three
    banks, which are not empty. *)
Definition pick (bank : list Template) (i : nat) : Template :=
  nth (i mod length bank)%nat bank
    (mkTemplate EmptyString EmptyString EmptyString EmptyString
                EmptyString EmptyString EmptyString []).

(** The body shared by the three loops: build the problem from the template,
    push it, and increment the id counter ([problemId++]). *)
Definition emit (topic : string) (bank : list Template) (d : Difficulty)
    (seconds megabytes : Z) (i : nat) (st : GenState) : GenState :=
  let template := pick bank i in
  {| problems :=
       JS.push (problems st)
         {| id := "problem_" +:+ pretty (problemId st);
            title := topic +:+ " - " +:+ t_title template;
            description := t_description template;
            inputFormat := t_inputFormat template;
            outputFormat := t_outputFormat template;
            constraints := t_constraints template;
            sampleInput := t_sampleInput template;
            sampleOutput := t_sampleOutput template;
            difficulty := d;
            timeLimit := seconds;
            memoryLimit := megabytes;
            testCases := t_testCases template |};
     problemId := S (problemId st) |}.

Definition generateSampleProblems (topic : string) (difficulty : DifficultyCounts)
    : list Problem :=
  let st := {| problems := []; problemId := 1 |} in
  (* Generate easy problems *)
  let st := for_upto (easy difficulty) (emit topic problemTemplates.easy Easy 1 64) st in
  (* Generate medium problems *)
  let st := for_upto (medium difficulty) (emit topic problemTemplates.medium Medium 2 128) st in
  (* Generate hard problems *)
  let st := for_upto (hard difficulty) (emit topic problemTemplates.hard Hard 5 256) st in
  problems st.

(** ** The heuristic analyzer ([analyzeCodeBuiltIn]) *)

(** The three mutable locals of the function. *)
Record Locals : Type := mkLocals {
  l_suggestions : list string;
  l_score : Z;
  l_feedback : string
}.

Definition suggest (l : Locals) (s : string) (delta : Z) : Locals :=
  {| l_suggestions := JS.push (l_suggestions l) s;
     l_score := l_score l + delta;
     l_feedback := l_feedback l |}.

Definition adjust (l : Locals) (delta : Z) : Locals :=
  {| l_suggestions := l_suggestions l;
     l_score := l_score l + delta;
     l_feedback := l_feedback l |}.

Definition remark (l : Locals) (s : string) : Locals :=
  {| l_suggestions := JS.push (l_suggestions l) s;
     l_score := l_score l;
     l_feedback := l_feedback l |}.

Definition praise (l : Locals) (delta : Z) (fb : string) : Locals :=
  {| l_suggestions := l_suggestions l;
     l_score := l_score l + delta;
     l_feedback := fb |}.

Section Analyzer.

Variables (code : string) (problem : Problem).

Let hasMainFunction := JS.includes code "int main".
Let hasIncludeStdio := JS.includes code "#include <stdio.h>".
Let hasReturnStatement := JS.includes code "return".
Let hasComments := JS.includes code "//" || JS.includes code "/*".
Let hasPrintf := JS.includes code "printf".
Let hasScanf := JS.includes code "scanf".

Definition initLocals : Locals :=
  {| l_suggestions := []; l_score := 60; l_feedback := EmptyString |}.

(** Check for basic C structure. *)
Definition checkMain (l : Locals) : Locals :=
  if negb hasMainFunction
  then suggest l "Your code should include a main function: int main()" (-20)
  else adjust l 10.

Definition checkStdio (l : Locals) : Locals :=
  if negb hasIncludeStdio && (hasPrintf || hasScanf)
  then suggest l "Don't forget to include #include <stdio.h> for input/output functions" (-10)
  else if hasIncludeStdio then adjust l 5
  else l.

Definition checkReturn (l : Locals) : Locals :=
  if negb hasReturnStatement && hasMainFunction
  then suggest l "Your main function should return a value (usually return 0;)" (-5)
  else if hasReturnStatement then adjust l 5
  else l.

(** Problem-specific analysis: the first matching category applies. *)
Definition checkTopic (l : Locals) : Locals :=
  let t := JS.toLowerCase (title problem) in
  if JS.includes t "hello world" then
    if hasPrintf && JS.includes code "Hello, World!"
    then praise l 20 "Great! Your Hello World program looks correct. "
    else suggest l "Make sure to print exactly 'Hello, World!' using printf" (-15)
  else if JS.includes t "sum" then
    if hasScanf && hasPrintf
    then praise l 15 "Good use of input/output functions for the sum calculation. "
    else suggest l "Remember to use scanf to read input and printf to display the result" (-10)
  else if JS.includes t "factorial" then
    if JS.includes code "for" || JS.includes code "while"
    then praise l 15 "Good use of loops for factorial calculation. "
    else suggest l "Consider using a loop (for or while) to calculate factorial" (-10)
  else if JS.includes t "array" then
    if JS.includes code "[" && JS.includes code "]"
    then praise l 10 "Good use of arrays. "
    else suggest l "This problem requires working with arrays - declare and use array variables" (-15)
  else l.

(** Code quality checks. *)
Definition checkComments (l : Locals) : Locals :=
  if hasComments
  then suggest l "Great job adding comments to explain your code!" 5
  else remark l "Consider adding comments to explain your logic".

(** The locals just before the score is clamped. *)
Definition analyzeLocals : Locals :=
  checkComments (checkTopic (checkReturn (checkStdio (checkMain initLocals)))).

(** Ensure score is within bounds, build the final feedback, and make sure
    the suggestions are not empty. *)
Definition analyzeCodeBuiltIn : Analysis :=
  let l := analyzeLocals in
  let score := JS.clamp100 (l_score l) in
  let feedback :=
    if String.eqb (l_feedback l) EmptyString then "Your code has been analyzed. "
    else l_feedback l in
  let feedback :=
    if 80 <=? score
    then feedback +:+ "Excellent work! Your solution looks well-structured."
    else if 60 <=? score
    then feedback +:+ "Good effort! There are some areas for improvement."
    else feedback +:+ "Your code needs some work. Check the suggestions below." in
  let suggestions :=
    if (length (l_suggestions l) =? 0)%nat
    then JS.push (l_suggestions l)
           "Your code structure looks good! Keep practicing to improve your C programming skills."
    else l_suggestions l in
  {| feedback := feedback; suggestions := suggestions; score := score |}.

End Analyzer.


(** ** The remote provider

    The module-level constant [openai] is [null] when no credential is
    configured and a client otherwise.  A client is modelled by what the code
    observes of [chat.completions.create] followed by [JSON.parse]: either the
    call or the parse throws, or the parsed object is read at the fields the
    caller uses. *)

Record ChatRequest : Type := mkChatRequest {
  model : string;
  systemContent : string;
  userContent : string;
  temperature : Q
}.

Inductive Reply (A : Type) : Type :=
| Failure (message : string)
| Parsed (result : A).
Arguments Failure {A} message.
Arguments Parsed {A} result.

(** The fields [result.feedback], [result.suggestions] and [result.score] of a
    parsed critique; an absent (or falsy) field is [None].  A score that is
    present is an integer here: a fractional one, which the source keeps as it
    is, and a non-numeric one, which [Math.min] turns into [NaN], are not
    represented. *)
Record RawAnalysis : Type := mkRawAnalysis {
  r_feedback : string;
  r_suggestions : option (list string);
  r_score : option Z
}.

Record OpenAI : Type := mkOpenAI {
  generation : ChatRequest → Reply (list Problem);
  critique : ChatRequest → Reply RawAnalysis
}.

(** The outcome of an [async] function: it resolves or it throws. *)
Inductive Outcome (A : Type) : Type :=
| Returns (a : A)
| Throws (message : string).
Arguments Returns {A} a.
Arguments Throws {A} message.

(** ** [generateAssignment] *)

Record GenerateAssignmentParams : Type := mkParams {
  topic : string;
  counts : DifficultyCounts;
  minutes : Z
}.

Definition generationPrompt (topic : string) (difficulty : DifficultyCounts) : string :=
  "Generate " +:+ pretty (easy difficulty + medium difficulty + hard difficulty)%nat
    +:+ " C programming problems for the topic " +:+ JS.dq +:+ topic +:+ JS.dq +:+ "."
    +:+ JS.nl +:+ JS.nl +:+ "Problem distribution:" +:+ JS.nl
    +:+ "- " +:+ pretty (easy difficulty) +:+ " Easy problems" +:+ JS.nl
    +:+ "- " +:+ pretty (medium difficulty) +:+ " Medium problems  " +:+ JS.nl
    +:+ "- " +:+ pretty (hard difficulty) +:+ " Hard problems" +:+ JS.nl +:+ JS.nl
    +:+ "For each problem, provide:" +:+ JS.nl
    +:+ "1. A unique ID (string)" +:+ JS.nl
    +:+ "2. Title (descriptive and specific)" +:+ JS.nl
    +:+ "3. Detailed problem description" +:+ JS.nl
    +:+ "4. Input format specification" +:+ JS.nl
    +:+ "5. Output format specification" +:+ JS.nl
    +:+ "6. Constraints (ranges, limits)" +:+ JS.nl
    +:+ "7. Sample input/output pair" +:+ JS.nl
    +:+ "8. Difficulty level (easy/medium/hard)" +:+ JS.nl
    +:+ "9. Time limit in seconds (reasonable for the problem complexity)" +:+ JS.nl
    +:+ "10. Memory limit in MB (typically 64-256 MB)" +:+ JS.nl
    +:+ "11. At least 3 test cases with input and expected output" +:+ JS.nl +:+ JS.nl
    +:+ "Problems should be varied in complexity within each difficulty level and focus on different aspects of the topic. Ensure problems are solvable with standard C programming techniques."
    +:+ JS.nl +:+ JS.nl
    +:+ "Return the response as a JSON object with a " +:+ JS.dq +:+ "problems" +:+ JS.dq
    +:+ " array containing all generated problems.".

Definition generateAssignment (openai : option OpenAI) (params : GenerateAssignmentParams)
    : Outcome (list Problem) :=
  match openai with
  | None =>
      (* Use built-in AI service if OpenAI is not available *)
      Returns (generateSampleProblems (topic params) (counts params))
  | Some client =>
      match generation client
              {| model := "gpt-5";
                 systemContent := "You are an expert C programming instructor creating educational programming assignments. Generate well-structured, educational problems that test understanding of C programming concepts.";
                 userContent := generationPrompt (topic params) (counts params);
                 temperature := 8 # 10 |} with
      | Parsed result => Returns result
      | Failure message => Throws ("Failed to generate assignment: " +:+ message)
      end
  end.

(** ** [analyzeCode] *)

Definition analysisPrompt (code : string) (problem : Problem) : string :=
  "Analyze this C code submission for the following problem:" +:+ JS.nl +:+ JS.nl
    +:+ "Problem: " +:+ title problem +:+ JS.nl
    +:+ "Description: " +:+ description problem +:+ JS.nl +:+ JS.nl
    +:+ "Student Code:" +:+ JS.nl
    +:+ "```c" +:+ JS.nl +:+ code +:+ JS.nl +:+ "```" +:+ JS.nl +:+ JS.nl
    +:+ "Expected Output: " +:+ sampleOutput problem +:+ JS.nl +:+ JS.nl
    +:+ "Please analyze the code and provide:" +:+ JS.nl
    +:+ "1. Overall feedback on the solution approach" +:+ JS.nl
    +:+ "2. Specific suggestions for improvement" +:+ JS.nl
    +:+ "3. A score out of 100 based on correctness, efficiency, and code quality"
    +:+ JS.nl +:+ JS.nl
    +:+ "Return the response as JSON with " +:+ JS.dq +:+ "feedback" +:+ JS.dq +:+ ", "
    +:+ JS.dq +:+ "suggestions" +:+ JS.dq +:+ " (array of strings), and "
    +:+ JS.dq +:+ "score" +:+ JS.dq +:+ " fields.".

Definition analyzeCode (openai : option OpenAI) (code : string) (problem : Problem)
    : Outcome Analysis :=
  match openai with
  | None =>
      (* Provide built-in code analysis when OpenAI is not available *)
      let feedback := analyzeCodeBuiltIn code problem in
      Returns feedback
  | Some client =>
      match critique client
              {| model := "gpt-5";
                 systemContent := "You are an expert C programming instructor providing detailed feedback on student code submissions.";
                 userContent := analysisPrompt code problem;
                 temperature := 3 # 10 |} with
      | Parsed result =>
          Returns {| feedback := r_feedback result;
                     suggestions := default [] (r_suggestions result);
                     score := JS.clamp100 (default 0 (r_score result)) |}
      | Failure message => Throws ("Failed to analyze code: " +:+ message)
      end
  end.

(** ** The repository ([MemStorage]) *)

Inductive Role : Type := teacher | student.

Record User : Type := mkUser {
  u_id : string;
  u_role : Role
}.

Record Assignment : Type := mkAssignment {
  a_id : string;
  a_title : string;
  a_description : string;
  a_teacherId : string;
  a_problems : list Problem;
  a_timeLimit : option Z;
  a_isActive : bool
}.

Inductive Status : Type := pending | passed | failed | error.

(** An element of [testResults]: the synthetic entry of the structural
    pre-check, or the outcome of one simulated test case. *)
Inductive TestResult : Type :=
| StructureResult (testCase : Z) (passed : bool) (error : string)
| CaseResult (testCase : Z) (passed : bool) (output expected : string).

Definition tr_passed (r : TestResult) : bool :=
  match r with
  | StructureResult _ b _ => b
  | CaseResult _ b _ _ => b
  end.

(** The fields every submission payload carries after validation. *)
Record SubmissionData : Type := mkSubmissionData {
  studentId : string;
  assignmentId : string;
  problemIndex : Z;
  code : string
}.

(** [{ ...submissionData, status, testResults, score }]. *)
Record InsertSubmission : Type := mkInsertSubmission {
  i_data : SubmissionData;
  i_status : Status;
  i_testResults : list TestResult;
  i_score : JS.jsnum
}.

(** [{ ...insertSubmission, id, submittedAt }]. *)
Record Submission : Type := mkSubmission {
  s_insert : InsertSubmission;
  s_id : string;
  s_submittedAt : Z
}.

Definition s_status (s : Submission) : Status := i_status (s_insert s).
Definition s_testResults (s : Submission) : list TestResult := i_testResults (s_insert s).
Definition s_score (s : Submission) : JS.jsnum := i_score (s_insert s).

(** The two maps of the store the submission handler works on. *)
Record MemStorage : Type := mkStorage {
  assignments : gmap string Assignment;
  submissions : gmap string Submission
}.

(** What the handler draws from its surroundings: the value of
    [randomUUID()], of [new Date()], and of the successive calls of
    [Math.random()]. *)
Record Env : Type := mkEnv {
  randomUUID : string;
  now : Z;
  random : nat → Q
}.

Definition getAssignment (st : MemStorage) (id : string) : option Assignment :=
  assignments st !! id.

Definition createSubmission (env : Env) (st : MemStorage) (insertSubmission : InsertSubmission)
    : Submission * MemStorage :=
  let id := randomUUID env in
  let submission :=
    {| s_insert := insertSubmission; s_id := id; s_submittedAt := now env |} in
  (submission,
   {| assignments := assignments st;
      submissions := <[id := submission]> (submissions st) |}).

(** ** The submission handler ([POST /api/submissions]) *)

(** The request body as the schema sees it: a field that is absent, of the
    wrong type or refused by the schema is [None]. *)
Record Body : Type := mkBody {
  b_assignmentId : option string;
  b_problemIndex : option Z;
  b_code : option string
}.

(** [session] is [None] when [req.isAuthenticated()] is false, and
    [req.user] otherwise. *)
Record Request : Type := mkRequest {
  session : option User;
  body : Body
}.

Inductive Json : Type :=
| Message (message : string)
| Evaluation (submission : Submission) (testResults : list TestResult)
             (feedback : string) (suggestions : list string).

Record Response : Type := mkResponse {
  http : Z;
  json : Json
}.

(** [insertSubmissionSchema.parse({ ...req.body, studentId })]; [None] when
    the schema rejects the payload (the parse throws).  The schema is derived
    from the [submissions] table by a library; what it refuses in a field of
    the right type (an index outside the range of the integer column) counts
    as a [None] field of the body. *)
Definition parse (b : Body) (student : string) : option SubmissionData :=
  match b_assignmentId b, b_problemIndex b, b_code b with
  | Some a, Some i, Some c =>
      Some {| studentId := student; assignmentId := a; problemIndex := i; code := c |}
  | _, _, _ => None
  end.

(** [problems[problemIndex]]: [undefined] outside the array. *)
Definition problemAt (problems : list Problem) (problemIndex : Z) : option Problem :=
  if problemIndex <? 0 then None else problems !! Z.to_nat problemIndex.

(** The locals [status], [testResults] and [score] when the analysis is
    called. *)
Record Simulated : Type := mkSimulated {
  sim_status : Status;
  sim_testResults : list TestResult;
  sim_score : JS.jsnum
}.

(** [Math.random() > 0.2]. *)
Definition above20 (r : Q) : bool := negb (Qle_bool r (2 # 10)).

(** The structural pre-check fails: one of the three markers is missing. *)
Definition missingStructure (code : string) : bool :=
  let hasMainFunction := JS.includes code "int main" in
  let hasInclude := JS.includes code "#include" in
  let hasReturn := JS.includes code "return" in
  negb hasMainFunction || negb hasInclude || negb hasReturn.

Definition simulate (env : Env) (code : string) (problem : Problem) : Simulated :=
  if missingStructure code then
    {| sim_status := failed;
       sim_testResults := [ StructureResult 1 false "Missing required C structure" ];
       sim_score := JS.Num 20 |}
  else
    (* Simulate passing most test cases *)
    let testResults :=
      imap (λ index _, CaseResult (Z.of_nat index + 1) (above20 (random env index))
                                  (sampleOutput problem) (sampleOutput problem))
           (testCases problem) in
    let passedCount := length (List.filter tr_passed testResults) in
    let score := JS.roundPercent passedCount (length testResults) in
    {| sim_status := if JS.ge score (JS.Num 60) then passed else failed;
       sim_testResults := testResults;
       sim_score := score |}.

Definition isStudent (u : User) : bool :=
  match u_role u with student => true | teacher => false end.

Definition reject (status : Z) (message : string) : Response :=
  {| http := status; json := Message message |}.

(** The gates in front of the evaluation: authorization, validation of the
    payload, assignment resolution and problem resolution.  Each failing gate
    answers at once; passing all of them yields the validated payload and the
    addressed problem. *)
Definition resolve (st : MemStorage) (req : Request)
    : Response + SubmissionData * Problem :=
  match session req with
  | None => inl (reject 403 "Access denied. Students only.")
  | Some user =>
  if negb (isStudent user) then inl (reject 403 "Access denied. Students only.")
  else
  match parse (body req) (u_id user) with
  | None => inl (reject 500 "Failed to submit code")
  | Some submissionData =>
  (* Get assignment to validate *)
  match getAssignment st (assignmentId submissionData) with
  | None => inl (reject 404 "Assignment not found or inactive")
  | Some assignment =>
  if negb (a_isActive assignment)
  then inl (reject 404 "Assignment not found or inactive")
  else
  match problemAt (a_problems assignment) (problemIndex submissionData) with
  | None => inl (reject 400 "Invalid problem index")
  | Some problem => inr (submissionData, problem)
  end end end end.

(** The [try] block and its [catch]: simulate, ask for the analysis, merge
    the scores and persist; when the analysis throws, persist the simulated
    result as it stands. *)
Definition evaluate (openai : option OpenAI) (env : Env) (st : MemStorage)
    (submissionData : SubmissionData) (problem : Problem) : Response * MemStorage :=
  let sim := simulate env (code submissionData) problem in
  (* Get AI feedback *)
  match analyzeCode openai (code submissionData) problem with
  | Returns aiAnalysis =>
      let '(submission, st') :=
        createSubmission env st
          {| i_data := submissionData;
             i_status := sim_status sim;
             i_testResults := sim_testResults sim;
             i_score := JS.min (sim_score sim) (JS.Num (score aiAnalysis)) |} in
      ({| http := 200;
          json := Evaluation submission (sim_testResults sim)
                    (feedback aiAnalysis) (suggestions aiAnalysis) |}, st')
  | Throws _ =>
      (* Fallback if AI analysis fails *)
      let '(submission, st') :=
        createSubmission env st
          {| i_data := submissionData;
             i_status := sim_status sim;
             i_testResults := sim_testResults sim;
             i_score := sim_score sim |} in
      ({| http := 200;
          json := Evaluation submission (sim_testResults sim)
                    "Code submitted successfully. Basic validation completed." [] |}, st')
  end.

Definition postSubmissions (openai : option OpenAI) (env : Env)
    (st : MemStorage) (req : Request) : Response * MemStorage :=
  match resolve st req with
  | inl rejection => (rejection, st)
  | inr (submissionData, problem) => evaluate openai env st submissionData problem
  end.

(** ** The problem the spec describes for one slot of a block

    Written from the description of the fallback mode: the problem built from
    template [t] for the topic, tagged with the block's difficulty and limits,
    under the id number [n]. *)
Definition described (topic : string) (t : Template) (d : Difficulty)
    (seconds megabytes : Z) (n : nat) : Problem :=
  {| id := "problem_" +:+ pretty n;
     title := topic +:+ " - " +:+ t_title t;
     description := t_description t;
     inputFormat := t_inputFormat t;
     outputFormat := t_outputFormat t;
     constraints := t_constraints t;
     sampleInput := t_sampleInput t;
     sampleOutput := t_sampleOutput t;
     difficulty := d;
     timeLimit := seconds;
     memoryLimit := megabytes;
     testCases := t_testCases t |}.

(** The slots a loop of [n] rounds over [bank] appends, when it starts at
    index [i] with the id counter at [k]. *)
Definition appended (topic : string) (bank : list Template) (d : Difficulty)
    (seconds megabytes : Z) (i k n : nat) : list Problem :=
  (λ j, described topic (pick bank (i + j)) d seconds megabytes (k + j)) <$> seq 0 n.

(** [problem] with its test cases replaced. *)
Definition withTestCases (problem : Problem) (tcs : list TestCase) : Problem :=
  {| id := id problem;
     title := title problem;
     description := description problem;
     inputFormat := inputFormat problem;
     outputFormat := outputFormat problem;
     constraints := constraints problem;
     sampleInput := sampleInput problem;
     sampleOutput := sampleOutput problem;
     difficulty := difficulty problem;
     timeLimit := timeLimit problem;
     memoryLimit := memoryLimit problem;
     testCases := tcs |}.

(** The record the handler persists, with the final score [final]. *)
Definition persisted (env : Env) (data : SubmissionData) (sim : Simulated)
    (final : JS.jsnum) : Submission :=
  {| s_insert := {| i_data := data;
                    i_status := sim_status sim;
                    i_testResults := sim_testResults sim;
                    i_score := final |};
     s_id := randomUUID env;
     s_submittedAt := now env |}.

(** ** The category of a title

    The chain of tests of the problem-specific analysis, read as a function
    of the title: the first keyword the lower-cased title contains. *)
Inductive Topic : Type := HelloWorld | Sum | Factorial | Array.

Definition topicOf (title : string) : option Topic :=
  let t := JS.toLowerCase title in
  if JS.includes t "hello world" then Some HelloWorld
  else if JS.includes t "sum" then Some Sum
  else if JS.includes t "factorial" then Some Factorial
  else if JS.includes t "array" then Some Array
  else None.

(** The string pushed when [suggestions.length === 0]. *)
Definition encouragement : string :=
  "Your code structure looks good! Keep practicing to improve your C programming skills.".

(** ** [Map<string, V>] with its insertion order

    [Map.prototype.set] overwrites the value of a key already present, at the
    place where the key sits, and appends a new key at the end;
    [values()] enumerates in that order. *)

Module OMap.

Section Operations.

Context {V : Type}.

Definition t : Type := list (string * V).

Definition empty : t := [].

Fixpoint get (m : t) (k : string) : option V :=
  match m with
  | [] => None
  | (k', v) :: m' => if String.eqb k' k then Some v else get m' k
  end.

Fixpoint set (m : t) (k : string) (v : V) : t :=
  match m with
  | [] => [ (k, v) ]
  | (k', v') :: m' =>
      if String.eqb k' k then (k', v) :: m' else (k', v') :: set m' k v
  end.

Definition keys (m : t) : list string := fst <$> m.

(** [Array.from(m.values())]. *)
Definition values (m : t) : list V := snd <$> m.

(** The same map without its order. *)
Definition to_gmap (m : t) : gmap string V := list_to_map m.

End Operations.

Arguments t V : clear implicits.

End OMap.

(** ** The repository class ([MemStorage]), with the order of its maps *)

Record InsertUser : Type := mkInsertUser {
  iu_username : string;
  iu_email : string;
  iu_password : string;
  iu_role : Role;
  iu_name : string
}.

(** [{ ...insertUser, id, createdAt }]. *)
Record UserRow : Type := mkUserRow {
  ur_insert : InsertUser;
  ur_id : string;
  ur_createdAt : Z
}.

Record InsertAssignment : Type := mkInsertAssignment {
  ia_title : string;
  ia_description : string;
  ia_teacherId : string;
  ia_problems : list Problem;
  ia_timeLimit : option Z;
  ia_dueDate : option Z;
  ia_isActive : bool
}.

(** [{ ...insertAssignment, id, createdAt }]. *)
Record AssignmentRow : Type := mkAssignmentRow {
  ar_insert : InsertAssignment;
  ar_id : string;
  ar_createdAt : Z
}.

(** The row as the submission handler reads it. *)
Definition toAssignment (row : AssignmentRow) : Assignment :=
  {| a_id := ar_id row;
     a_title := ia_title (ar_insert row);
     a_description := ia_description (ar_insert row);
     a_teacherId := ia_teacherId (ar_insert row);
     a_problems := ia_problems (ar_insert row);
     a_timeLimit := ia_timeLimit (ar_insert row);
     a_isActive := ia_isActive (ar_insert row) |}.

(** [Partial<Assignment>] and [Partial<Submission>]: the fields an update
    carries. *)
Record AssignmentPatch : Type := mkAssignmentPatch {
  ap_id : option string;
  ap_title : option string;
  ap_description : option string;
  ap_teacherId : option string;
  ap_problems : option (list Problem);
  ap_timeLimit : option (option Z);
  ap_dueDate : option (option Z);
  ap_isActive : option bool;
  ap_createdAt : option Z
}.

Record SubmissionPatch : Type := mkSubmissionPatch {
  sp_id : option string;
  sp_studentId : option string;
  sp_assignmentId : option string;
  sp_problemIndex : option Z;
  sp_code : option string;
  sp_status : option Status;
  sp_testResults : option (list TestResult);
  sp_score : option JS.jsnum;
  sp_submittedAt : option Z
}.

(** [{ ...assignment, ...updateData }]. *)
Definition patchAssignment (row : AssignmentRow) (u : AssignmentPatch) : AssignmentRow :=
  {| ar_insert :=
       {| ia_title := default (ia_title (ar_insert row)) (ap_title u);
          ia_description := default (ia_description (ar_insert row)) (ap_description u);
          ia_teacherId := default (ia_teacherId (ar_insert row)) (ap_teacherId u);
          ia_problems := default (ia_problems (ar_insert row)) (ap_problems u);
          ia_timeLimit := default (ia_timeLimit (ar_insert row)) (ap_timeLimit u);
          ia_dueDate := default (ia_dueDate (ar_insert row)) (ap_dueDate u);
          ia_isActive := default (ia_isActive (ar_insert row)) (ap_isActive u) |};
     ar_id := default (ar_id row) (ap_id u);
     ar_createdAt := default (ar_createdAt row) (ap_createdAt u) |}.

(** [{ ...submission, ...updateData }]. *)
Definition patchSubmission (row : Submission) (u : SubmissionPatch) : Submission :=
  {| s_insert :=
       {| i_data :=
            {| studentId := default (studentId (i_data (s_insert row))) (sp_studentId u);
               assignmentId := default (assignmentId (i_data (s_insert row))) (sp_assignmentId u);
               problemIndex := default (problemIndex (i_data (s_insert row))) (sp_problemIndex u);
               code := default (code (i_data (s_insert row))) (sp_code u) |};
          i_status := default (i_status (s_insert row)) (sp_status u);
          i_testResults := default (i_testResults (s_insert row)) (sp_testResults u);
          i_score := default (i_score (s_insert row)) (sp_score u) |};
     s_id := default (s_id row) (sp_id u);
     s_submittedAt := default (s_submittedAt row) (sp_submittedAt u) |}.

Module Storage.

Record t : Type := mk {
  users : OMap.t UserRow;
  assignments : OMap.t AssignmentRow;
  submissions : OMap.t Submission
}.

(** [new MemStorage()]. *)
Definition empty : t :=
  {| users := OMap.empty; assignments := OMap.empty; submissions := OMap.empty |}.

Definition getUser (st : t) (id : string) : option UserRow :=
  OMap.get (users st) id.

Definition getUserByUsername (st : t) (username : string) : option UserRow :=
  List.find (λ user, String.eqb (iu_username (ur_insert user)) username)
            (OMap.values (users st)).

Definition getUserByEmail (st : t) (email : string) : option UserRow :=
  List.find (λ user, String.eqb (iu_email (ur_insert user)) email)
            (OMap.values (users st)).

Definition createUser (env : Env) (st : t) (insertUser : InsertUser) : UserRow * t :=
  let id := randomUUID env in
  let user := {| ur_insert := insertUser; ur_id := id; ur_createdAt := now env |} in
  (user,
   {| users := OMap.set (users st) id user;
      assignments := assignments st;
      submissions := submissions st |}).

Definition getAssignment (st : t) (id : string) : option AssignmentRow :=
  OMap.get (assignments st) id.

Definition getAssignmentsByTeacher (st : t) (teacherId : string) : list AssignmentRow :=
  List.filter (λ assignment, String.eqb (ia_teacherId (ar_insert assignment)) teacherId)
              (OMap.values (assignments st)).

Definition getActiveAssignments (st : t) : list AssignmentRow :=
  List.filter (λ assignment, ia_isActive (ar_insert assignment))
              (OMap.values (assignments st)).

Definition createAssignment (env : Env) (st : t) (insertAssignment : InsertAssignment)
    : AssignmentRow * t :=
  let id := randomUUID env in
  let assignment :=
    {| ar_insert := insertAssignment; ar_id := id; ar_createdAt := now env |} in
  (assignment,
   {| users := users st;
      assignments := OMap.set (assignments st) id assignment;
      submissions := submissions st |}).

Definition updateAssignment (st : t) (id : string) (updateData : AssignmentPatch)
    : option AssignmentRow * t :=
  match OMap.get (assignments st) id with
  | None => (None, st)
  | Some assignment =>
      let updatedAssignment := patchAssignment assignment updateData in
      (Some updatedAssignment,
       {| users := users st;
          assignments := OMap.set (assignments st) id updatedAssignment;
          submissions := submissions st |})
  end.

Definition getSubmission (st : t) (id : string) : option Submission :=
  OMap.get (submissions st) id.

Definition getSubmissionsByStudent (st : t) (student : string) : list Submission :=
  List.filter (λ submission, String.eqb (studentId (i_data (s_insert submission))) student)
              (OMap.values (submissions st)).

Definition getSubmissionsByAssignment (st : t) (assignment : string) : list Submission :=
  List.filter (λ submission, String.eqb (assignmentId (i_data (s_insert submission))) assignment)
              (OMap.values (submissions st)).

Definition getStudentSubmissions (st : t) (student assignment : string) : list Submission :=
  List.filter (λ submission,
                 String.eqb (studentId (i_data (s_insert submission))) student
                 && String.eqb (assignmentId (i_data (s_insert submission))) assignment)
              (OMap.values (submissions st)).

Definition createSubmission (env : Env) (st : t) (insertSubmission : InsertSubmission)
    : Submission * t :=
  let id := randomUUID env in
  let submission :=
    {| s_insert := insertSubmission; s_id := id; s_submittedAt := now env |} in
  (submission,
   {| users := users st;
      assignments := assignments st;
      submissions := OMap.set (submissions st) id submission |}).

Definition updateSubmission (st : t) (id : string) (updateData : SubmissionPatch)
    : option Submission * t :=
  match OMap.get (submissions st) id with
  | None => (None, st)
  | Some submission =>
      let updatedSubmission := patchSubmission submission updateData in
      (Some updatedSubmission,
       {| users := users st;
          assignments := assignments st;
          submissions := OMap.set (submissions st) id updatedSubmission |})
  end.

(** The store the submission handler is stated on: the assignments and the
    submissions, without their order. *)
Definition forget (st : t) : MemStorage :=
  mkStorage (toAssignment <$> OMap.to_gmap (assignments st))
            (OMap.to_gmap (submissions st)).

End Storage.

(** ** [parseInt] and the distribution pattern

    Text is read byte by byte; the white space of JavaScript ([\s], and what
    [parseInt] skips) is the six ASCII characters and the UTF-8 encodings of
    U+00A0, U+1680, U+2000 to U+200A, U+2028, U+2029, U+202F, U+205F, U+3000
    and U+FEFF.  Numbers are exact integers (JavaScript loses precision
    above 2^53). *)

Module Text.

Definition byte (c : ascii) : N := N_of_ascii c.

Definition isDigit (c : ascii) : bool := ((48 <=? byte c) && (byte c <=? 57))%N.

Definition isAsciiSpace (c : ascii) : bool :=
  ((9 <=? byte c) && (byte c <=? 13) || (byte c =? 32))%N.

Definition isSpace2 (c1 c2 : ascii) : bool :=
  ((byte c1 =? 194) && (byte c2 =? 160))%N.

Definition isSpace3 (c1 c2 c3 : ascii) : bool :=
  ((byte c1 =? 225) && (byte c2 =? 154) && (byte c3 =? 128)
   || (byte c1 =? 226) && (byte c2 =? 128)
      && ((128 <=? byte c3) && (byte c3 <=? 138)
          || (byte c3 =? 168) || (byte c3 =? 169) || (byte c3 =? 175))
   || (byte c1 =? 226) && (byte c2 =? 129) && (byte c3 =? 159)
   || (byte c1 =? 227) && (byte c2 =? 128) && (byte c3 =? 128)
   || (byte c1 =? 239) && (byte c2 =? 187) && (byte c3 =? 191))%N.

(** Drop the white space in front ([\s*], greedy). *)
Fixpoint skipSpaces (s : string) : string :=
  match s with
  | EmptyString => s
  | String c1 r1 =>
      if isAsciiSpace c1 then skipSpaces r1
      else match r1 with
           | EmptyString => s
           | String c2 r2 =>
               if isSpace2 c1 c2 then skipSpaces r2
               else match r2 with
                    | EmptyString => s
                    | String c3 r3 => if isSpace3 c1 c2 c3 then skipSpaces r3 else s
                    end
           end
  end.

(** [\s+]: at least one white-space character, then as [\s*]. *)
Definition spaces1 (s : string) : option string :=
  let r := skipSpaces s in
  if (String.length r <? String.length s)%nat then Some r else None.

(** [(\d+)], greedy: the longest run of decimal digits and what follows it. *)
Fixpoint digitRun (s : string) : string * string :=
  match s with
  | EmptyString => (EmptyString, s)
  | String c r =>
      if isDigit c
      then let '(run, rest) := digitRun r in (String c run, rest)
      else (EmptyString, s)
  end.

(** A literal of the pattern under the [i] flag; [w] is given in lower case. *)
Fixpoint word (w s : string) : option string :=
  match w with
  | EmptyString => Some s
  | String a w' =>
      match s with
      | EmptyString => None
      | String c s' =>
          if Ascii.eqb (JS.lower_ascii c) a then word w' s' else None
      end
  end.

(** The pattern [(\d+)\s+Easy,\s*(\d+)\s+Medium,\s*(\d+)\s+Hard] tried at
    the start of [s].  Digits, white space and the letters that follow are
    disjoint classes, so the greedy reading is the only one. *)
Definition matchHere (s : string) : option (string * string * string) :=
  let '(g1, s) := digitRun s in
  if String.eqb g1 EmptyString then None else
  match spaces1 s with
  | None => None
  | Some s =>
  match word "easy," s with
  | None => None
  | Some s =>
  let '(g2, s) := digitRun (skipSpaces s) in
  if String.eqb g2 EmptyString then None else
  match spaces1 s with
  | None => None
  | Some s =>
  match word "medium," s with
  | None => None
  | Some s =>
  let '(g3, s) := digitRun (skipSpaces s) in
  if String.eqb g3 EmptyString then None else
  match spaces1 s with
  | None => None
  | Some s =>
  match word "hard" s with
  | None => None
  | Some _ => Some (g1, g2, g3)
  end end end end end end.

(** [s.match(/.../i)]: the groups of the leftmost match, if any. *)
Fixpoint matchDistribution (s : string) : option (string * string * string) :=
  match matchHere s with
  | Some groups => Some groups
  | None =>
      match s with
      | EmptyString => None
      | String _ s' => matchDistribution s'
      end
  end.

Definition digitValue (c : ascii) : option Z :=
  let b := byte c in
  if ((48 <=? b) && (b <=? 57))%N then Some (Z.of_N b - 48)
  else if ((97 <=? b) && (b <=? 102))%N then Some (Z.of_N b - 87)
  else if ((65 <=? b) && (b <=? 70))%N then Some (Z.of_N b - 55)
  else None.

(** The digits of the given radix in front of [s], read from [acc]; [None]
    when there is none. *)
Fixpoint readDigits (radix : Z) (acc : option Z) (s : string) : option Z :=
  match s with
  | EmptyString => acc
  | String c r =>
      match digitValue c with
      | Some d =>
          if d <? radix then readDigits radix (Some (radix * default 0 acc + d)) r
          else acc
      | None => acc
      end
  end.

(** [parseInt(s)]: white space, a sign, [0x] for radix 16, digits.  The value
    is the exact integer; JavaScript rounds it to a double, which changes it
    only beyond [2 ^ 53]. *)
Definition parseInt (s : string) : JS.jsnum :=
  let s := skipSpaces s in
  let '(sign, s) :=
    match s with
    | String "-" r => (-1, r)
    | String "+" r => (1, r)
    | _ => (1, s)
    end in
  let '(radix, s) :=
    match s with
    | String "0" (String "x" r) => (16, r)
    | String "0" (String "X" r) => (16, r)
    | _ => (10, s)
    end in
  match readDigits radix None s with
  | None => JS.NaN
  | Some z => JS.Num (sign * z)
  end.

(** [n || d] on numbers: [d] for [NaN] and for zero. *)
Definition orElse (n : JS.jsnum) (d : Z) : Z :=
  match n with
  | JS.Num z => if z =? 0 then d else z
  | JS.NaN => d
  end.

(** The number of rounds of [for (let i = 0; i < n; i++)]. *)
Definition rounds (n : JS.jsnum) : nat :=
  match n with
  | JS.Num z => Z.to_nat z
  | JS.NaN => O
  end.

End Text.

(** ** The other routes of [registerRoutes], on the repository class *)

Inductive Payload : Type :=
| Said (message : string)
| Generated (assignment : AssignmentRow) (problems : list Problem)
| AssignmentList (rows : list AssignmentRow)
| AssignmentDetails (row : AssignmentRow)
| SubmissionList (rows : list Submission)
| RunResult (success : bool) (output : string) (error : option string)
| TeacherStats (totalAssignments activeStudents totalSubmissions : nat) (averageScore : Z)
| StudentStats (completed : nat) (inProgress : Z) (averageScore : Z).

Record Answer : Type := mkAnswer {
  statusCode : Z;
  payload : Payload
}.

Definition isTeacher (u : User) : bool :=
  match u_role u with teacher => true | student => false end.

(** The body of the generation request; [None] stands for a distribution
    that is not a string (its [match] throws), and the time limit is the text
    [parseInt] reads. *)
Record GenerateBody : Type := mkGenerateBody {
  g_topic : string;
  g_difficultyDistribution : option string;
  g_timeLimit : string
}.

Module Routes.

(** [POST /api/assignments/generate]. *)
Definition postGenerate (openai : option OpenAI) (env : Env) (st : Storage.t)
    (session : option User) (body : GenerateBody) : Answer * Storage.t :=
  match session with
  | None => ({| statusCode := 403; payload := Said "Access denied. Teachers only." |}, st)
  | Some user =>
  if negb (isTeacher user)
  then ({| statusCode := 403; payload := Said "Access denied. Teachers only." |}, st)
  else
  match g_difficultyDistribution body with
  | None => ({| statusCode := 500; payload := Said "Failed to generate assignment" |}, st)
  | Some difficultyDistribution =>
  (* Parse difficulty distribution (e.g., "7 Easy, 6 Medium, 2 Hard") *)
  match Text.matchDistribution difficultyDistribution with
  | None =>
      ({| statusCode := 400; payload := Said "Invalid difficulty distribution format" |}, st)
  | Some (g1, g2, g3) =>
  let difficulty :=
    {| easy := Text.rounds (Text.parseInt g1);
       medium := Text.rounds (Text.parseInt g2);
       hard := Text.rounds (Text.parseInt g3) |} in
  match generateAssignment openai
          {| topic := g_topic body; counts := difficulty;
             minutes := Text.orElse (Text.parseInt (g_timeLimit body)) 180 |} with
  | Throws _ => ({| statusCode := 500; payload := Said "Failed to generate assignment" |}, st)
  | Returns problems =>
      (* Create assignment *)
      let '(assignment, st') :=
        Storage.createAssignment env st
          {| ia_title := g_topic body +:+ " - AI Generated Assignment";
             ia_description :=
               "Auto-generated assignment covering " +:+ g_topic body +:+ " with "
                 +:+ pretty (length problems) +:+ " problems";
             ia_teacherId := u_id user;
             ia_problems := problems;
             ia_timeLimit := Some (Text.orElse (Text.parseInt (g_timeLimit body)) 180);
             ia_dueDate := None;
             ia_isActive := true |} in
      ({| statusCode := 200; payload := Generated assignment problems |}, st')
  end end end end.

(** [GET /api/assignments/teacher]. *)
Definition getTeacherAssignments (st : Storage.t) (session : option User) : Answer :=
  match session with
  | Some user =>
      if isTeacher user
      then {| statusCode := 200;
              payload := AssignmentList (Storage.getAssignmentsByTeacher st (u_id user)) |}
      else {| statusCode := 403; payload := Said "Access denied. Teachers only." |}
  | None => {| statusCode := 403; payload := Said "Access denied. Teachers only." |}
  end.

(** [GET /api/assignments/active]. *)
Definition getActive (st : Storage.t) (session : option User) : Answer :=
  match session with
  | Some user =>
      if isStudent user
      then {| statusCode := 200; payload := AssignmentList (Storage.getActiveAssignments st) |}
      else {| statusCode := 403; payload := Said "Access denied. Students only." |}
  | None => {| statusCode := 403; payload := Said "Access denied. Students only." |}
  end.

(** [GET /api/assignments/:id]. *)
Definition getAssignmentDetails (st : Storage.t) (session : option User) (id : string)
    : Answer :=
  match session with
  | None => {| statusCode := 401; payload := Said "Authentication required" |}
  | Some user =>
      match Storage.getAssignment st id with
      | None => {| statusCode := 404; payload := Said "Assignment not found" |}
      | Some assignment =>
          (* Students can only access active assignments *)
          if isStudent user && negb (ia_isActive (ar_insert assignment))
          then {| statusCode := 403; payload := Said "Assignment not available" |}
          else {| statusCode := 200; payload := AssignmentDetails assignment |}
      end
  end.

(** [GET /api/submissions/student/:assignmentId]. *)
Definition getOwnSubmissions (st : Storage.t) (session : option User) (assignmentId : string)
    : Answer :=
  match session with
  | Some user =>
      if isStudent user
      then {| statusCode := 200;
              payload := SubmissionList
                           (Storage.getStudentSubmissions st (u_id user) assignmentId) |}
      else {| statusCode := 403; payload := Said "Access denied. Students only." |}
  | None => {| statusCode := 403; payload := Said "Access denied. Students only." |}
  end.

(** [GET /api/submissions/assignment/:assignmentId]. *)
Definition getAssignmentSubmissions (st : Storage.t) (session : option User)
    (assignmentId : string) : Answer :=
  match session with
  | Some user =>
      if isTeacher user
      then {| statusCode := 200;
              payload := SubmissionList (Storage.getSubmissionsByAssignment st assignmentId) |}
      else {| statusCode := 403; payload := Said "Access denied. Teachers only." |}
  | None => {| statusCode := 403; payload := Said "Access denied. Teachers only." |}
  end.

(** [POST /api/code/run]; [None] is a body whose [code] has no [includes]
    method (absent, [null], a number, an object), on which [code.includes]
    throws.  A [code] that is an array, which has an [includes] of its own, is
    not represented. *)
Definition postRun (session : option User) (code : option string) : Answer :=
  match session with
  | Some user =>
      if isStudent user then
        match code with
        | None => {| statusCode := 500; payload := Said "Failed to run code" |}
        | Some code =>
            (* Simulate code execution *)
            let hasMainFunction := JS.includes code "int main" in
            let hasInclude := JS.includes code "#include" in
            if negb hasMainFunction || negb hasInclude
            then {| statusCode := 200;
                    payload := RunResult false EmptyString
                      (Some "Compilation error: Missing main function or include statements") |}
            else {| statusCode := 200;
                    payload := RunResult true
                      ("Program executed successfully." +:+ JS.nl
                         +:+ "Sample output based on your code structure.") None |}
        end
      else {| statusCode := 403; payload := Said "Access denied. Students only." |}
  | None => {| statusCode := 403; payload := Said "Access denied. Students only." |}
  end.

(** [s.score || 0]. *)
Definition scoreOrZero (s : Submission) : Z := Text.orElse (s_score s) 0.

(** [Math.round(sum / n)] for a positive count [n], in exact arithmetic. *)
Definition roundDiv (sum : Z) (n : nat) : Z := (2 * sum + Z.of_nat n) / (2 * Z.of_nat n).

(** The average of the statistics routes: 0 without submissions. *)
Definition averageScore (subs : list Submission) : Z :=
  if (0 <? length subs)%nat
  then roundDiv (foldl (λ sum s, sum + scoreOrZero s) 0 subs) (length subs)
  else 0.

(** [new Set(xs).size]. *)
Definition distinct (xs : list string) : nat := length (remove_dups xs).

(** [GET /api/stats/teacher]. *)
Definition getTeacherStats (st : Storage.t) (session : option User) : Answer :=
  match session with
  | Some user =>
      if isTeacher user then
        let assignments := Storage.getAssignmentsByTeacher st (u_id user) in
        let allSubmissions :=
          (λ a, Storage.getSubmissionsByAssignment st (ar_id a)) <$> assignments in
        let submissions := concat allSubmissions in
        let uniqueStudents :=
          distinct ((λ s, studentId (i_data (s_insert s))) <$> submissions) in
        {| statusCode := 200;
           payload := TeacherStats (length assignments) uniqueStudents (length submissions)
                                   (averageScore submissions) |}
      else {| statusCode := 403; payload := Said "Access denied. Teachers only." |}
  | None => {| statusCode := 403; payload := Said "Access denied. Teachers only." |}
  end.

Definition isPassed (s : Submission) : bool :=
  match s_status s with passed => true | _ => false end.

(** [GET /api/stats/student]. *)
Definition getStudentStats (st : Storage.t) (session : option User) : Answer :=
  match session with
  | Some user =>
      if isStudent user then
        let submissions := Storage.getSubmissionsByStudent st (u_id user) in
        let assignments := Storage.getActiveAssignments st in
        let completedAssignments :=
          distinct ((λ s, assignmentId (i_data (s_insert s)))
                      <$> List.filter isPassed submissions) in
        let inProgressAssignments :=
          Z.of_nat (length assignments) - Z.of_nat completedAssignments in
        {| statusCode := 200;
           payload := StudentStats completedAssignments (Z.max 0 inProgressAssignments)
                                   (averageScore submissions) |}
      else {| statusCode := 403; payload := Said "Access denied. Students only." |}
  | None => {| statusCode := 403; payload := Said "Access denied. Students only." |}
  end.

End Routes.

(** ** The student dashboard: which problem the editor shows

    The four state variables of [StudentDashboard] and the handlers of its
    buttons.  The start button is rendered in the assignments view; back,
    previous and next are rendered in the editor view. *)

Module Dashboard.

Inductive View : Type := assignmentsView | editorView.

Record State : Type := mkState {
  currentView : View;
  selectedAssignment : option Assignment;
  selectedProblem : option Problem;
  problemIndex : Z
}.

(** The state after the first render. *)
Definition initial : State :=
  {| currentView := assignmentsView; selectedAssignment := None;
     selectedProblem := None; problemIndex := 0 |}.

Definition handleStartAssignment (s : State) (assignment : Assignment) : State :=
  let problems := a_problems assignment in
  if (0 <? length problems)%nat
  then {| currentView := editorView; selectedAssignment := Some assignment;
          selectedProblem := problemAt problems 0; problemIndex := 0 |}
  else {| currentView := editorView; selectedAssignment := Some assignment;
          selectedProblem := selectedProblem s; problemIndex := problemIndex s |}.

Definition handleBackToAssignments (s : State) : State :=
  {| currentView := assignmentsView; selectedAssignment := None;
     selectedProblem := None; problemIndex := 0 |}.

Definition handleNextProblem (s : State) : State :=
  match selectedAssignment s with
  | Some assignment =>
      let problems := a_problems assignment in
      let nextIndex := Z.min (problemIndex s + 1) (Z.of_nat (length problems) - 1) in
      {| currentView := currentView s; selectedAssignment := selectedAssignment s;
         selectedProblem := problemAt problems nextIndex; problemIndex := nextIndex |}
  | None => s
  end.

Definition handlePreviousProblem (s : State) : State :=
  match selectedAssignment s with
  | Some assignment =>
      let problems := a_problems assignment in
      let prevIndex := Z.max (problemIndex s - 1) 0 in
      {| currentView := currentView s; selectedAssignment := selectedAssignment s;
         selectedProblem := problemAt problems prevIndex; problemIndex := prevIndex |}
  | None => s
  end.

(** What the user can do: a button can be pressed in the view that renders
    it.  (Previous and next are moreover disabled at the ends of the list;
    the relation allows them there too, which only adds steps.) *)
Inductive step : State → State → Prop :=
| step_start s assignment :
    currentView s = assignmentsView → step s (handleStartAssignment s assignment)
| step_back s :
    currentView s = editorView → step s (handleBackToAssignments s)
| step_next s :
    currentView s = editorView → step s (handleNextProblem s)
| step_previous s :
    currentView s = editorView → step s (handlePreviousProblem s).

Inductive reachable : State → Prop :=
| reachable_initial : reachable initial
| reachable_step s s' : reachable s → step s s' → reachable s'.

(** What the editor, when it is rendered, submits: the id of the selected
    assignment and the current index. *)
Definition editorSubmits (s : State) : option (string * Z * Problem) :=
  match selectedProblem s, selectedAssignment s with
  | Some problem, Some assignment => Some (a_id assignment, problemIndex s, problem)
  | _, _ => None
  end.

End Dashboard.

(** The invariant of the dashboard: in the editor view the problem on screen
    is the one the index addresses. *)
Definition dashboardInvariant (s : Dashboard.State) : Prop :=
  match Dashboard.currentView s with
  | Dashboard.assignmentsView =>
      Dashboard.selectedAssignment s = None
      ∧ Dashboard.selectedProblem s = None
      ∧ Dashboard.problemIndex s = 0
  | Dashboard.editorView =>
      ∃ assignment,
        Dashboard.selectedAssignment s = Some assignment
        ∧ Dashboard.selectedProblem s
          = problemAt (a_problems assignment) (Dashboard.problemIndex s)
  end.

(** A stored score that is absent ([NaN]) or within 0 to 100. *)
Definition scoreInRange (s : Submission) : Prop :=
  match s_score s with
  | JS.Num z => 0 <= z <= 100
  | JS.NaN => True
  end.

(** ** Shapes of text used to state what the pattern accepts *)

Fixpoint allDigits (s : string) : bool :=
  match s with
  | EmptyString => true
  | String c r => Text.isDigit c && allDigits r
  end.

Fixpoint noDigits (s : string) : bool :=
  match s with
  | EmptyString => true
  | String c r => negb (Text.isDigit c) && noDigits r
  end.

(** The distribution as the generator form writes it, as in
    ["7 Easy, 6 Medium, 2 Hard"]. *)
Definition distribution (e m h : nat) : string :=
  pretty e +:+ " Easy, " +:+ pretty m +:+ " Medium, " +:+ pretty h +:+ " Hard".

(** The update that deactivates an assignment. *)
Definition deactivate : AssignmentPatch :=
  {| ap_id := None; ap_title := None; ap_description := None; ap_teacherId := None;
     ap_problems := None; ap_timeLimit := None; ap_dueDate := None;
     ap_isActive := Some false; ap_createdAt := None |}.

(** ** Sample data: one generated assignment, one student *)

Module Sample.

Definition problems : list Problem :=
  generateSampleProblems "Recursion" {| easy := 2; medium := 0; hard := 0 |}.

Definition assignment : Assignment :=
  {| a_id := "a-1";
     a_title := "Recursion - AI Generated Assignment";
     a_description := "Auto-generated assignment covering Recursion with 2 problems";
     a_teacherId := "t-1";
     a_problems := problems;
     a_timeLimit := Some 180;
     a_isActive := true |}.

Definition store : MemStorage :=
  {| assignments := {[ "a-1" := assignment ]}; submissions := ∅ |}.

Definition alice : User := {| u_id := "s-1"; u_role := student |}.

(** Every simulated test case passes ([Math.random()] is 0.5). *)
Definition env : Env :=
  {| randomUUID := "sub-1"; now := 1700000000; random := λ _, 1 # 2 |}.

(** A later moment: another id is drawn, and no simulated test case passes. *)
Definition later : Env :=
  {| randomUUID := "sub-2"; now := 1700000060; random := λ _, 1 # 10 |}.

Definition submit (problemIndex : Z) (code : string) : Request :=
  {| session := Some alice;
     body := {| b_assignmentId := Some "a-1";
                b_problemIndex := Some problemIndex;
                b_code := Some code |} |}.

Definition payload (problemIndex : Z) (code : string) : SubmissionData :=
  {| studentId := "s-1"; assignmentId := "a-1";
     problemIndex := problemIndex; code := code |}.

Definition hello : Problem :=
  described "Recursion"
    (mkTemplate "Hello World Program"
       "Write a C program that prints 'Hello, World!' to the console."
       "No input required."
       "Print 'Hello, World!' followed by a newline."
       "None" EmptyString "Hello, World!"
       [ mkTestCase EmptyString "Hello, World!" ])
    Easy 1 64 1.

(** A complete program, and one that only calls [printf]. *)
Definition goodCode : string :=
  "#include <stdio.h>" +:+ JS.nl +:+ "int main() { printf(Hello, World!); return 0; }".


(** A provider whose calls always fail, and one that grades everything 5. *)
Definition failing : OpenAI :=
  {| generation := λ _, Failure "timeout"; critique := λ _, Failure "timeout" |}.

Definition harsh : OpenAI :=
  {| generation := λ _, Parsed [];
     critique := λ _, Parsed {| r_feedback := "Incomplete."; r_suggestions := None;
                                 r_score := Some 5 |} |}.

(** The dashboard after opening the sample assignment and pressing next. *)
Definition editing : Dashboard.State :=
  Dashboard.handleNextProblem
    (Dashboard.handleStartAssignment Dashboard.initial assignment).

(** The second problem of the sample assignment. *)
Definition sum : Problem :=
  described "Recursion"
    (mkTemplate "Sum of Two Numbers"
       "Write a C program that reads two integers and prints their sum."
       "Two integers a and b separated by a space."
       "Print the sum of a and b."
       "1 ≤ a, b ≤ 1000" "5 3" "8"
       [ mkTestCase "5 3" "8"; mkTestCase "10 20" "30"; mkTestCase "1 1" "2" ])
    Easy 1 64 2.

(** The repository after a teacher has generated the sample assignment. *)
Definition bob : User := {| u_id := "t-1"; u_role := teacher |}.

Definition row : AssignmentRow :=
  {| ar_insert :=
       {| ia_title := "Recursion - AI Generated Assignment";
          ia_description := "Auto-generated assignment covering Recursion with 2 problems";
          ia_teacherId := "t-1";
          ia_problems := problems;
          ia_timeLimit := Some 180;
          ia_dueDate := None;
          ia_isActive := true |};
     ar_id := "a-1";
     ar_createdAt := 1699990000 |}.

Definition repo : Storage.t :=
  {| Storage.users := OMap.empty;
     Storage.assignments := [ ("a-1", row) ];
     Storage.submissions := OMap.empty |}.



End Sample.

(** * Properties *)

(** ** String primitives *)

Lemma append_cons (c : ascii) (a b : string) : String c a +:+ b = String c (a +:+ b).
Proof. reflexivity. Qed.

Lemma append_empty (b : string) : EmptyString +:+ b = b.
Proof. reflexivity. Qed.

Lemma prefix_spec (n s : string) :
  String.prefix n s = true ↔ ∃ b, s = n +:+ b.
Proof.
  revert s. induction n as [|c n IH]; intros s.
  - simpl. destruct s; split; eauto.
  - destruct s as [|c' s]; simpl.
    + split; [discriminate | intros [b Hb]; discriminate].
    + destruct (ascii_dec c c') as [->|Hne].
      * rewrite IH. split; intros [b Hb]; exists b.
        -- by rewrite append_cons, Hb.
        -- rewrite append_cons in Hb. by injection Hb.
      * split; [discriminate|]. intros [b Hb].
        rewrite append_cons in Hb. by injection Hb.
Qed.

Lemma includes_empty (n : string) :
  JS.includes EmptyString n = if String.prefix n EmptyString then true else false.
Proof. reflexivity. Qed.

Lemma includes_cons (c : ascii) (s n : string) :
  JS.includes (String c s) n
  = if String.prefix n (String c s) then true else JS.includes s n.
Proof. reflexivity. Qed.

(** [includes] is the substring test: the needle sits somewhere between a
    left and a right remainder. *)
Lemma includes_spec (s n : string) :
  JS.includes s n = true ↔ ∃ a b, s = a +:+ n +:+ b.
Proof.
  induction s as [|c s IH]; [rewrite includes_empty | rewrite includes_cons].
  - destruct (String.prefix n EmptyString) eqn:Hp.
    + apply prefix_spec in Hp as [b Hb]. split; [|done].
      intros _. by exists EmptyString, b.
    + split; [discriminate|]. intros (a & b & Hs).
      destruct a as [|c' a]; [|discriminate].
      rewrite append_empty in Hs.
      assert (String.prefix n EmptyString = true) by (apply prefix_spec; eauto).
      congruence.
  - destruct (String.prefix n (String c s)) eqn:Hp.
    + apply prefix_spec in Hp as [b Hb]. split; [|done].
      intros _. by exists EmptyString, b.
    + rewrite IH. split.
      * intros (a & b & ->). by exists (String c a), b.
      * intros (a & b & Hs). destruct a as [|c' a].
        -- rewrite append_empty in Hs.
           assert (String.prefix n (String c s) = true) by (apply prefix_spec; eauto).
           congruence.
        -- rewrite append_cons in Hs. injection Hs as -> ->. eauto.
Qed.

(** ** The heuristic analyzer *)

Section AnalyzerFacts.

Variables (code : string) (problem : Problem).

Lemma suggest_score l s d : l_score (suggest l s d) = l_score l + d.
Proof. reflexivity. Qed.

(** After the three structural checks the score is at least 30: either the
    entry point is missing (60 - 20, no return penalty, at most - 10 for the
    include) or it is present (60 + 10, at most - 5 and - 10). *)
Lemma structure_score_lower :
  30 <= l_score (checkReturn code (checkStdio code (checkMain code initLocals))).
Proof.
  unfold checkReturn, checkStdio, checkMain, initLocals.
  destruct (JS.includes code "int main"), (JS.includes code "#include <stdio.h>"),
    (JS.includes code "return"), (JS.includes code "printf"),
    (JS.includes code "scanf"); simpl; lia.
Qed.

Lemma structure_score_upper :
  l_score (checkReturn code (checkStdio code (checkMain code initLocals))) <= 80.
Proof.
  unfold checkReturn, checkStdio, checkMain, initLocals.
  destruct (JS.includes code "int main"), (JS.includes code "#include <stdio.h>"),
    (JS.includes code "return"), (JS.includes code "printf"),
    (JS.includes code "scanf"); simpl; lia.
Qed.

(** The topic check moves the score by one of 20, 15, 10, 0, -10, -15. *)
Lemma checkTopic_score l :
  l_score l - 15 <= l_score (checkTopic code problem l) <= l_score l + 20.
Proof.
  unfold checkTopic.
  repeat match goal with
         | |- context [if ?b then _ else _] => destruct b
         end; simpl; lia.
Qed.

Lemma checkComments_score l :
  l_score l <= l_score (checkComments code l) <= l_score l + 5.
Proof.
  unfold checkComments.
  destruct (JS.includes code "//" || JS.includes code "/*"); simpl; lia.
Qed.

(** The comment check always pushes one suggestion. *)
Lemma checkComments_suggestions l :
  ∃ s, l_suggestions (checkComments code l) = (l_suggestions l ++ [s])%list.
Proof.
  unfold checkComments.
  destruct (JS.includes code "//" || JS.includes code "/*"); eexists; reflexivity.
Qed.

Lemma analyzeLocals_score : 15 <= l_score (analyzeLocals code problem) <= 105.
Proof.
  unfold analyzeLocals.
  pose proof structure_score_lower as Hlo.
  pose proof structure_score_upper as Hhi.
  pose proof (checkTopic_score
                (checkReturn code (checkStdio code (checkMain code initLocals)))) as Ht.
  pose proof (checkComments_score
                (checkTopic code problem
                   (checkReturn code (checkStdio code (checkMain code initLocals))))) as Hc.
  lia.
Qed.

Lemma analyzeLocals_suggestions : l_suggestions (analyzeLocals code problem) ≠ [].
Proof.
  unfold analyzeLocals.
  destruct (checkComments_suggestions
              (checkTopic code problem
                 (checkReturn code (checkStdio code (checkMain code initLocals)))))
    as [s ->].
  intros H. by apply app_eq_nil in H as [_ ?].
Qed.

Lemma analyze_score_eq :
  score (analyzeCodeBuiltIn code problem) = JS.clamp100 (l_score (analyzeLocals code problem)).
Proof. reflexivity. Qed.

Lemma analyze_score_bounds : 15 <= score (analyzeCodeBuiltIn code problem) <= 100.
Proof.
  rewrite analyze_score_eq. pose proof analyzeLocals_score as H.
  unfold JS.clamp100. lia.
Qed.

End AnalyzerFacts.

(** C4.  For every code string and every problem the score of the heuristic
    analyzer lies between 0 and 100. *)
Theorem analyzeCodeBuiltIn_score_range (code : string) (problem : Problem) :
  0 <= score (analyzeCodeBuiltIn code problem) <= 100.
Proof. rewrite analyze_score_eq. unfold JS.clamp100. lia. Qed.

(** The two extremes named with the bound: the empty program, and a program
    that earns every bonus (Scenario B, with a comment on top), whose raw
    score of 105 is cut to 100. *)
Example analyze_empty :
  score (analyzeCodeBuiltIn EmptyString
           (mkProblem "problem_1" "Recursion - Hello World Program" "d" "i" "o" "c"
                      EmptyString "Hello, World!" Easy 1 64 [])) = 25.
Proof. vm_compute. reflexivity. Qed.

Example analyze_maximal :
  let code := "#include <stdio.h> // greet" +:+ JS.nl
              +:+ "int main() { printf(Hello, World!); return 0; }" in
  let problem := mkProblem "problem_1" "Recursion - Hello World Program" "d" "i" "o" "c"
                           EmptyString "Hello, World!" Easy 1 64 [] in
  l_score (analyzeLocals code problem) = 105
  ∧ score (analyzeCodeBuiltIn code problem) = 100.
Proof. vm_compute. split; reflexivity. Qed.

(** C9.  The suggestions returned by the heuristic analyzer are never empty:
    the comment check pushes one in both of its branches. *)
Theorem analyzeCodeBuiltIn_suggestions_nonempty (code : string) (problem : Problem) :
  suggestions (analyzeCodeBuiltIn code problem) ≠ [].
Proof.
  unfold analyzeCodeBuiltIn. cbv zeta. simpl suggestions.
  pose proof (analyzeLocals_suggestions code problem) as Hne.
  destruct (l_suggestions (analyzeLocals code problem)) as [|s ss]; [done|].
  simpl. discriminate.
Qed.

(** C10.  The score of the heuristic analyzer is at least 15; the score
    before clamping already is, so the lower clamp never binds. *)
Theorem analyzeCodeBuiltIn_score_at_least_15 (code : string) (problem : Problem) :
  15 <= l_score (analyzeLocals code problem)
  ∧ 15 <= score (analyzeCodeBuiltIn code problem)
  ∧ score (analyzeCodeBuiltIn code problem) = Z.min 100 (l_score (analyzeLocals code problem)).
Proof.
  pose proof (analyzeLocals_score code problem) as H.
  rewrite analyze_score_eq. unfold JS.clamp100. lia.
Qed.

(** The bound 15 is reached. *)
Example analyze_lowest :
  score (analyzeCodeBuiltIn "printf"
           (mkProblem "problem_1" "Hello World" "d" "i" "o" "c"
                      EmptyString "Hello, World!" Easy 1 64 [])) = 15.
Proof. vm_compute. reflexivity. Qed.


(** Scenario A and Scenario B. *)
Example scenario_A :
  analyzeCodeBuiltIn "int main(){return 0;}"
    (mkProblem "problem_1" "X - Hello World Program" "d" "i" "o" "c"
               EmptyString "Hello, World!" Easy 1 64 [])
  = {| feedback := "Your code has been analyzed. Good effort! There are some areas for improvement.";
       suggestions := [ "Make sure to print exactly 'Hello, World!' using printf";
                        "Consider adding comments to explain your logic" ];
       score := 60 |}.
Proof. vm_compute. reflexivity. Qed.

Example scenario_B :
  analyzeCodeBuiltIn Sample.goodCode Sample.hello
  = {| feedback := "Great! Your Hello World program looks correct. Excellent work! Your solution looks well-structured.";
       suggestions := [ "Consider adding comments to explain your logic" ];
       score := 100 |}.
Proof. vm_compute. reflexivity. Qed.

(** ** The critique adapter *)

(** C5.  Without a configured provider, [analyzeCode] returns exactly what the
    built-in analyzer returns, for every code and problem. *)
Theorem analyzeCode_without_provider (code : string) (problem : Problem) :
  analyzeCode None code problem = Returns (analyzeCodeBuiltIn code problem).
Proof. reflexivity. Qed.

(** With a provider the built-in analyzer is not consulted: the score is the
    provider's, clamped. *)
Lemma analyzeCode_score_range openai code problem a :
  analyzeCode openai code problem = Returns a → 0 <= score a <= 100.
Proof.
  destruct openai as [client|]; simpl.
  - destruct (critique client _) as [msg|result]; [discriminate|].
    intros [= <-]. simpl. unfold JS.clamp100. lia.
  - intros [= <-]. pose proof (analyze_score_bounds code problem). lia.
Qed.


(** ** The submission handler *)

Lemma problemAt_None (ps : list Problem) (i : Z) :
  problemAt ps i = None ↔ i < 0 ∨ Z.of_nat (length ps) <= i.
Proof.
  unfold problemAt. destruct (Z.ltb_spec i 0) as [Hneg|Hpos].
  - split; [intros _; by left | done].
  - rewrite lookup_ge_None. split.
    + intros Hge. right. lia.
    + intros [Hlt|Hge]; lia.
Qed.

Lemma problemAt_Some (ps : list Problem) (i : Z) (p : Problem) :
  problemAt ps i = Some p → 0 <= i < Z.of_nat (length ps).
Proof.
  intros Hp. destruct (decide (0 <= i < Z.of_nat (length ps))) as [|Hout]; [done|].
  assert (problemAt ps i = None) as Hn by (apply problemAt_None; lia).
  congruence.
Qed.

(** What passing the four gates means. *)
Lemma resolve_inr (st : MemStorage) (req : Request) (data : SubmissionData) (problem : Problem) :
  resolve st req = inr (data, problem) ↔
  ∃ user assignment,
    session req = Some user
    ∧ isStudent user = true
    ∧ parse (body req) (u_id user) = Some data
    ∧ getAssignment st (assignmentId data) = Some assignment
    ∧ a_isActive assignment = true
    ∧ problemAt (a_problems assignment) (problemIndex data) = Some problem.
Proof.
  unfold resolve. split.
  - destruct (session req) as [user|]; [|discriminate].
    destruct (isStudent user) eqn:Hrole; [|discriminate]. simpl.
    destruct (parse (body req) (u_id user)) as [d|] eqn:Hparse; [|discriminate].
    destruct (getAssignment st (assignmentId d)) as [a|] eqn:Ha; [|discriminate].
    destruct (a_isActive a) eqn:Hact; [|discriminate]. simpl.
    destruct (problemAt (a_problems a) (problemIndex d)) as [p|] eqn:Hp; [|discriminate].
    intros [= <- <-]. exists user, a. done.
  - intros (user & a & -> & -> & -> & -> & -> & ->). reflexivity.
Qed.

(** A rejected request leaves the store as it was. *)
Lemma postSubmissions_rejected openai env st req rejection :
  resolve st req = inl rejection →
  postSubmissions openai env st req = (rejection, st).
Proof. unfold postSubmissions. by intros ->. Qed.

Lemma postSubmissions_resolved openai env st req data problem :
  resolve st req = inr (data, problem) →
  postSubmissions openai env st req = evaluate openai env st data problem.
Proof. unfold postSubmissions. by intros ->. Qed.

(** C7.  A submission whose [problemIndex] lies outside the problems of the
    resolved assignment (negative, or at least their number) is answered 400
    and the store is returned unchanged: no Submission is created. *)
Theorem invalid_problemIndex_rejected (openai : option OpenAI) (env : Env)
    (st : MemStorage) (req : Request) (user : User) (data : SubmissionData)
    (assignment : Assignment) :
  session req = Some user →
  isStudent user = true →
  parse (body req) (u_id user) = Some data →
  getAssignment st (assignmentId data) = Some assignment →
  a_isActive assignment = true →
  problemIndex data < 0 ∨ Z.of_nat (length (a_problems assignment)) <= problemIndex data →
  postSubmissions openai env st req
  = ({| http := 400; json := Message "Invalid problem index" |}, st).
Proof.
  intros Hs Hr Hp Ha Hact Hidx.
  apply problemAt_None in Hidx.
  apply postSubmissions_rejected.
  unfold resolve. rewrite Hs, Hr. simpl. rewrite Hp, Ha, Hact. simpl.
  rewrite Hidx. reflexivity.
Qed.

Lemma invalid_problemIndex_rejected_witness :
  session (Sample.submit 2 Sample.goodCode) = Some Sample.alice
  ∧ isStudent Sample.alice = true
  ∧ parse (body (Sample.submit 2 Sample.goodCode)) (u_id Sample.alice)
    = Some (Sample.payload 2 Sample.goodCode)
  ∧ getAssignment Sample.store (assignmentId (Sample.payload 2 Sample.goodCode))
    = Some Sample.assignment
  ∧ a_isActive Sample.assignment = true
  ∧ (problemIndex (Sample.payload 2 Sample.goodCode) < 0
     ∨ Z.of_nat (length (a_problems Sample.assignment))
       <= problemIndex (Sample.payload 2 Sample.goodCode))
  ∧ postSubmissions None Sample.env Sample.store (Sample.submit 2 Sample.goodCode)
    = ({| http := 400; json := Message "Invalid problem index" |}, Sample.store).
Proof.
  assert (problemIndex (Sample.payload 2 Sample.goodCode) < 0
          ∨ Z.of_nat (length (a_problems Sample.assignment))
            <= problemIndex (Sample.payload 2 Sample.goodCode)) as Hidx
    by (right; vm_compute; discriminate).
  repeat (split; [first [exact Hidx | reflexivity]|]).
  apply (invalid_problemIndex_rejected None Sample.env Sample.store
           (Sample.submit 2 Sample.goodCode) Sample.alice
           (Sample.payload 2 Sample.goodCode) Sample.assignment);
    first [exact Hidx | reflexivity].
Defined.


(** With no test case the aggregate is [0 / 0]. *)
Lemma simulate_score_NaN env code problem :
  missingStructure code = false → testCases problem = [] →
  sim_score (simulate env code problem) = JS.NaN.
Proof. intros Hm Ht. unfold simulate. rewrite Hm, Ht. reflexivity. Qed.

Lemma simulate_precheck_failure env code problem :
  missingStructure code = true →
  simulate env code problem
  = {| sim_status := failed;
       sim_testResults := [ StructureResult 1 false "Missing required C structure" ];
       sim_score := JS.Num 20 |}.
Proof. intros Hm. unfold simulate. by rewrite Hm. Qed.

(** [Math.min] with a number never exceeds its first argument: the result is
    that argument or lies below it; when the first argument is a number too,
    the result is [<=] it. *)
Lemma min_not_above (a : JS.jsnum) (y : Z) :
  JS.min a (JS.Num y) = a ∨ JS.lt (JS.min a (JS.Num y)) a = true.
Proof.
  destruct a as [x|]; simpl; [|by left].
  destruct (Z.le_gt_cases x y) as [Hle|Hgt].
  - left. f_equal. lia.
  - right. apply Z.ltb_lt. lia.
Qed.



Lemma evaluate_returns openai env st data problem a :
  analyzeCode openai (code data) problem = Returns a →
  let sim := simulate env (code data) problem in
  let submission := persisted env data sim (JS.min (sim_score sim) (JS.Num (score a))) in
  evaluate openai env st data problem
  = ({| http := 200;
        json := Evaluation submission (sim_testResults sim) (feedback a) (suggestions a) |},
     {| assignments := assignments st;
        submissions := <[randomUUID env := submission]> (submissions st) |}).
Proof. intros Ha. unfold evaluate. rewrite Ha. reflexivity. Qed.

Lemma evaluate_throws openai env st data problem message :
  analyzeCode openai (code data) problem = Throws message →
  let sim := simulate env (code data) problem in
  let submission := persisted env data sim (sim_score sim) in
  evaluate openai env st data problem
  = ({| http := 200;
        json := Evaluation submission (sim_testResults sim)
                  "Code submitted successfully. Basic validation completed." [] |},
     {| assignments := assignments st;
        submissions := <[randomUUID env := submission]> (submissions st) |}).
Proof. intros Ha. unfold evaluate. rewrite Ha. reflexivity. Qed.

(** C6.  When the analysis throws, the request is still answered 200: the
    Submission persisted carries the simulated status, test results and score
    as they were computed, and the response carries the generic feedback and
    no suggestions. *)
Theorem analysis_failure_recovered (openai : option OpenAI) (env : Env)
    (st : MemStorage) (req : Request) (data : SubmissionData) (problem : Problem)
    (message : string) :
  resolve st req = inr (data, problem) →
  analyzeCode openai (code data) problem = Throws message →
  ∃ submission st',
    postSubmissions openai env st req
    = ({| http := 200;
          json := Evaluation submission (sim_testResults (simulate env (code data) problem))
                    "Code submitted successfully. Basic validation completed." [] |}, st')
    ∧ submissions st' !! s_id submission = Some submission
    ∧ s_status submission = sim_status (simulate env (code data) problem)
    ∧ s_testResults submission = sim_testResults (simulate env (code data) problem)
    ∧ s_score submission = sim_score (simulate env (code data) problem).
Proof.
  intros Hres Hthrow.
  rewrite (postSubmissions_resolved _ _ _ _ _ _ Hres).
  rewrite (evaluate_throws _ env st _ _ _ Hthrow). cbv zeta.
  eexists _, _. split; [reflexivity|].
  split; [apply lookup_insert_eq|]. done.
Qed.

Lemma analysis_failure_recovered_witness :
  resolve Sample.store (Sample.submit 0 Sample.goodCode)
  = inr (Sample.payload 0 Sample.goodCode, Sample.hello)
  ∧ analyzeCode (Some Sample.failing) (code (Sample.payload 0 Sample.goodCode)) Sample.hello
    = Throws "Failed to analyze code: timeout"
  ∧ ∃ submission st',
      postSubmissions (Some Sample.failing) Sample.env Sample.store
        (Sample.submit 0 Sample.goodCode)
      = ({| http := 200;
            json := Evaluation submission
                      (sim_testResults
                         (simulate Sample.env (code (Sample.payload 0 Sample.goodCode))
                            Sample.hello))
                      "Code submitted successfully. Basic validation completed." [] |}, st')
      ∧ submissions st' !! s_id submission = Some submission
      ∧ s_status submission
        = sim_status (simulate Sample.env (code (Sample.payload 0 Sample.goodCode)) Sample.hello)
      ∧ s_testResults submission
        = sim_testResults
            (simulate Sample.env (code (Sample.payload 0 Sample.goodCode)) Sample.hello)
      ∧ s_score submission
        = sim_score (simulate Sample.env (code (Sample.payload 0 Sample.goodCode)) Sample.hello).
Proof.
  split; [vm_compute; reflexivity|]. split; [vm_compute; reflexivity|].
  apply (analysis_failure_recovered (Some Sample.failing) Sample.env Sample.store
           (Sample.submit 0 Sample.goodCode) (Sample.payload 0 Sample.goodCode)
           Sample.hello "Failed to analyze code: timeout");
    vm_compute; reflexivity.
Defined.




(** The merge at work on the sample data: the simulated score is 100, the
    provider says 5, and 5 is persisted. *)
Example merge_lowers_score :
  sim_score (simulate Sample.env Sample.goodCode Sample.hello) = JS.Num 100
  ∧ ∃ submission results fb sg,
      fst (postSubmissions (Some Sample.harsh) Sample.env Sample.store
             (Sample.submit 0 Sample.goodCode))
      = {| http := 200; json := Evaluation submission results fb sg |}
      ∧ s_score submission = JS.Num 5.
Proof. split; [vm_compute; reflexivity|]. eexists _, _, _, _. vm_compute. split; reflexivity. Qed.

(** A problem without test cases: the aggregate is [0 / 0], and [NaN] is what
    is persisted. *)
Example no_test_case_score :
  ∃ submission results fb sg st',
    evaluate None Sample.env Sample.store (Sample.payload 0 Sample.goodCode)
      (withTestCases Sample.hello [])
    = ({| http := 200; json := Evaluation submission results fb sg |}, st')
    ∧ s_status submission = failed
    ∧ s_score submission = JS.NaN.
Proof. eexists _, _, _, _, _. split; [reflexivity|]. vm_compute. split; reflexivity. Qed.




(** ** The template generator *)

Section GeneratorFacts.

Variables (topic : string) (bank : list Template) (d : Difficulty) (seconds megabytes : Z).

Lemma emit_described (i : nat) (st : GenState) :
  emit topic bank d seconds megabytes i st
  = {| problems := problems st
                   ++ [ described topic (pick bank i) d seconds megabytes (problemId st) ];
       problemId := S (problemId st) |}.
Proof. reflexivity. Qed.

Lemma appended_S (i k n : nat) :
  appended topic bank d seconds megabytes i k (S n)
  = described topic (pick bank i) d seconds megabytes k :: appended topic bank d seconds megabytes (S i) (S k) n.
Proof.
  unfold appended. simpl. rewrite !Nat.add_0_r. f_equal.
  rewrite <- seq_shift, <- list_fmap_compose.
  apply list_fmap_ext. intros _ j _. simpl.
  by rewrite !Nat.add_succ_r.
Qed.

(** The loop invariant, in closed form. *)
Lemma for_from_emit (n : nat) : ∀ (i : nat) (st : GenState),
  for_from i n (emit topic bank d seconds megabytes) st
  = {| problems := problems st ++ appended topic bank d seconds megabytes i (problemId st) n;
       problemId := problemId st + n |}.
Proof.
  induction n as [|n IH]; intros i [ps k]; simpl.
  - by rewrite app_nil_r, Nat.add_0_r.
  - rewrite IH, emit_described. simpl.
    rewrite appended_S, <- app_assoc. simpl.
    by rewrite Nat.add_succ_r.
Qed.

Lemma appended_length (i k n : nat) : length (appended topic bank d seconds megabytes i k n) = n.
Proof. unfold appended. by rewrite length_fmap, length_seq. Qed.

Lemma appended_lookup (i k n j : nat) :
  (j < n)%nat →
  appended topic bank d seconds megabytes i k n !! j
  = Some (described topic (pick bank (i + j)) d seconds megabytes (k + j)).
Proof.
  intros Hj. unfold appended.
  by rewrite list_lookup_fmap, lookup_seq_lt.
Qed.

End GeneratorFacts.

Lemma appended_id topic bank d seconds megabytes (i k n j : nat) (p : Problem) :
  appended topic bank d seconds megabytes i k n !! j = Some p →
  (j < n)%nat ∧ id p = "problem_" +:+ pretty (k + j)%nat.
Proof.
  intros Hp.
  assert (j < n)%nat as Hj.
  { apply lookup_lt_Some in Hp. by rewrite appended_length in Hp. }
  rewrite appended_lookup in Hp by done. by injection Hp as <-.
Qed.

(** [bank[i % bank.length]] is an entry of the bank when the bank is not
    empty. *)
Lemma pick_lookup (bank : list Template) (i : nat) :
  bank ≠ [] → bank !! (i mod length bank)%nat = Some (pick bank i).
Proof.
  intros Hne. unfold pick.
  assert (i mod length bank < length bank)%nat as Hlt.
  { apply Nat.mod_upper_bound. by destruct bank. }
  destruct (lookup_lt_is_Some_2 bank _ Hlt) as [t Ht].
  rewrite Ht. f_equal. symmetry. by apply nth_lookup_Some.
Qed.

(** The three loops, in closed form: the easy block numbered from 1, the
    medium block numbered on from there, then the hard block. *)
Lemma generateSampleProblems_blocks (topic : string) (c : DifficultyCounts) :
  generateSampleProblems topic c
  = (appended topic problemTemplates.easy Easy 1 64 0 1 (easy c)
     ++ appended topic problemTemplates.medium Medium 2 128 0 (1 + easy c) (medium c)
     ++ appended topic problemTemplates.hard Hard 5 256 0 (1 + easy c + medium c) (hard c))%list.
Proof.
  unfold generateSampleProblems, for_upto.
  rewrite !for_from_emit. simpl. by rewrite <- app_assoc.
Qed.

Lemma generateSampleProblems_id (topic : string) (c : DifficultyCounts) (k : nat) (p : Problem) :
  generateSampleProblems topic c !! k = Some p → id p = "problem_" +:+ pretty (k + 1)%nat.
Proof.
  rewrite generateSampleProblems_blocks.
  intros Hp.
  apply lookup_app_Some in Hp as [Hp|[Hk Hp]].
  { apply appended_id in Hp as [_ ->]. do 2 f_equal. lia. }
  rewrite appended_length in Hk, Hp.
  apply lookup_app_Some in Hp as [Hp|[Hk' Hp]].
  { apply appended_id in Hp as [_ ->]. do 2 f_equal. lia. }
  rewrite appended_length in Hk', Hp.
  apply appended_id in Hp as [_ ->]. do 2 f_equal. lia.
Qed.

Lemma problem_id_inj (a b : nat) :
  "problem_" +:+ pretty a = "problem_" +:+ pretty b → a = b.
Proof. simpl. intros [= H]. by apply (inj pretty). Qed.

(** C3.  Without a provider, [generateAssignment] returns the template
    problems: [easy + medium + hard] of them; first the easy block (1 s,
    64 MB), then the medium block (2 s, 128 MB), then the hard block (5 s,
    256 MB); slot [i] of a block is built from template [i mod bank size] of
    its bank, its title being the topic, [" - "] and the template title; and
    the problem at position [k] has id [problem_(k+1)], so the ids are
    pairwise distinct and increase along the output. *)
Theorem generate_template_fallback (topic : string) (e m h : nat) (limit : Z) :
  let request := {| easy := e; medium := m; hard := h |} in
  let ps := generateSampleProblems topic request in
  generateAssignment None {| topic := topic; counts := request; minutes := limit |}
  = Returns ps
  ∧ length ps = (e + m + h)%nat
  ∧ (∀ i, (i < e)%nat →
       ∃ t, problemTemplates.easy !! (i mod length problemTemplates.easy)%nat = Some t
            ∧ ps !! i = Some (described topic t Easy 1 64 (i + 1)))
  ∧ (∀ i, (i < m)%nat →
       ∃ t, problemTemplates.medium !! (i mod length problemTemplates.medium)%nat = Some t
            ∧ ps !! (e + i)%nat = Some (described topic t Medium 2 128 (e + i + 1)))
  ∧ (∀ i, (i < h)%nat →
       ∃ t, problemTemplates.hard !! (i mod length problemTemplates.hard)%nat = Some t
            ∧ ps !! (e + m + i)%nat = Some (described topic t Hard 5 256 (e + m + i + 1)))
  ∧ (∀ k p, ps !! k = Some p → id p = "problem_" +:+ pretty (k + 1)%nat)
  ∧ NoDup (id <$> ps).
Proof.
  intros request ps.
  assert (ps = appended topic problemTemplates.easy Easy 1 64 0 1 e
               ++ appended topic problemTemplates.medium Medium 2 128 0 (1 + e) m
               ++ appended topic problemTemplates.hard Hard 5 256 0 (1 + e + m) h)%list
    as Hps by apply generateSampleProblems_blocks.
  assert (∀ k p, ps !! k = Some p → id p = "problem_" +:+ pretty (k + 1)%nat) as Hid
    by apply generateSampleProblems_id.
  split; [reflexivity|].
  split; [rewrite Hps, !length_app, !appended_length; lia|].
  split; [|split; [|split; [|split; [exact Hid|]]]].
  - intros i Hi. exists (pick problemTemplates.easy i).
    split; [by apply pick_lookup|].
    rewrite Hps, lookup_app_l by (rewrite appended_length; lia).
    rewrite appended_lookup by done. do 2 f_equal. lia.
  - intros i Hi. exists (pick problemTemplates.medium i).
    split; [by apply pick_lookup|].
    rewrite Hps, lookup_app_r by (rewrite appended_length; lia).
    rewrite appended_length, lookup_app_l by (rewrite appended_length; lia).
    replace (e + i - e)%nat with i by lia.
    rewrite appended_lookup by done. do 2 f_equal. lia.
  - intros i Hi. exists (pick problemTemplates.hard i).
    split; [by apply pick_lookup|].
    rewrite Hps, lookup_app_r by (rewrite appended_length; lia).
    rewrite appended_length, lookup_app_r by (rewrite appended_length; lia).
    rewrite appended_length.
    replace (e + m + i - e - m)%nat with i by lia.
    rewrite appended_lookup by done. do 2 f_equal. lia.
  - apply NoDup_alt. intros j k x Hj Hk.
    apply list_lookup_fmap_Some in Hj as (pj & -> & Hj).
    apply list_lookup_fmap_Some in Hk as (pk & Heq & Hk).
    rewrite (Hid _ _ Hj), (Hid _ _ Hk) in Heq.
    apply problem_id_inj in Heq. lia.
Qed.

(** Scenario C. *)
Example scenario_C :
  generateAssignment None
    {| topic := "Recursion"; counts := {| easy := 2; medium := 0; hard := 0 |};
       minutes := 180 |}
  = Returns
      [ described "Recursion" (mkTemplate "Hello World Program"
          "Write a C program that prints 'Hello, World!' to the console."
          "No input required." "Print 'Hello, World!' followed by a newline."
          "None" EmptyString "Hello, World!" [ mkTestCase EmptyString "Hello, World!" ])
          Easy 1 64 1;
        described "Recursion" (mkTemplate "Sum of Two Numbers"
          "Write a C program that reads two integers and prints their sum."
          "Two integers a and b separated by a space." "Print the sum of a and b."
          "1 ≤ a, b ≤ 1000" "5 3" "8"
          [ mkTestCase "5 3" "8"; mkTestCase "10 20" "30"; mkTestCase "1 1" "2" ])
          Easy 1 64 2 ]
  ∧ id <$> generateSampleProblems "Recursion" {| easy := 2; medium := 0; hard := 0 |}
    = [ "problem_1"; "problem_2" ].
Proof. split; vm_compute; reflexivity. Qed.

(** * Further properties *)

(** ** The heuristic analyzer, continued *)

Section SuggestionFacts.

Variables (code : string) (problem : Problem).

Let structural : Locals := checkReturn code (checkStdio code (checkMain code initLocals)).

(** The entry-point and the return suggestion exclude each other, so the
    structural checks push at most two suggestions. *)
Lemma structural_suggestions :
  (length (l_suggestions structural) <= 2)%nat
  ∧ Forall (λ s, s ≠ encouragement) (l_suggestions structural).
Proof.
  unfold structural, checkReturn, checkStdio, checkMain, initLocals.
  destruct (JS.includes code "int main"), (JS.includes code "#include <stdio.h>"),
    (JS.includes code "return"), (JS.includes code "printf"),
    (JS.includes code "scanf"); simpl;
    (split; [lia | repeat constructor; discriminate]).
Qed.

Lemma checkTopic_suggestions (l : Locals) :
  l_suggestions (checkTopic code problem l) = l_suggestions l
  ∨ ∃ s, s ≠ encouragement
         ∧ l_suggestions (checkTopic code problem l) = (l_suggestions l ++ [s])%list.
Proof.
  unfold checkTopic.
  repeat match goal with
         | |- context [if ?b then _ else _] => destruct b
         end; simpl; first [by left | right; eexists; split; [|reflexivity]; discriminate].
Qed.

Lemma checkComments_remark (l : Locals) :
  ∃ s, s ≠ encouragement
       ∧ l_suggestions (checkComments code l) = (l_suggestions l ++ [s])%list.
Proof.
  unfold checkComments.
  destruct (JS.includes code "//" || JS.includes code "/*");
    eexists; (split; [|reflexivity]); discriminate.
Qed.

Lemma analyzeLocals_suggestions_shape :
  (1 <= length (l_suggestions (analyzeLocals code problem)) <= 4)%nat
  ∧ Forall (λ s, s ≠ encouragement) (l_suggestions (analyzeLocals code problem)).
Proof.
  unfold analyzeLocals. fold structural.
  destruct structural_suggestions as [Hlen Hall].
  destruct (checkComments_remark (checkTopic code problem structural)) as (c & Hc & ->).
  destruct (checkTopic_suggestions structural) as [->|(t & Ht & ->)].
  - rewrite length_app. simpl. split; [lia|].
    apply Forall_app. split; [done|]. by repeat constructor.
  - rewrite !length_app. simpl. split; [lia|].
    rewrite !Forall_app. repeat split; [done|..]; by repeat constructor.
Qed.

End SuggestionFacts.

(** X1.  The analyzer returns between one and four suggestions, and the
    generic encouragement kept for an empty list is never among them. *)
Theorem analyzeCodeBuiltIn_suggestions_shape (code : string) (problem : Problem) :
  (1 <= length (suggestions (analyzeCodeBuiltIn code problem)) <= 4)%nat
  ∧ encouragement ∉ suggestions (analyzeCodeBuiltIn code problem).
Proof.
  destruct (analyzeLocals_suggestions_shape code problem) as [Hlen Hall].
  unfold analyzeCodeBuiltIn. cbv zeta. simpl suggestions.
  destruct (l_suggestions (analyzeLocals code problem)) as [|s ss] eqn:Hs.
  { simpl in Hlen. lia. }
  simpl. split; [exact Hlen|].
  intros Hin. rewrite Forall_forall in Hall. by apply (Hall _ Hin).
Qed.

(** X2.  Of the problem the analyzer uses the category of its title only:
    two problems whose titles hit the same first keyword (or none) get the
    same analysis, whatever else the titles contain. *)
Theorem analyzeCodeBuiltIn_by_topic (code : string) (problem1 problem2 : Problem) :
  topicOf (title problem1) = topicOf (title problem2) →
  analyzeCodeBuiltIn code problem1 = analyzeCodeBuiltIn code problem2.
Proof.
  intros Ht.
  assert (∀ l, checkTopic code problem1 l = checkTopic code problem2 l) as Hc.
  { intros l. unfold checkTopic. unfold topicOf in Ht. cbv zeta in *.
    destruct (JS.includes (JS.toLowerCase (title problem1)) "hello world"),
      (JS.includes (JS.toLowerCase (title problem1)) "sum"),
      (JS.includes (JS.toLowerCase (title problem1)) "factorial"),
      (JS.includes (JS.toLowerCase (title problem1)) "array"),
      (JS.includes (JS.toLowerCase (title problem2)) "hello world"),
      (JS.includes (JS.toLowerCase (title problem2)) "sum"),
      (JS.includes (JS.toLowerCase (title problem2)) "factorial"),
      (JS.includes (JS.toLowerCase (title problem2)) "array");
      first [discriminate Ht | reflexivity]. }
  unfold analyzeCodeBuiltIn, analyzeLocals. by rewrite Hc.
Qed.

Lemma analyzeCodeBuiltIn_by_topic_witness :
  topicOf (title (described "Pointers" (mkTemplate "Array Sum" "d" "i" "o" "c" "1" "1" [])
                    Medium 2 128 4))
  = topicOf (title (described "Loops" (mkTemplate "Sum of Two Numbers" "d" "i" "o" "c" "1" "1" [])
                      Easy 1 64 2))
  ∧ analyzeCodeBuiltIn Sample.goodCode
      (described "Pointers" (mkTemplate "Array Sum" "d" "i" "o" "c" "1" "1" []) Medium 2 128 4)
    = analyzeCodeBuiltIn Sample.goodCode
        (described "Loops" (mkTemplate "Sum of Two Numbers" "d" "i" "o" "c" "1" "1" [])
           Easy 1 64 2).
Proof.
  split; [vm_compute; reflexivity|].
  apply (analyzeCodeBuiltIn_by_topic Sample.goodCode
           (described "Pointers" (mkTemplate "Array Sum" "d" "i" "o" "c" "1" "1" [])
              Medium 2 128 4)
           (described "Loops" (mkTemplate "Sum of Two Numbers" "d" "i" "o" "c" "1" "1" [])
              Easy 1 64 2)).
  vm_compute; reflexivity.
Defined.

Lemma missingStructure_false (code : string) :
  missingStructure code = false ↔
  JS.includes code "int main" = true
  ∧ JS.includes code "#include" = true
  ∧ JS.includes code "return" = true.
Proof.
  unfold missingStructure.
  destruct (JS.includes code "int main"), (JS.includes code "#include"),
    (JS.includes code "return"); simpl; intuition congruence.
Qed.

Lemma precheck_pass_score (code : string) (problem : Problem) :
  missingStructure code = false → 50 <= score (analyzeCodeBuiltIn code problem) <= 100.
Proof.
  intros Hok. apply missingStructure_false in Hok as (Hmain & _ & Hret).
  pose proof (checkTopic_score code problem
                (checkReturn code (checkStdio code (checkMain code initLocals)))) as Ht.
  pose proof (checkComments_score code
                (checkTopic code problem
                   (checkReturn code (checkStdio code (checkMain code initLocals))))) as Hc.
  rewrite analyze_score_eq. unfold JS.clamp100, analyzeLocals.
  assert (65 <= l_score (checkReturn code (checkStdio code (checkMain code initLocals)))).
  { unfold checkReturn, checkStdio, checkMain, initLocals. rewrite Hmain, Hret.
    destruct (JS.includes code "#include <stdio.h>"), (JS.includes code "printf"),
      (JS.includes code "scanf"); simpl; lia. }
  lia.
Qed.

(** X3.  Code that passes the structural pre-check of the submission handler
    never scores below 50 with the built-in analyzer, and code without
    ["int main"] never scores above 75, short of the 80 that the top feedback
    tier asks for. *)
Theorem analyzeCodeBuiltIn_structure_bounds (code : string) (problem : Problem) :
  (missingStructure code = false → 50 <= score (analyzeCodeBuiltIn code problem))
  ∧ (JS.includes code "int main" = false → score (analyzeCodeBuiltIn code problem) <= 75).
Proof.
  pose proof (checkTopic_score code problem
                (checkReturn code (checkStdio code (checkMain code initLocals)))) as Ht.
  pose proof (checkComments_score code
                (checkTopic code problem
                   (checkReturn code (checkStdio code (checkMain code initLocals))))) as Hc.
  split.
  - intros Hok. apply missingStructure_false in Hok as (Hmain & _ & Hret).
    rewrite analyze_score_eq. unfold JS.clamp100, analyzeLocals.
    assert (65 <= l_score (checkReturn code (checkStdio code (checkMain code initLocals)))).
    { unfold checkReturn, checkStdio, checkMain, initLocals. rewrite Hmain, Hret.
      destruct (JS.includes code "#include <stdio.h>"), (JS.includes code "printf"),
        (JS.includes code "scanf"); simpl; lia. }
    lia.
  - intros Hmain.
    rewrite analyze_score_eq. unfold JS.clamp100, analyzeLocals.
    assert (l_score (checkReturn code (checkStdio code (checkMain code initLocals))) <= 50).
    { unfold checkReturn, checkStdio, checkMain, initLocals. rewrite Hmain.
      destruct (JS.includes code "#include <stdio.h>"), (JS.includes code "return"),
        (JS.includes code "printf"), (JS.includes code "scanf"); simpl; lia. }
    lia.
Qed.

Example structure_bounds_reached :
  score (analyzeCodeBuiltIn "#include <math.h> int main() { printf; return 0; }"
           (withTestCases Sample.hello [])) = 50
  ∧ score (analyzeCodeBuiltIn "#include <stdio.h> // printf Hello, World! return"
             (withTestCases Sample.hello [])) = 75.
Proof. vm_compute. split; reflexivity. Qed.

(** ** The submission handler, continued *)

Lemma resolve_inl (st : MemStorage) (req : Request) (rejection : Response) :
  resolve st req = inl rejection →
  ∃ status message,
    rejection = {| http := status; json := Message message |}
    ∧ (status = 400 ∨ status = 403 ∨ status = 404 ∨ status = 500).
Proof.
  unfold resolve, reject.
  destruct (session req) as [user|]; [|intros [= <-]; eauto 10].
  destruct (negb (isStudent user)); [intros [= <-]; eauto 10|].
  destruct (parse (body req) (u_id user)) as [d|]; [|intros [= <-]; eauto 10].
  destruct (getAssignment st (assignmentId d)) as [a|]; [|intros [= <-]; eauto 10].
  destruct (negb (a_isActive a)); [intros [= <-]; eauto 10|].
  destruct (problemAt (a_problems a) (problemIndex d)); [discriminate|].
  intros [= <-]; eauto 10.
Qed.

(** What an evaluation does to the store and how it answers, on both paths. *)
Lemma evaluate_effect openai env st data problem :
  ∃ final fb sg,
    evaluate openai env st data problem
    = ({| http := 200;
          json := Evaluation (persisted env data (simulate env (code data) problem) final)
                    (sim_testResults (simulate env (code data) problem)) fb sg |},
       {| assignments := assignments st;
          submissions :=
            <[randomUUID env := persisted env data (simulate env (code data) problem) final]>
              (submissions st) |})
    ∧ match analyzeCode openai (code data) problem with
      | Returns a => final = JS.min (sim_score (simulate env (code data) problem))
                                    (JS.Num (score a))
      | Throws _ => final = sim_score (simulate env (code data) problem)
      end.
Proof.
  destruct (analyzeCode openai (code data) problem) as [a|message] eqn:Han.
  - rewrite (evaluate_returns _ env st _ _ _ Han). cbv zeta. by eexists _, _, _.
  - rewrite (evaluate_throws _ env st _ _ _ Han). cbv zeta. by eexists _, _, _.
Qed.

(** X4.  The handler answers 200, 400, 403, 404 or 500.  It answers 200, with
    an evaluation, exactly when the request passes the four gates: a student
    session, a body the schema accepts, an assignment that exists and is
    active, and a problem at the given index.  Every other answer is a plain
    message and leaves the store exactly as it was. *)
Theorem postSubmissions_writes_only_on_200 (openai : option OpenAI) (env : Env)
    (st : MemStorage) (req : Request) :
  (http (postSubmissions openai env st req).1 = 200
   ↔ ∃ user data assignment problem,
       session req = Some user
       ∧ isStudent user = true
       ∧ parse (body req) (u_id user) = Some data
       ∧ getAssignment st (assignmentId data) = Some assignment
       ∧ a_isActive assignment = true
       ∧ problemAt (a_problems assignment) (problemIndex data) = Some problem)
  ∧ ((∃ submission results fb sg,
        (postSubmissions openai env st req).1
        = {| http := 200; json := Evaluation submission results fb sg |})
     ∨ (∃ status message,
          (status = 400 ∨ status = 403 ∨ status = 404 ∨ status = 500)
          ∧ postSubmissions openai env st req
            = ({| http := status; json := Message message |}, st))).
Proof.
  destruct (resolve st req) as [rejection|[data problem]] eqn:Hres.
  - rewrite (postSubmissions_rejected _ _ _ _ _ Hres).
    destruct (resolve_inl _ _ _ Hres) as (status & message & -> & Hstatus).
    split; [|right; eauto].
    split.
    + simpl. intros ->. lia.
    + intros (user & d & a & p & Hs & Hr & Hp & Ha & Hact & Hpr).
      assert (resolve st req = inr (d, p)) as Hok
        by (apply resolve_inr; exists user, a; done).
      rewrite Hres in Hok. discriminate.
  - rewrite (postSubmissions_resolved _ _ _ _ _ _ Hres).
    destruct (evaluate_effect openai env st data problem) as (final & fb & sg & -> & _).
    split; [|left; simpl; eauto].
    split; [|reflexivity].
    intros _. apply resolve_inr in Hres as (user & a & ?). exists user, data, a, problem. done.
Qed.

Lemma roundPercent_range (p t : nat) :
  (p <= t)%nat → (0 < t)%nat →
  ∃ z, JS.roundPercent p t = JS.Num z ∧ 0 <= z <= 100.
Proof.
  intros Hp Ht. destruct t as [|t]; [lia|]. simpl JS.roundPercent.
  eexists. split; [reflexivity|]. split.
  - apply Z.div_pos; lia.
  - apply Z.lt_succ_r. apply Z.div_lt_upper_bound; lia.
Qed.

Lemma roundPercent_all (t : nat) : (0 < t)%nat → JS.roundPercent t t = JS.Num 100.
Proof.
  intros Ht. destruct t as [|t]; [lia|]. simpl JS.roundPercent. f_equal.
  symmetry. apply (Z.div_unique_pos _ _ 100 (Z.of_nat (S t))); lia.
Qed.

Lemma roundPercent_none (t : nat) : (0 < t)%nat → JS.roundPercent 0 t = JS.Num 0.
Proof.
  intros Ht. destruct t as [|t]; [lia|]. simpl JS.roundPercent. f_equal.
  apply Z.div_small. lia.
Qed.

Lemma filter_all (l : list TestResult) :
  Forall (λ r, tr_passed r = true) l → List.filter tr_passed l = l.
Proof. induction 1 as [|r l Hr _ IH]; simpl; [done|]. by rewrite Hr, IH. Qed.

Lemma filter_none (l : list TestResult) :
  Forall (λ r, tr_passed r = false) l → List.filter tr_passed l = [].
Proof. induction 1 as [|r l Hr _ IH]; simpl; [done|]. by rewrite Hr. Qed.

(** The simulated results when the pre-check passes: one per test case. *)
Lemma simulate_results env code problem :
  missingStructure code = false →
  sim_testResults (simulate env code problem)
  = imap (λ index _, CaseResult (Z.of_nat index + 1) (above20 (random env index))
                                (sampleOutput problem) (sampleOutput problem))
         (testCases problem)
  ∧ sim_score (simulate env code problem)
    = JS.roundPercent
        (length (List.filter tr_passed (sim_testResults (simulate env code problem))))
        (length (testCases problem))
  ∧ sim_status (simulate env code problem)
    = if JS.ge (sim_score (simulate env code problem)) (JS.Num 60) then passed else failed.
Proof.
  intros Hm. unfold simulate. rewrite Hm. simpl. by rewrite length_imap.
Qed.

Lemma simulate_results_Forall env code problem (verdict : bool) :
  missingStructure code = false →
  (∀ i, (i < length (testCases problem))%nat → above20 (random env i) = verdict) →
  Forall (λ r, tr_passed r = verdict) (sim_testResults (simulate env code problem)).
Proof.
  intros Hm Hall. destruct (simulate_results env code problem Hm) as (-> & _).
  apply Forall_lookup. intros i r. rewrite list_lookup_imap.
  destruct (testCases problem !! i) as [tc|] eqn:Hi; [|discriminate].
  intros [= <-]. simpl. apply Hall. by eapply lookup_lt_Some.
Qed.

(** X5.  When the pre-check passes on a problem with test cases, the
    simulation gives 100 and [passed] if every draw of [Math.random()]
    exceeds 0.2, and 0 and [failed] if none does. *)
Theorem simulate_extremes (env : Env) (code : string) (problem : Problem) :
  missingStructure code = false →
  testCases problem ≠ [] →
  ((∀ i, (i < length (testCases problem))%nat → above20 (random env i) = true) →
   sim_score (simulate env code problem) = JS.Num 100
   ∧ sim_status (simulate env code problem) = passed)
  ∧ ((∀ i, (i < length (testCases problem))%nat → above20 (random env i) = false) →
     sim_score (simulate env code problem) = JS.Num 0
     ∧ sim_status (simulate env code problem) = failed).
Proof.
  intros Hm Hne.
  assert (0 < length (testCases problem))%nat as Hpos
    by (destruct (testCases problem); [done | simpl; lia]).
  destruct (simulate_results env code problem Hm) as (Hres & Hscore & Hstatus).
  split; intros Hall.
  - pose proof (simulate_results_Forall env code problem true Hm Hall) as Hf.
    rewrite Hstatus, Hscore, (filter_all _ Hf), Hres, length_imap.
    by rewrite (roundPercent_all _ Hpos).
  - pose proof (simulate_results_Forall env code problem false Hm Hall) as Hf.
    rewrite Hstatus, Hscore, (filter_none _ Hf). simpl length.
    by rewrite (roundPercent_none _ Hpos).
Qed.

Lemma simulate_extremes_witness :
  missingStructure Sample.goodCode = false
  ∧ testCases Sample.hello ≠ []
  ∧ ((∀ i, (i < length (testCases Sample.hello))%nat →
           above20 (random Sample.env i) = true) →
     sim_score (simulate Sample.env Sample.goodCode Sample.hello) = JS.Num 100
     ∧ sim_status (simulate Sample.env Sample.goodCode Sample.hello) = passed)
  ∧ ((∀ i, (i < length (testCases Sample.hello))%nat →
           above20 (random Sample.env i) = false) →
     sim_score (simulate Sample.env Sample.goodCode Sample.hello) = JS.Num 0
     ∧ sim_status (simulate Sample.env Sample.goodCode Sample.hello) = failed).
Proof.
  split; [vm_compute; reflexivity|]. split; [discriminate|].
  apply (simulate_extremes Sample.env Sample.goodCode Sample.hello);
    [vm_compute; reflexivity | discriminate].
Defined.

Lemma simulate_score_range env code problem :
  missingStructure code = true ∨ testCases problem ≠ [] →
  ∃ z, sim_score (simulate env code problem) = JS.Num z ∧ 0 <= z <= 100.
Proof.
  intros Hcase.
  destruct (missingStructure code) eqn:Hm.
  - rewrite (simulate_precheck_failure _ _ _ Hm). simpl. exists 20. split; [done|lia].
  - destruct Hcase as [|Hne]; [done|].
    destruct (simulate_results env code problem Hm) as (Hres & -> & _).
    apply roundPercent_range.
    + etrans; [apply List.filter_length_le|].
      by rewrite Hres, length_imap.
    + destruct (testCases problem); [done | simpl; lia].
Qed.

(** X6.  Without a provider, and also when the analysis call throws, whenever
    the simulated score is a number (the pre-check fails or the problem has a
    test case) the score persisted with the Submission is an integer between
    0 and 100. *)
Theorem persisted_score_range (openai : option OpenAI) (env : Env)
    (st : MemStorage) (req : Request) (data : SubmissionData) (problem : Problem) :
  resolve st req = inr (data, problem) →
  missingStructure (code data) = true ∨ testCases problem ≠ [] →
  openai = None ∨ (∃ message, analyzeCode openai (code data) problem = Throws message) →
  ∃ submission results fb sg st' z,
    postSubmissions openai env st req
    = ({| http := 200; json := Evaluation submission results fb sg |}, st')
    ∧ submissions st' !! s_id submission = Some submission
    ∧ s_score submission = JS.Num z
    ∧ 0 <= z <= 100.
Proof.
  intros Hres Hcase Hpath.
  rewrite (postSubmissions_resolved _ _ _ _ _ _ Hres).
  destruct (simulate_score_range env (code data) problem Hcase) as (z & Hz & Hrange).
  destruct (evaluate_effect openai env st data problem) as (final & fb & sg & -> & Hfinal).
  destruct Hpath as [->|[message Han]].
  - simpl in Hfinal.
    pose proof (analyze_score_bounds (code data) problem) as Ha.
    eexists _, _, _, _, _, (Z.min z (score (analyzeCodeBuiltIn (code data) problem))).
    split; [reflexivity|]. split; [apply lookup_insert_eq|].
    split; [|lia]. unfold s_score, persisted; simpl. by rewrite Hfinal, Hz.
  - rewrite Han in Hfinal.
    eexists _, _, _, _, _, z.
    split; [reflexivity|]. split; [apply lookup_insert_eq|].
    split; [|lia]. unfold s_score, persisted; simpl. by rewrite Hfinal, Hz.
Qed.

Lemma persisted_score_range_witness :
  resolve Sample.store (Sample.submit 0 Sample.goodCode)
  = inr (Sample.payload 0 Sample.goodCode, Sample.hello)
  ∧ (missingStructure (code (Sample.payload 0 Sample.goodCode)) = true
     ∨ testCases Sample.hello ≠ [])
  ∧ ((None : option OpenAI) = None
     ∨ (∃ message,
          analyzeCode None (code (Sample.payload 0 Sample.goodCode)) Sample.hello
          = Throws message))
  ∧ ∃ submission results fb sg st' z,
      postSubmissions None Sample.env Sample.store
        (Sample.submit 0 Sample.goodCode)
      = ({| http := 200; json := Evaluation submission results fb sg |}, st')
      ∧ submissions st' !! s_id submission = Some submission
      ∧ s_score submission = JS.Num z
      ∧ 0 <= z <= 100.
Proof.
  split; [vm_compute; reflexivity|]. split; [right; discriminate|].
  split; [left; reflexivity|].
  apply (persisted_score_range None Sample.env Sample.store
           (Sample.submit 0 Sample.goodCode) (Sample.payload 0 Sample.goodCode)
           Sample.hello);
    [vm_compute; reflexivity | right; discriminate | left; reflexivity].
Defined.

Lemma imap_index_only {A B : Type} (l1 l2 : list A) :
  length l1 = length l2 →
  ∀ g : nat → B, imap (λ i _, g i) l1 = imap (λ i _, g i) l2.
Proof.
  revert l2. induction l1 as [|x l1 IH]; intros [|y l2] Hlen g; try done.
  simpl. f_equal. injection Hlen as Hlen.
  apply (IH l2 Hlen (λ i, g (S i))).
Qed.

(** X7.  The simulation never looks into the test cases: two lists of test
    cases of the same length give the same status, results and score. *)
Theorem simulate_counts_test_cases_only (env : Env) (code : string) (problem : Problem)
    (tcs1 tcs2 : list TestCase) :
  length tcs1 = length tcs2 →
  simulate env code (withTestCases problem tcs1)
  = simulate env code (withTestCases problem tcs2).
Proof.
  intros Hlen. unfold simulate.
  destruct (missingStructure code); [reflexivity|]. simpl.
  by rewrite (imap_index_only tcs1 tcs2 Hlen).
Qed.

Lemma simulate_counts_test_cases_only_witness :
  length [ mkTestCase "5 3" "8" ] = length [ mkTestCase "1 1" "3" ]
  ∧ simulate Sample.env Sample.goodCode
      (withTestCases Sample.hello [ mkTestCase "5 3" "8" ])
    = simulate Sample.env Sample.goodCode
        (withTestCases Sample.hello [ mkTestCase "1 1" "3" ]).
Proof.
  split; [reflexivity|].
  apply (simulate_counts_test_cases_only Sample.env Sample.goodCode Sample.hello
           [ mkTestCase "5 3" "8" ] [ mkTestCase "1 1" "3" ]).
  reflexivity.
Defined.

(** X8.  The status is fixed by the simulation and is not recomputed after
    the merge: when the analysis returns, the Submission keeps the simulated
    status while its score is the minimum; so with a simulated 100 and an
    analysis score below 60 a Submission is stored as [passed] with that
    lower score. *)
Theorem status_not_recomputed (openai : option OpenAI) (env : Env)
    (st : MemStorage) (req : Request) (data : SubmissionData) (problem : Problem)
    (a : Analysis) :
  resolve st req = inr (data, problem) →
  analyzeCode openai (code data) problem = Returns a →
  ∃ submission st',
    postSubmissions openai env st req
    = ({| http := 200;
          json := Evaluation submission (sim_testResults (simulate env (code data) problem))
                    (feedback a) (suggestions a) |}, st')
    ∧ submissions st' !! s_id submission = Some submission
    ∧ s_status submission = sim_status (simulate env (code data) problem)
    ∧ s_testResults submission = sim_testResults (simulate env (code data) problem)
    ∧ (sim_score (simulate env (code data) problem) = JS.Num 100 →
       score a < 60 →
       s_status submission = passed ∧ s_score submission = JS.Num (score a)).
Proof.
  intros Hres Han.
  rewrite (postSubmissions_resolved _ _ _ _ _ _ Hres).
  rewrite (evaluate_returns _ env st _ _ _ Han). cbv zeta.
  eexists _, _. split; [reflexivity|].
  split; [apply lookup_insert_eq|].
  unfold s_status, s_testResults, s_score, persisted; simpl.
  repeat split.
  - revert H. unfold simulate.
    destruct (missingStructure (code data)); [discriminate|]. simpl.
    by intros ->.
  - rewrite H. simpl. f_equal. lia.
Qed.

Lemma status_not_recomputed_witness :
  resolve Sample.store (Sample.submit 0 Sample.goodCode)
  = inr (Sample.payload 0 Sample.goodCode, Sample.hello)
  ∧ analyzeCode (Some Sample.harsh) (code (Sample.payload 0 Sample.goodCode)) Sample.hello
    = Returns {| feedback := "Incomplete."; suggestions := []; score := 5 |}
  ∧ ∃ submission st',
      postSubmissions (Some Sample.harsh) Sample.env Sample.store
        (Sample.submit 0 Sample.goodCode)
      = ({| http := 200;
            json := Evaluation submission
                      (sim_testResults
                         (simulate Sample.env (code (Sample.payload 0 Sample.goodCode))
                            Sample.hello))
                      (feedback {| feedback := "Incomplete."; suggestions := []; score := 5 |})
                      (suggestions {| feedback := "Incomplete."; suggestions := [];
                                      score := 5 |}) |}, st')
      ∧ submissions st' !! s_id submission = Some submission
      ∧ s_status submission
        = sim_status (simulate Sample.env (code (Sample.payload 0 Sample.goodCode)) Sample.hello)
      ∧ s_testResults submission
        = sim_testResults
            (simulate Sample.env (code (Sample.payload 0 Sample.goodCode)) Sample.hello)
      ∧ (sim_score (simulate Sample.env (code (Sample.payload 0 Sample.goodCode)) Sample.hello)
         = JS.Num 100 →
         score {| feedback := "Incomplete."; suggestions := []; score := 5 |} < 60 →
         s_status submission = passed
         ∧ s_score submission
           = JS.Num (score {| feedback := "Incomplete."; suggestions := []; score := 5 |})).
Proof.
  split; [vm_compute; reflexivity|]. split; [vm_compute; reflexivity|].
  apply (status_not_recomputed (Some Sample.harsh) Sample.env Sample.store
           (Sample.submit 0 Sample.goodCode) (Sample.payload 0 Sample.goodCode)
           Sample.hello {| feedback := "Incomplete."; suggestions := []; score := 5 |});
    vm_compute; reflexivity.
Defined.

Lemma resolve_reads_assignments (st1 st2 : MemStorage) (req : Request) :
  assignments st1 = assignments st2 → resolve st1 req = resolve st2 req.
Proof. intros Ha. unfold resolve, getAssignment. by rewrite Ha. Qed.

(** What a request that passes the gates writes. *)
Lemma postSubmissions_snd (openai : option OpenAI) (env : Env)
    (st : MemStorage) (req : Request) (data : SubmissionData) (problem : Problem) :
  resolve st req = inr (data, problem) →
  ∃ final,
    (postSubmissions openai env st req).2
    = {| assignments := assignments st;
         submissions :=
           <[randomUUID env := persisted env data (simulate env (code data) problem) final]>
             (submissions st) |}.
Proof.
  intros Hres. rewrite (postSubmissions_resolved _ _ _ _ _ _ Hres).
  destruct (evaluate_effect openai env st data problem) as (final & fb & sg & -> & _).
  by exists final.
Qed.

(** X9.  A request that passes the gates writes exactly one row: the store
    afterwards is the store before with the new Submission under the drawn
    id, the assignments untouched; the row carries the validated payload,
    the drawn id and the current date; and if the id was free, the number
    of submissions grows by one and every earlier row is still there. *)
Theorem postSubmissions_store_effect (openai : option OpenAI) (env : Env)
    (st : MemStorage) (req : Request) (data : SubmissionData) (problem : Problem) :
  resolve st req = inr (data, problem) →
  ∃ submission,
    (postSubmissions openai env st req).2
    = {| assignments := assignments st;
         submissions := <[randomUUID env := submission]> (submissions st) |}
    ∧ s_id submission = randomUUID env
    ∧ s_submittedAt submission = now env
    ∧ i_data (s_insert submission) = data
    ∧ (submissions st !! randomUUID env = None →
       size (submissions (postSubmissions openai env st req).2) = S (size (submissions st))
       ∧ ∀ k s, submissions st !! k = Some s →
                submissions (postSubmissions openai env st req).2 !! k = Some s).
Proof.
  intros Hres.
  destruct (postSubmissions_snd openai env st req data problem Hres) as (final & ->).
  simpl. eexists. split; [reflexivity|]. repeat split.
  - by apply map_size_insert_None.
  - intros k s Hk. rewrite lookup_insert_ne; [done|]. congruence.
Qed.

Lemma postSubmissions_store_effect_witness :
  resolve Sample.store (Sample.submit 0 Sample.goodCode)
  = inr (Sample.payload 0 Sample.goodCode, Sample.hello)
  ∧ ∃ submission,
      (postSubmissions None Sample.env Sample.store (Sample.submit 0 Sample.goodCode)).2
      = {| assignments := assignments Sample.store;
           submissions := <[randomUUID Sample.env := submission]> (submissions Sample.store) |}
      ∧ s_id submission = randomUUID Sample.env
      ∧ s_submittedAt submission = now Sample.env
      ∧ i_data (s_insert submission) = Sample.payload 0 Sample.goodCode
      ∧ (submissions Sample.store !! randomUUID Sample.env = None →
         size (submissions
                 (postSubmissions None Sample.env Sample.store
                    (Sample.submit 0 Sample.goodCode)).2)
         = S (size (submissions Sample.store))
         ∧ ∀ k s, submissions Sample.store !! k = Some s →
                  submissions
                    (postSubmissions None Sample.env Sample.store
                       (Sample.submit 0 Sample.goodCode)).2 !! k = Some s).
Proof.
  split; [vm_compute; reflexivity|].
  apply (postSubmissions_store_effect None Sample.env Sample.store
           (Sample.submit 0 Sample.goodCode) (Sample.payload 0 Sample.goodCode) Sample.hello).
  vm_compute; reflexivity.
Defined.

(** X10.  Scenario E: the same request sent twice, with two different ids
    drawn, passes the gates both times and leaves two distinct Submission
    rows for the same student, assignment and problem; nothing deduplicates. *)
Theorem two_submissions_both_persist (openai : option OpenAI) (env1 env2 : Env)
    (st : MemStorage) (req : Request) (data : SubmissionData) (problem : Problem) :
  resolve st req = inr (data, problem) →
  randomUUID env1 ≠ randomUUID env2 →
  ∃ first second,
    http (postSubmissions openai env2 (postSubmissions openai env1 st req).2 req).1 = 200
    ∧ submissions (postSubmissions openai env2 (postSubmissions openai env1 st req).2 req).2
        !! randomUUID env1 = Some first
    ∧ submissions (postSubmissions openai env2 (postSubmissions openai env1 st req).2 req).2
        !! randomUUID env2 = Some second
    ∧ i_data (s_insert first) = data
    ∧ i_data (s_insert second) = data
    ∧ s_id first ≠ s_id second.
Proof.
  intros Hres Hne.
  destruct (postSubmissions_snd openai env1 st req data problem Hres) as (final1 & Hst1).
  assert (resolve (postSubmissions openai env1 st req).2 req = inr (data, problem)) as Hres2.
  { rewrite <- Hres. apply resolve_reads_assignments. by rewrite Hst1. }
  destruct (postSubmissions_snd openai env2 _ req data problem Hres2) as (final2 & Hst2).
  eexists _, _.
  split.
  { rewrite (postSubmissions_resolved _ _ _ _ _ _ Hres2).
    by destruct (evaluate_effect openai env2 (postSubmissions openai env1 st req).2
                   data problem) as (final & fb & sg & -> & _). }
  rewrite Hst2. simpl. rewrite Hst1. simpl.
  split; [rewrite lookup_insert_ne by done; apply lookup_insert_eq|].
  split; [apply lookup_insert_eq|].
  repeat split; try done.
Qed.

Lemma two_submissions_both_persist_witness :
  resolve Sample.store (Sample.submit 0 Sample.goodCode)
  = inr (Sample.payload 0 Sample.goodCode, Sample.hello)
  ∧ randomUUID Sample.env ≠ randomUUID Sample.later
  ∧ ∃ first second,
      http (postSubmissions None Sample.later
              (postSubmissions None Sample.env Sample.store
                 (Sample.submit 0 Sample.goodCode)).2
              (Sample.submit 0 Sample.goodCode)).1 = 200
      ∧ submissions (postSubmissions None Sample.later
                       (postSubmissions None Sample.env Sample.store
                          (Sample.submit 0 Sample.goodCode)).2
                       (Sample.submit 0 Sample.goodCode)).2
          !! randomUUID Sample.env = Some first
      ∧ submissions (postSubmissions None Sample.later
                       (postSubmissions None Sample.env Sample.store
                          (Sample.submit 0 Sample.goodCode)).2
                       (Sample.submit 0 Sample.goodCode)).2
          !! randomUUID Sample.later = Some second
      ∧ i_data (s_insert first) = Sample.payload 0 Sample.goodCode
      ∧ i_data (s_insert second) = Sample.payload 0 Sample.goodCode
      ∧ s_id first ≠ s_id second.
Proof.
  split; [vm_compute; reflexivity|]. split; [discriminate|].
  apply (two_submissions_both_persist None Sample.env Sample.later Sample.store
           (Sample.submit 0 Sample.goodCode) (Sample.payload 0 Sample.goodCode)
           Sample.hello); [vm_compute; reflexivity | discriminate].
Defined.

(** ** The ordered map *)

Section OMapFacts.

Context {V : Type}.
Implicit Types (m : OMap.t V) (k : string) (v : V).

Lemma omap_get_set_eq m k v : OMap.get (OMap.set m k v) k = Some v.
Proof.
  induction m as [|[k' v'] m IH]; simpl.
  - by rewrite String.eqb_refl.
  - destruct (String.eqb k' k) eqn:Hk; simpl; by rewrite Hk.
Qed.

Lemma omap_get_set_ne m k k' v :
  k ≠ k' → OMap.get (OMap.set m k v) k' = OMap.get m k'.
Proof.
  intros Hne. induction m as [|[k0 v0] m IH]; simpl.
  - destruct (String.eqb_spec k k'); [done|done].
  - destruct (String.eqb_spec k0 k) as [->|Hk0]; simpl.
    + by destruct (String.eqb_spec k k').
    + by rewrite IH.
Qed.

Lemma omap_get_None m k : OMap.get m k = None ↔ k ∉ OMap.keys m.
Proof.
  unfold OMap.keys. induction m as [|[k' v'] m IH]; simpl.
  - split; [intros _; apply not_elem_of_nil | done].
  - rewrite not_elem_of_cons. destruct (String.eqb_spec k' k) as [->|Hne].
    + split; [discriminate | intros [? _]; done].
    + rewrite IH. split; [intros ?; split; [congruence|done] | by intros [_ ?]].
Qed.

(** A new key goes to the end. *)
Lemma omap_set_fresh m k v :
  OMap.get m k = None → OMap.set m k v = (m ++ [ (k, v) ])%list.
Proof.
  induction m as [|[k' v'] m IH]; simpl; [done|].
  destruct (String.eqb k' k); [discriminate|].
  intros Hm. by rewrite IH.
Qed.

(** A key already present keeps its place. *)
Lemma omap_set_present m k v v0 :
  OMap.get m k = Some v0 →
  ∃ m1 m2, m = (m1 ++ ((k, v0) :: m2))%list
           ∧ (k ∉ OMap.keys m1)
           ∧ OMap.set m k v = (m1 ++ ((k, v) :: m2))%list.
Proof.
  induction m as [|[k' v'] m IH]; simpl; [discriminate|].
  destruct (String.eqb_spec k' k) as [->|Hne].
  - intros [= ->]. exists [], m. split; [done|]. split; [apply not_elem_of_nil|done].
  - intros Hm. destruct (IH Hm) as (m1 & m2 & -> & Hk & ->).
    exists ((k', v') :: m1), m2. split; [done|]. split; [|done].
    unfold OMap.keys in *. simpl. rewrite not_elem_of_cons. split; [congruence|done].
Qed.

Lemma omap_keys_cons m k v : OMap.keys ((k, v) :: m) = k :: OMap.keys m.
Proof. reflexivity. Qed.

Lemma omap_keys_set m k v :
  OMap.keys (OMap.set m k v)
  = match OMap.get m k with
    | Some _ => OMap.keys m
    | None => (OMap.keys m ++ [k])%list
    end.
Proof.
  induction m as [|[k' v'] m IH]; [done|].
  simpl OMap.set. simpl OMap.get.
  destruct (String.eqb k' k) eqn:Hk; [done|].
  rewrite !omap_keys_cons, IH. by destruct (OMap.get m k).
Qed.

(** [set] never duplicates a key. *)
Lemma omap_set_NoDup m k v : NoDup (OMap.keys m) → NoDup (OMap.keys (OMap.set m k v)).
Proof.
  intros Hnd. rewrite omap_keys_set.
  destruct (OMap.get m k) eqn:Hm; [done|].
  apply NoDup_app. split; [done|]. split; [|apply NoDup_singleton].
  intros x Hx ->%list_elem_of_singleton. by apply omap_get_None in Hm.
Qed.

Lemma omap_to_gmap_get m k : OMap.to_gmap m !! k = OMap.get m k.
Proof.
  unfold OMap.to_gmap. induction m as [|[k' v'] m IH]; simpl; [done|].
  destruct (String.eqb_spec k' k) as [->|Hne].
  - apply lookup_insert_eq.
  - by rewrite lookup_insert_ne.
Qed.

Lemma omap_to_gmap_set m k v : OMap.to_gmap (OMap.set m k v) = <[k := v]> (OMap.to_gmap m).
Proof.
  apply map_eq. intros k'. rewrite omap_to_gmap_get.
  destruct (decide (k = k')) as [<-|Hne].
  - by rewrite omap_get_set_eq, lookup_insert_eq.
  - by rewrite omap_get_set_ne, lookup_insert_ne, omap_to_gmap_get.
Qed.

Lemma omap_set_same m k v : OMap.get m k = Some v → OMap.set m k v = m.
Proof.
  intros Hm. by destruct (omap_set_present m k v v Hm) as (m1 & m2 & -> & _ & ->).
Qed.

End OMapFacts.

(** ** The repository class *)

Lemma omap_values_app {V : Type} (m1 m2 : OMap.t V) :
  OMap.values (m1 ++ m2)%list = (OMap.values m1 ++ OMap.values m2)%list.
Proof. unfold OMap.values. apply fmap_app. Qed.

Lemma find_app {A : Type} (f : A → bool) (l1 l2 : list A) :
  List.find f (l1 ++ l2)
  = match List.find f l1 with
    | Some x => Some x
    | None => List.find f l2
    end.
Proof. induction l1 as [|x l1 IH]; simpl; [done|]. by destruct (f x). Qed.

(** X11.  Creating a submission under an id not yet in use appends it: it
    can be read back under its id, each of the three listings gains the new
    row at its end exactly when the row matches the listing, and users and
    assignments are untouched. *)
Theorem createSubmission_appends (env : Env) (st : Storage.t) (ins : InsertSubmission) :
  Storage.getSubmission st (randomUUID env) = None →
  ∃ row st',
    Storage.createSubmission env st ins = (row, st')
    ∧ s_id row = randomUUID env ∧ s_insert row = ins
    ∧ Storage.getSubmission st' (s_id row) = Some row
    ∧ (∀ student,
         Storage.getSubmissionsByStudent st' student
         = (Storage.getSubmissionsByStudent st student
            ++ if String.eqb (studentId (i_data ins)) student then [row] else [])%list)
    ∧ (∀ assignment,
         Storage.getSubmissionsByAssignment st' assignment
         = (Storage.getSubmissionsByAssignment st assignment
            ++ if String.eqb (assignmentId (i_data ins)) assignment then [row] else [])%list)
    ∧ (∀ student assignment,
         Storage.getStudentSubmissions st' student assignment
         = (Storage.getStudentSubmissions st student assignment
            ++ if String.eqb (studentId (i_data ins)) student
                  && String.eqb (assignmentId (i_data ins)) assignment
               then [row] else [])%list)
    ∧ Storage.users st' = Storage.users st
    ∧ Storage.assignments st' = Storage.assignments st.
Proof.
  unfold Storage.getSubmission. intros Hfresh.
  eexists _, _. split; [reflexivity|]. simpl.
  split; [done|]. split; [done|].
  split; [apply omap_get_set_eq|].
  unfold Storage.getSubmissionsByStudent, Storage.getSubmissionsByAssignment,
    Storage.getStudentSubmissions. simpl.
  rewrite (omap_set_fresh _ _ _ Hfresh), omap_values_app.
  repeat split; intros; by rewrite List.filter_app.
Qed.

Lemma createSubmission_appends_witness :
  Storage.getSubmission Storage.empty (randomUUID Sample.env) = None
  ∧ ∃ row st',
      Storage.createSubmission Sample.env Storage.empty
        (mkInsertSubmission (Sample.payload 0 Sample.goodCode) passed [] (JS.Num 100))
      = (row, st')
      ∧ s_id row = randomUUID Sample.env
      ∧ s_insert row
        = mkInsertSubmission (Sample.payload 0 Sample.goodCode) passed [] (JS.Num 100)
      ∧ Storage.getSubmission st' (s_id row) = Some row
      ∧ (∀ student,
           Storage.getSubmissionsByStudent st' student
           = (Storage.getSubmissionsByStudent Storage.empty student
              ++ if String.eqb
                      (studentId (i_data (mkInsertSubmission
                                            (Sample.payload 0 Sample.goodCode) passed []
                                            (JS.Num 100)))) student
                 then [row] else [])%list)
      ∧ (∀ assignment,
           Storage.getSubmissionsByAssignment st' assignment
           = (Storage.getSubmissionsByAssignment Storage.empty assignment
              ++ if String.eqb
                      (assignmentId (i_data (mkInsertSubmission
                                               (Sample.payload 0 Sample.goodCode) passed []
                                               (JS.Num 100)))) assignment
                 then [row] else [])%list)
      ∧ (∀ student assignment,
           Storage.getStudentSubmissions st' student assignment
           = (Storage.getStudentSubmissions Storage.empty student assignment
              ++ if String.eqb
                      (studentId (i_data (mkInsertSubmission
                                            (Sample.payload 0 Sample.goodCode) passed []
                                            (JS.Num 100)))) student
                    && String.eqb
                         (assignmentId (i_data (mkInsertSubmission
                                                  (Sample.payload 0 Sample.goodCode) passed []
                                                  (JS.Num 100)))) assignment
                 then [row] else [])%list)
      ∧ Storage.users st' = Storage.users Storage.empty
      ∧ Storage.assignments st' = Storage.assignments Storage.empty.
Proof.
  split; [reflexivity|].
  apply (createSubmission_appends Sample.env Storage.empty
           (mkInsertSubmission (Sample.payload 0 Sample.goodCode) passed [] (JS.Num 100))).
  reflexivity.
Defined.

Lemma filter_andb {A : Type} (f g : A → bool) (l : list A) :
  List.filter (λ x, f x && g x) l = List.filter g (List.filter f l).
Proof.
  induction l as [|x l IH]; simpl; [done|].
  destruct (f x); simpl; [|done]. destruct (g x); by rewrite IH.
Qed.

Lemma filter_comm {A : Type} (f g : A → bool) (l : list A) :
  List.filter g (List.filter f l) = List.filter f (List.filter g l).
Proof.
  induction l as [|x l IH]; simpl; [done|].
  destruct (f x) eqn:Hf, (g x) eqn:Hg; simpl; rewrite ?Hf, ?Hg, ?IH; done.
Qed.

(** The combined listing is the student's listing narrowed to the
    assignment, and equally the assignment's listing narrowed to the
    student, in the same order. *)
Lemma getStudentSubmissions_narrows (st : Storage.t) (student assignment : string) :
  Storage.getStudentSubmissions st student assignment
  = List.filter
      (λ submission, String.eqb (assignmentId (i_data (s_insert submission))) assignment)
      (Storage.getSubmissionsByStudent st student)
  ∧ Storage.getStudentSubmissions st student assignment
    = List.filter
        (λ submission, String.eqb (studentId (i_data (s_insert submission))) student)
        (Storage.getSubmissionsByAssignment st assignment).
Proof.
  unfold Storage.getStudentSubmissions, Storage.getSubmissionsByStudent,
    Storage.getSubmissionsByAssignment.
  split.
  - apply filter_andb.
  - rewrite filter_andb. apply filter_comm.
Qed.

(** X12.  [updateSubmission] on an id that is not stored returns nothing and
    leaves the store as it is; on a stored id it returns the merged row,
    keeps it under the same key and at the same place (the keys and their
    order do not change, even when the update carries another [id] field),
    and every other key reads as before. *)
Theorem updateSubmission_effect (st : Storage.t) (id : string) (u : SubmissionPatch) :
  match Storage.getSubmission st id with
  | None => Storage.updateSubmission st id u = (None, st)
  | Some row =>
      ∃ st', Storage.updateSubmission st id u = (Some (patchSubmission row u), st')
             ∧ Storage.getSubmission st' id = Some (patchSubmission row u)
             ∧ OMap.keys (Storage.submissions st') = OMap.keys (Storage.submissions st)
             ∧ (∀ id', id ≠ id' → Storage.getSubmission st' id' = Storage.getSubmission st id')
             ∧ Storage.users st' = Storage.users st
             ∧ Storage.assignments st' = Storage.assignments st
  end.
Proof.
  unfold Storage.getSubmission, Storage.updateSubmission.
  destruct (OMap.get (Storage.submissions st) id) as [row|] eqn:Hget; [|done].
  eexists. split; [reflexivity|]. simpl.
  split; [apply omap_get_set_eq|].
  split; [by rewrite omap_keys_set, Hget|].
  split; [|done].
  intros id' Hne. by apply omap_get_set_ne.
Qed.

(** The same for assignments. *)
Lemma updateAssignment_effect (st : Storage.t) (id : string) (u : AssignmentPatch) :
  match Storage.getAssignment st id with
  | None => Storage.updateAssignment st id u = (None, st)
  | Some row =>
      ∃ st', Storage.updateAssignment st id u = (Some (patchAssignment row u), st')
             ∧ Storage.getAssignment st' id = Some (patchAssignment row u)
             ∧ OMap.keys (Storage.assignments st') = OMap.keys (Storage.assignments st)
             ∧ (∀ id', id ≠ id' → Storage.getAssignment st' id' = Storage.getAssignment st id')
             ∧ Storage.users st' = Storage.users st
             ∧ Storage.submissions st' = Storage.submissions st
  end.
Proof.
  unfold Storage.getAssignment, Storage.updateAssignment.
  destruct (OMap.get (Storage.assignments st) id) as [row|] eqn:Hget; [|done].
  eexists. split; [reflexivity|]. simpl.
  split; [apply omap_get_set_eq|].
  split; [by rewrite omap_keys_set, Hget|].
  split; [|done].
  intros id' Hne. by apply omap_get_set_ne.
Qed.

(** X13.  The repository does not keep user names unique: creating a user
    under a free id always succeeds, the new row is read back under its id,
    and a lookup by user name still returns the account that held the name
    first; the new account is returned only if nobody held the name. *)
Theorem createUser_keeps_first (env : Env) (st : Storage.t) (ins : InsertUser) :
  Storage.getUser st (randomUUID env) = None →
  ∃ row st',
    Storage.createUser env st ins = (row, st')
    ∧ ur_insert row = ins
    ∧ Storage.getUser st' (randomUUID env) = Some row
    ∧ Storage.getUserByUsername st' (iu_username ins)
      = match Storage.getUserByUsername st (iu_username ins) with
        | Some earlier => Some earlier
        | None => Some row
        end
    ∧ Storage.getUserByEmail st' (iu_email ins)
      = match Storage.getUserByEmail st (iu_email ins) with
        | Some earlier => Some earlier
        | None => Some row
        end.
Proof.
  unfold Storage.getUser. intros Hfresh.
  eexists _, _. split; [reflexivity|]. simpl.
  split; [done|]. split; [apply omap_get_set_eq|].
  unfold Storage.getUserByUsername, Storage.getUserByEmail. simpl.
  rewrite (omap_set_fresh _ _ _ Hfresh), omap_values_app, !find_app. simpl.
  by rewrite !String.eqb_refl.
Qed.

Lemma createUser_keeps_first_witness :
  Storage.getUser Storage.empty (randomUUID Sample.env) = None
  ∧ ∃ row st',
      Storage.createUser Sample.env Storage.empty
        (mkInsertUser "alice" "alice@example.org" "secret" student "Alice") = (row, st')
      ∧ ur_insert row = mkInsertUser "alice" "alice@example.org" "secret" student "Alice"
      ∧ Storage.getUser st' (randomUUID Sample.env) = Some row
      ∧ Storage.getUserByUsername st'
          (iu_username (mkInsertUser "alice" "alice@example.org" "secret" student "Alice"))
        = match Storage.getUserByUsername Storage.empty
                  (iu_username (mkInsertUser "alice" "alice@example.org" "secret" student
                                  "Alice")) with
          | Some earlier => Some earlier
          | None => Some row
          end
      ∧ Storage.getUserByEmail st'
          (iu_email (mkInsertUser "alice" "alice@example.org" "secret" student "Alice"))
        = match Storage.getUserByEmail Storage.empty
                  (iu_email (mkInsertUser "alice" "alice@example.org" "secret" student
                               "Alice")) with
          | Some earlier => Some earlier
          | None => Some row
          end.
Proof.
  split; [reflexivity|].
  apply (createUser_keeps_first Sample.env Storage.empty
           (mkInsertUser "alice" "alice@example.org" "secret" student "Alice")).
  reflexivity.
Defined.

(** The handler's store forgets the order and nothing else. *)
Lemma forget_getAssignment (st : Storage.t) (id : string) :
  getAssignment (Storage.forget st) id = toAssignment <$> Storage.getAssignment st id.
Proof.
  unfold getAssignment, Storage.forget, Storage.getAssignment. simpl.
  by rewrite lookup_fmap, omap_to_gmap_get.
Qed.

Lemma forget_createSubmission (env : Env) (st : Storage.t) (ins : InsertSubmission) :
  Storage.forget (Storage.createSubmission env st ins).2
  = (createSubmission env (Storage.forget st) ins).2
  ∧ (Storage.createSubmission env st ins).1 = (createSubmission env (Storage.forget st) ins).1.
Proof.
  unfold Storage.forget, Storage.createSubmission, createSubmission. simpl.
  by rewrite omap_to_gmap_set.
Qed.


(** ** Reading numbers and the distribution pattern *)

Lemma append_assoc (a b c : string) : (a +:+ b) +:+ c = a +:+ (b +:+ c).
Proof. induction a as [|x a IH]; [done|]. by rewrite !append_cons, IH. Qed.

Lemma append_empty_r (a : string) : a +:+ EmptyString = a.
Proof. induction a as [|x a IH]; [done|]. by rewrite append_cons, IH. Qed.

Lemma pretty_N_go_app (x : N) : ∀ s, pretty_N_go x s = pretty_N_go x EmptyString +:+ s.
Proof.
  induction (N.lt_wf_0 x) as [x _ IH]. intros s.
  destruct (decide (x = 0)%N) as [->|Hx].
  - by rewrite !pretty_N_go_0.
  - assert (x `div` 10 < x)%N as Hlt by (apply N.div_lt; lia).
    rewrite !(pretty_N_go_step x) by lia.
    rewrite (IH _ Hlt (String (pretty_N_char (x `mod` 10)) s)).
    rewrite (IH _ Hlt (String (pretty_N_char (x `mod` 10)) EmptyString)).
    by rewrite append_assoc, append_cons, append_empty.
Qed.

(** The digits of a positive number: those of its tenth, then its last. *)
Lemma pretty_N_go_snoc (x : N) :
  (0 < x)%N →
  pretty_N_go x EmptyString
  = pretty_N_go (x `div` 10) EmptyString
    +:+ String (pretty_N_char (x `mod` 10)) EmptyString.
Proof. intros Hx. by rewrite pretty_N_go_step, pretty_N_go_app. Qed.

Lemma pretty_N_char_digit (d : N) :
  (d < 10)%N →
  Text.isDigit (pretty_N_char d) = true
  ∧ Text.digitValue (pretty_N_char d) = Some (Z.of_N d).
Proof.
  intros Hd.
  assert (d = 0 ∨ d = 1 ∨ d = 2 ∨ d = 3 ∨ d = 4 ∨ d = 5 ∨ d = 6 ∨ d = 7 ∨ d = 8 ∨ d = 9)%N
    as Hcases by lia.
  repeat (destruct Hcases as [->|Hcases]; [by vm_compute|]). subst. by vm_compute.
Qed.

Lemma allDigits_app (a b : string) :
  allDigits (a +:+ b) = allDigits a && allDigits b.
Proof.
  induction a as [|c a IH]; [done|].
  rewrite append_cons. simpl. by rewrite IH, andb_assoc.
Qed.

Lemma pretty_N_go_allDigits (x : N) : allDigits (pretty_N_go x EmptyString) = true.
Proof.
  induction (N.lt_wf_0 x) as [x _ IH].
  destruct (decide (x = 0)%N) as [->|Hx]; [done|].
  rewrite pretty_N_go_snoc, allDigits_app by lia.
  rewrite IH by (apply N.div_lt; lia). simpl.
  destruct (pretty_N_char_digit (x `mod` 10)) as [-> _]; [|done].
  apply N.mod_lt. lia.
Qed.

Lemma pretty_N_go_nonempty (x : N) : (0 < x)%N → pretty_N_go x EmptyString ≠ EmptyString.
Proof.
  intros Hx. rewrite pretty_N_go_snoc by done.
  by destruct (pretty_N_go (x `div` 10) EmptyString).
Qed.

(** A printed natural number is a non-empty run of digits. *)
Lemma pretty_nat_digits (n : nat) :
  ∃ c r, pretty n = String c r ∧ Text.isDigit c = true ∧ allDigits r = true.
Proof.
  unfold pretty, pretty_nat, pretty, pretty_N.
  destruct (decide (N.of_nat n = 0%N)) as [_|Hn].
  - by exists "0"%char, EmptyString.
  - pose proof (pretty_N_go_allDigits (N.of_nat n)) as Hall.
    assert (pretty_N_go (N.of_nat n) EmptyString ≠ EmptyString) as Hne
      by (apply pretty_N_go_nonempty; lia).
    destruct (pretty_N_go (N.of_nat n) EmptyString) as [|c r]; [done|].
    simpl in Hall. apply andb_true_iff in Hall as [Hc Hr]. by exists c, r.
Qed.

Lemma isDigit_cases (c : ascii) :
  Text.isDigit c = true →
  (c = "0" ∨ c = "1" ∨ c = "2" ∨ c = "3" ∨ c = "4"
   ∨ c = "5" ∨ c = "6" ∨ c = "7" ∨ c = "8" ∨ c = "9")%char.
Proof.
  destruct c as [[|] [|] [|] [|] [|] [|] [|] [|]]; vm_compute; intros H;
    try discriminate H; repeat (first [left; reflexivity | right]); reflexivity.
Qed.

Lemma isDigit_value (c : ascii) :
  Text.isDigit c = true → ∃ d, Text.digitValue c = Some d ∧ 0 <= d < 10.
Proof.
  intros H. apply isDigit_cases in H.
  repeat (destruct H as [->|H]; [eexists; split; [vm_compute; reflexivity | lia]|]).
  subst. eexists; split; [vm_compute; reflexivity | lia].
Qed.

Lemma skipSpaces_digit (c : ascii) (r : string) :
  Text.isDigit c = true → Text.skipSpaces (String c r) = String c r.
Proof.
  intros H. apply isDigit_cases in H.
  destruct r as [|c2 [|c3 r3]];
    repeat (destruct H as [->|H]; [reflexivity|]); by subst.
Qed.

Lemma readDigits_cons (acc : option Z) (c : ascii) (r : string) (d : Z) :
  Text.digitValue c = Some d → 0 <= d < 10 →
  Text.readDigits 10 acc (String c r)
  = Text.readDigits 10 (Some (10 * default 0 acc + d)) r.
Proof.
  intros Hc Hd. simpl. rewrite Hc.
  destruct (Z.ltb_spec d 10); [done|lia].
Qed.

Lemma readDigits_snoc (t : string) : ∀ (acc : option Z) (c : ascii) (d : Z),
  allDigits t = true → Text.digitValue c = Some d → 0 <= d < 10 →
  Text.readDigits 10 acc (t +:+ String c EmptyString)
  = Some (10 * default 0 (Text.readDigits 10 acc t) + d).
Proof.
  induction t as [|a t IH]; intros acc c d Ht Hc Hd.
  - rewrite append_empty. by rewrite (readDigits_cons _ _ _ _ Hc Hd).
  - simpl in Ht. apply andb_true_iff in Ht as [Ha Ht].
    destruct (isDigit_value a Ha) as (da & Hda & Hrange).
    rewrite append_cons, !(readDigits_cons _ _ _ _ Hda Hrange).
    by apply IH.
Qed.

Lemma readDigits_pretty_go (x : N) :
  Text.readDigits 10 None (pretty_N_go x EmptyString)
  = if decide (x = 0)%N then None else Some (Z.of_N x).
Proof.
  induction (N.lt_wf_0 x) as [x _ IH].
  destruct (decide (x = 0)%N) as [->|Hx]; [done|].
  assert (x `div` 10 < x)%N as Hlt by (apply N.div_lt; lia).
  assert (x `mod` 10 < 10)%N as Hmod by (apply N.mod_lt; lia).
  destruct (pretty_N_char_digit _ Hmod) as [_ Hval].
  rewrite pretty_N_go_snoc by lia.
  assert (0 <= Z.of_N (x `mod` 10) < 10) as Hd.
  { generalize dependent (x `mod` 10)%N. intros; lia. }
  rewrite (readDigits_snoc _ None _ _ (pretty_N_go_allDigits _) Hval Hd).
  rewrite (IH _ Hlt). f_equal.
  pose proof (N.div_mod x 10 ltac:(lia)) as Hdm.
  generalize dependent (x `mod` 10)%N. generalize dependent (x `div` 10)%N.
  intros q Hq r Hr Hv Hd Hdm.
  clear IH Hv. subst x.
  destruct (decide (q = 0)%N) as [H0|_]; cbv [from_option Datatypes.id]; lia.
Qed.

Lemma readDigits_pretty (n : nat) :
  Text.readDigits 10 None (pretty n) = Some (Z.of_nat n).
Proof.
  unfold pretty, pretty_nat, pretty, pretty_N.
  destruct (decide (N.of_nat n = 0%N)) as [H0|Hn].
  - assert (n = 0%nat) as -> by lia. reflexivity.
  - rewrite readDigits_pretty_go. destruct (decide (N.of_nat n = 0%N)); [done|].
    f_equal. lia.
Qed.

(** On a run of digits [parseInt] reads in radix 10 from the first one. *)
Lemma parseInt_digits (c : ascii) (r : string) :
  Text.isDigit c = true → allDigits r = true →
  Text.parseInt (String c r)
  = match Text.readDigits 10 None (String c r) with
    | None => JS.NaN
    | Some z => JS.Num (1 * z)
    end.
Proof.
  intros Hc Hr. unfold Text.parseInt. rewrite (skipSpaces_digit _ _ Hc).
  apply isDigit_cases in Hc.
  destruct Hc as [->|Hc].
  - destruct r as [|c2 r2]; [reflexivity|].
    simpl in Hr. apply andb_true_iff in Hr as [Hc2 _]. apply isDigit_cases in Hc2.
    repeat (destruct Hc2 as [->|Hc2]; [reflexivity|]). by subst.
  - repeat (destruct Hc as [->|Hc]; [reflexivity|]). by subst.
Qed.

(** Reading back a printed natural number. *)
Lemma parseInt_pretty (n : nat) : Text.parseInt (pretty n) = JS.Num (Z.of_nat n).
Proof.
  destruct (pretty_nat_digits n) as (c & r & Hp & Hc & Hr).
  pose proof (readDigits_pretty n) as Hread. rewrite Hp in *.
  rewrite (parseInt_digits _ _ Hc Hr), Hread. f_equal. lia.
Qed.

Lemma digitRun_allDigits (a rest : string) :
  allDigits a = true →
  Text.digitRun rest = (EmptyString, rest) →
  Text.digitRun (a +:+ rest) = (a, rest).
Proof.
  intros Ha Hrest. induction a as [|c a IH]; [by rewrite append_empty|].
  simpl in Ha. apply andb_true_iff in Ha as [Hc Ha].
  rewrite append_cons. simpl. by rewrite Hc, (IH Ha).
Qed.

Lemma digitRun_pretty (n : nat) (c : ascii) (rest : string) :
  Text.isDigit c = false →
  Text.digitRun (pretty n +:+ String c rest) = (pretty n, String c rest).
Proof.
  intros Hc. apply digitRun_allDigits.
  - destruct (pretty_nat_digits n) as (d & r & -> & Hd & Hr). simpl. by rewrite Hd, Hr.
  - simpl. by rewrite Hc.
Qed.

Lemma pretty_nonempty (n : nat) : String.eqb (pretty n) EmptyString = false.
Proof. by destruct (pretty_nat_digits n) as (d & r & -> & _). Qed.

Lemma skipSpaces_pretty (n : nat) (rest : string) :
  Text.skipSpaces (pretty n +:+ rest) = pretty n +:+ rest.
Proof.
  destruct (pretty_nat_digits n) as (d & r & -> & Hd & _).
  rewrite append_cons. by apply skipSpaces_digit.
Qed.

Lemma spaces1_space (s : string) :
  Text.skipSpaces s = s → Text.spaces1 (String " " s) = Some s.
Proof.
  intros Hs. unfold Text.spaces1.
  change (Text.skipSpaces (String " " s)) with (Text.skipSpaces s). rewrite Hs.
  simpl String.length. by destruct (Nat.ltb_spec (String.length s) (S (String.length s))); [|lia].
Qed.

Lemma allDigits_pretty (n : nat) : allDigits (pretty n) = true.
Proof. destruct (pretty_nat_digits n) as (d & r & -> & Hd & Hr). simpl. by rewrite Hd, Hr. Qed.

(** One number of the distribution and the word after it: the digits are
    taken, the blank is skipped, the word is matched whatever its case, and
    the blank after the comma is skipped up to the next number. *)
Lemma matchHere_easy (e : nat) (X : string) :
  Text.digitRun (pretty e +:+ " Easy, " +:+ X) = (pretty e, " Easy, " +:+ X)
  ∧ Text.spaces1 (" Easy, " +:+ X) = Some ("Easy, " +:+ X)
  ∧ Text.word "easy," ("Easy, " +:+ X) = Some (" " +:+ X).
Proof.
  split; [|split; [|reflexivity]].
  - by apply digitRun_allDigits; [apply allDigits_pretty|].
  - change (" Easy, " +:+ X) with (String " " ("Easy, " +:+ X)).
    by apply spaces1_space.
Qed.

Lemma matchHere_medium (m : nat) (X : string) :
  Text.digitRun (pretty m +:+ " Medium, " +:+ X) = (pretty m, " Medium, " +:+ X)
  ∧ Text.spaces1 (" Medium, " +:+ X) = Some ("Medium, " +:+ X)
  ∧ Text.word "medium," ("Medium, " +:+ X) = Some (" " +:+ X).
Proof.
  split; [|split; [|reflexivity]].
  - by apply digitRun_allDigits; [apply allDigits_pretty|].
  - change (" Medium, " +:+ X) with (String " " ("Medium, " +:+ X)).
    by apply spaces1_space.
Qed.

Lemma matchHere_hard (h : nat) (X : string) :
  Text.digitRun (pretty h +:+ " Hard" +:+ X) = (pretty h, " Hard" +:+ X)
  ∧ Text.spaces1 (" Hard" +:+ X) = Some ("Hard" +:+ X)
  ∧ Text.word "hard" ("Hard" +:+ X) = Some X.
Proof.
  split; [|split; [|reflexivity]].
  - by apply digitRun_allDigits; [apply allDigits_pretty|].
  - change (" Hard" +:+ X) with (String " " ("Hard" +:+ X)).
    by apply spaces1_space.
Qed.

Lemma skipSpaces_blank_pretty (n : nat) (X : string) :
  Text.skipSpaces (" " +:+ pretty n +:+ X) = pretty n +:+ X.
Proof.
  change (" " +:+ pretty n +:+ X) with (String " " (pretty n +:+ X)).
  change (Text.skipSpaces (String " " (pretty n +:+ X)))
    with (Text.skipSpaces (pretty n +:+ X)).
  apply skipSpaces_pretty.
Qed.

Lemma matchHere_distribution (e m h : nat) (tail : string) :
  Text.matchHere (distribution e m h +:+ tail) = Some (pretty e, pretty m, pretty h).
Proof.
  unfold distribution. rewrite !append_assoc.
  destruct (matchHere_easy e (pretty m +:+ " Medium, " +:+ pretty h +:+ " Hard" +:+ tail))
    as (He1 & He2 & He3).
  destruct (matchHere_medium m (pretty h +:+ " Hard" +:+ tail)) as (Hm1 & Hm2 & Hm3).
  destruct (matchHere_hard h tail) as (Hh1 & Hh2 & Hh3).
  unfold Text.matchHere.
  rewrite He1, pretty_nonempty, He2, He3, skipSpaces_blank_pretty.
  rewrite Hm1, pretty_nonempty, Hm2, Hm3, skipSpaces_blank_pretty.
  by rewrite Hh1, pretty_nonempty, Hh2, Hh3.
Qed.

Lemma matchHere_noDigit (c : ascii) (r : string) :
  Text.isDigit c = false → Text.matchHere (String c r) = None.
Proof. intros Hc. unfold Text.matchHere. simpl. by rewrite Hc. Qed.

Lemma matchDistribution_skips (pre s : string) :
  noDigits pre = true →
  Text.matchDistribution (pre +:+ s) = Text.matchDistribution s.
Proof.
  induction pre as [|c pre IH]; [done|].
  intros Hpre. cbn [noDigits] in Hpre. apply andb_true_iff in Hpre as [Hc Hpre].
  apply negb_true_iff in Hc.
  rewrite append_cons.
  change (Text.matchDistribution (String c (pre +:+ s)))
    with (match Text.matchHere (String c (pre +:+ s)) with
          | Some groups => Some groups
          | None => Text.matchDistribution (pre +:+ s)
          end).
  rewrite (matchHere_noDigit _ _ Hc). by apply IH.
Qed.

Lemma matchDistribution_here (s : string) (groups : string * string * string) :
  Text.matchHere s = Some groups → Text.matchDistribution s = Some groups.
Proof.
  intros H. destruct s as [|c s].
  - change (Text.matchDistribution EmptyString)
      with (match Text.matchHere EmptyString with
            | Some g => Some g
            | None => None
            end).
    by rewrite H.
  - change (Text.matchDistribution (String c s))
      with (match Text.matchHere (String c s) with
            | Some g => Some g
            | None => Text.matchDistribution s
            end).
    by rewrite H.
Qed.

(** The form's text, framed by other text, matches with its numbers. *)
Lemma matchDistribution_framed (e m h : nat) (pre tail : string) :
  noDigits pre = true →
  Text.matchDistribution (pre +:+ distribution e m h +:+ tail)
  = Some (pretty e, pretty m, pretty h).
Proof.
  intros Hpre. rewrite (matchDistribution_skips _ _ Hpre).
  apply matchDistribution_here, matchHere_distribution.
Qed.

Lemma rounds_parseInt_pretty (n : nat) : Text.rounds (Text.parseInt (pretty n)) = n.
Proof. rewrite parseInt_pretty. simpl. apply Nat2Z.id. Qed.

(** X14.  The distribution pattern reads back what the generator form
    writes: for all counts up to [2 ^ 53] (the integers that a JavaScript
    number holds exactly), the text ["<e> Easy, <m> Medium, <h> Hard"],
    preceded by any text without digits and followed by any text, matches
    with the three numbers as its groups, and [parseInt] returns the
    counts. *)
Theorem matchDistribution_round_trip (e m h : nat) (pre tail : string) :
  noDigits pre = true →
  Z.of_nat e <= 2 ^ 53 →
  Z.of_nat m <= 2 ^ 53 →
  Z.of_nat h <= 2 ^ 53 →
  Text.matchDistribution (pre +:+ distribution e m h +:+ tail)
  = Some (pretty e, pretty m, pretty h)
  ∧ Text.rounds (Text.parseInt (pretty e)) = e
  ∧ Text.rounds (Text.parseInt (pretty m)) = m
  ∧ Text.rounds (Text.parseInt (pretty h)) = h.
Proof.
  intros Hpre _ _ _. split; [by apply matchDistribution_framed|].
  by rewrite !rounds_parseInt_pretty.
Qed.

Lemma matchDistribution_round_trip_witness :
  noDigits "Mix: " = true
  ∧ Z.of_nat 7 <= 2 ^ 53
  ∧ Z.of_nat 6 <= 2 ^ 53
  ∧ Z.of_nat 2 <= 2 ^ 53
  ∧ Text.matchDistribution ("Mix: " +:+ distribution 7 6 2 +:+ " please")
    = Some (pretty 7%nat, pretty 6%nat, pretty 2%nat)
  ∧ Text.rounds (Text.parseInt (pretty 7%nat)) = 7%nat
  ∧ Text.rounds (Text.parseInt (pretty 6%nat)) = 6%nat
  ∧ Text.rounds (Text.parseInt (pretty 2%nat)) = 2%nat.
Proof.
  split; [reflexivity|].
  split; [vm_compute; discriminate|].
  split; [vm_compute; discriminate|].
  split; [vm_compute; discriminate|].
  apply (matchDistribution_round_trip 7 6 2 "Mix: " " please");
    [reflexivity | vm_compute; discriminate ..].
Defined.

(** A text without any decimal digit never matches the pattern. *)
Lemma matchDistribution_needs_digits (s : string) :
  noDigits s = true → Text.matchDistribution s = None.
Proof.
  intros Hs. rewrite <- (append_empty_r s).
  rewrite (matchDistribution_skips _ _ Hs). reflexivity.
Qed.

(** ** The generation route *)

Lemma orElse_nonzero (n : JS.jsnum) (d : Z) : d ≠ 0 → Text.orElse n d ≠ 0.
Proof.
  intros Hd. destruct n as [z|]; simpl; [|done].
  destruct (Z.eqb_spec z 0); done.
Qed.

(** X15.  Without a provider, a teacher who sends the distribution in the
    form's format gets 200 and an assignment holding exactly the template
    problems for the three counts, [e + m + h] of them; the assignment is
    stored active under the drawn id with the teacher as owner, and appears
    last in the teacher's listing and in the active listing. *)
Theorem postGenerate_template (env : Env) (st : Storage.t) (user : User)
    (body : GenerateBody) (e m h : nat) (pre tail : string) :
  isTeacher user = true →
  Storage.getAssignment st (randomUUID env) = None →
  noDigits pre = true →
  g_difficultyDistribution body = Some (pre +:+ distribution e m h +:+ tail) →
  ∃ row st',
    Routes.postGenerate None env st (Some user) body
    = ({| statusCode := 200;
          payload := Generated row
                       (generateSampleProblems (g_topic body)
                          {| easy := e; medium := m; hard := h |}) |}, st')
    ∧ ar_id row = randomUUID env
    ∧ ia_title (ar_insert row) = g_topic body +:+ " - AI Generated Assignment"
    ∧ ia_teacherId (ar_insert row) = u_id user
    ∧ ia_isActive (ar_insert row) = true
    ∧ ia_problems (ar_insert row)
      = generateSampleProblems (g_topic body) {| easy := e; medium := m; hard := h |}
    ∧ length (ia_problems (ar_insert row)) = (e + m + h)%nat
    ∧ Storage.getAssignment st' (randomUUID env) = Some row
    ∧ Storage.getAssignmentsByTeacher st' (u_id user)
      = (Storage.getAssignmentsByTeacher st (u_id user) ++ [row])%list
    ∧ Storage.getActiveAssignments st' = (Storage.getActiveAssignments st ++ [row])%list.
Proof.
  intros Hteacher Hfresh Hpre Hbody.
  unfold Routes.postGenerate.
  rewrite Hteacher, Hbody, (matchDistribution_framed e m h pre tail Hpre). cbv zeta.
  rewrite !rounds_parseInt_pretty. cbn [negb generateAssignment topic counts].
  unfold Storage.createAssignment. cbv zeta.
  eexists _, _. split; [reflexivity|]. cbn [ar_id ar_insert ia_title ia_teacherId
    ia_isActive ia_problems].
  do 5 (split; [reflexivity|]).
  split.
  { rewrite generateSampleProblems_blocks, !length_app, !appended_length. simpl. lia. }
  unfold Storage.getAssignment, Storage.getAssignmentsByTeacher,
    Storage.getActiveAssignments in *. cbn [Storage.assignments].
  split; [apply omap_get_set_eq|].
  rewrite (omap_set_fresh _ _ _ Hfresh), omap_values_app, !List.filter_app.
  cbn [OMap.values fmap list_fmap snd List.filter ar_insert ia_teacherId ia_isActive].
  by rewrite String.eqb_refl.
Qed.

Lemma postGenerate_template_witness :
  isTeacher {| u_id := "t-1"; u_role := teacher |} = true
  ∧ Storage.getAssignment Storage.empty (randomUUID Sample.env) = None
  ∧ noDigits EmptyString = true
  ∧ g_difficultyDistribution (mkGenerateBody "Recursion" (Some "7 Easy, 6 Medium, 2 Hard") "0")
    = Some (EmptyString +:+ distribution 7 6 2 +:+ EmptyString)
  ∧ ∃ row st',
      Routes.postGenerate None Sample.env Storage.empty
        (Some {| u_id := "t-1"; u_role := teacher |})
        (mkGenerateBody "Recursion" (Some "7 Easy, 6 Medium, 2 Hard") "0")
      = ({| statusCode := 200;
            payload :=
              Generated row
                (generateSampleProblems
                   (g_topic (mkGenerateBody "Recursion" (Some "7 Easy, 6 Medium, 2 Hard") "0"))
                   {| easy := 7; medium := 6; hard := 2 |}) |}, st')
      ∧ ar_id row = randomUUID Sample.env
      ∧ ia_title (ar_insert row)
        = g_topic (mkGenerateBody "Recursion" (Some "7 Easy, 6 Medium, 2 Hard") "0")
          +:+ " - AI Generated Assignment"
      ∧ ia_teacherId (ar_insert row) = u_id {| u_id := "t-1"; u_role := teacher |}
      ∧ ia_isActive (ar_insert row) = true
      ∧ ia_problems (ar_insert row)
        = generateSampleProblems
            (g_topic (mkGenerateBody "Recursion" (Some "7 Easy, 6 Medium, 2 Hard") "0"))
            {| easy := 7; medium := 6; hard := 2 |}
      ∧ length (ia_problems (ar_insert row)) = (7 + 6 + 2)%nat
      ∧ Storage.getAssignment st' (randomUUID Sample.env) = Some row
      ∧ Storage.getAssignmentsByTeacher st' (u_id {| u_id := "t-1"; u_role := teacher |})
        = (Storage.getAssignmentsByTeacher Storage.empty
             (u_id {| u_id := "t-1"; u_role := teacher |}) ++ [row])%list
      ∧ Storage.getActiveAssignments st'
        = (Storage.getActiveAssignments Storage.empty ++ [row])%list.
Proof.
  split; [reflexivity|]. split; [reflexivity|]. split; [reflexivity|].
  split; [vm_compute; reflexivity|].
  apply (postGenerate_template Sample.env Storage.empty {| u_id := "t-1"; u_role := teacher |}
           (mkGenerateBody "Recursion" (Some "7 Easy, 6 Medium, 2 Hard") "0")
           7 6 2 EmptyString EmptyString);
    first [reflexivity | vm_compute; reflexivity].
Defined.

(** X16.  A distribution without any decimal digit is refused: whatever the
    provider, a teacher's request is answered 400 and the store is left as
    it was. *)
Theorem postGenerate_rejects_malformed (openai : option OpenAI) (env : Env)
    (st : Storage.t) (user : User) (form : GenerateBody) (text : string) :
  isTeacher user = true →
  g_difficultyDistribution form = Some text →
  noDigits text = true →
  Routes.postGenerate openai env st (Some user) form
  = ({| statusCode := 400; payload := Said "Invalid difficulty distribution format" |}, st).
Proof.
  intros Hu Hform Htext. unfold Routes.postGenerate.
  by rewrite Hu, Hform, (matchDistribution_needs_digits _ Htext).
Qed.

Lemma postGenerate_rejects_malformed_witness :
  isTeacher Sample.bob = true
  ∧ g_difficultyDistribution
      (mkGenerateBody "Recursion" (Some "seven Easy, six Medium, two Hard") "180")
    = Some "seven Easy, six Medium, two Hard"
  ∧ noDigits "seven Easy, six Medium, two Hard" = true
  ∧ Routes.postGenerate None Sample.env Sample.repo (Some Sample.bob)
      (mkGenerateBody "Recursion" (Some "seven Easy, six Medium, two Hard") "180")
    = ({| statusCode := 400; payload := Said "Invalid difficulty distribution format" |},
       Sample.repo).
Proof.
  split; [reflexivity|]. split; [reflexivity|]. split; [reflexivity|].
  apply (postGenerate_rejects_malformed None Sample.env Sample.repo Sample.bob
           (mkGenerateBody "Recursion" (Some "seven Easy, six Medium, two Hard") "180")
           "seven Easy, six Medium, two Hard"); reflexivity.
Defined.

(** X17.  The generation route either answers 400, 403 or 500 with a plain
    message and leaves the store as it was, or answers 200 after writing one
    assignment: active, without due date, owned by the caller, who is a
    teacher, and with a time limit that is never 0, since a parsed 0 (the
    form's "No limit") and an unreadable limit both become 180. *)
Theorem postGenerate_outcomes (openai : option OpenAI) (env : Env) (st : Storage.t)
    (session : option User) (body : GenerateBody) :
  (∃ status message,
     (status = 400 ∨ status = 403 ∨ status = 500)
     ∧ Routes.postGenerate openai env st session body
       = ({| statusCode := status; payload := Said message |}, st))
  ∨ (∃ user row problems limit,
       session = Some user ∧ isTeacher user = true
       ∧ Routes.postGenerate openai env st session body
         = ({| statusCode := 200; payload := Generated row problems |},
            {| Storage.users := Storage.users st;
               Storage.assignments := OMap.set (Storage.assignments st) (randomUUID env) row;
               Storage.submissions := Storage.submissions st |})
       ∧ ia_problems (ar_insert row) = problems
       ∧ ia_teacherId (ar_insert row) = u_id user
       ∧ ia_isActive (ar_insert row) = true
       ∧ ia_dueDate (ar_insert row) = None
       ∧ ia_timeLimit (ar_insert row) = Some limit
       ∧ limit ≠ 0
       ∧ (Text.parseInt (g_timeLimit body) = JS.Num 0
          ∨ Text.parseInt (g_timeLimit body) = JS.NaN → limit = 180)).
Proof.
  unfold Routes.postGenerate.
  destruct session as [user|]; [|left; eauto 10].
  destruct (isTeacher user) eqn:Hteacher; cbn [negb]; [|left; eauto 10].
  destruct (g_difficultyDistribution body) as [dd|]; [|left; eauto 10].
  destruct (Text.matchDistribution dd) as [[[g1 g2] g3]|]; [|left; eauto 10].
  cbv zeta.
  destruct (generateAssignment openai _) as [problems|message]; [|left; eauto 10].
  right. unfold Storage.createAssignment. cbv zeta.
  eexists user, _, problems, _. split; [reflexivity|]. split; [exact Hteacher|].
  split; [reflexivity|]. cbn [ar_insert ia_problems ia_teacherId ia_isActive ia_dueDate
    ia_timeLimit].
  do 5 (split; [reflexivity|]).
  split; [by apply orElse_nonzero|].
  by intros [->| ->].
Qed.

Example no_limit_becomes_180 :
  Text.orElse (Text.parseInt "0") 180 = 180
  ∧ Text.orElse (Text.parseInt "240") 180 = 240
  ∧ Text.orElse (Text.parseInt "undefined") 180 = 180.
Proof. vm_compute. repeat split. Qed.

Lemma forget_createAssignment_lookup (env : Env) (st : Storage.t) (ins : InsertAssignment)
    (id : string) :
  getAssignment (Storage.forget (Storage.createAssignment env st ins).2) id
  = if decide (randomUUID env = id)
    then Some (toAssignment (Storage.createAssignment env st ins).1)
    else getAssignment (Storage.forget st) id.
Proof.
  rewrite !forget_getAssignment. unfold Storage.getAssignment, Storage.createAssignment.
  cbn [snd fst Storage.assignments].
  destruct (decide (randomUUID env = id)) as [<-|Hne].
  - by rewrite omap_get_set_eq.
  - by rewrite omap_get_set_ne.
Qed.

Lemma matchDistribution_exact (e m h : nat) :
  Text.matchDistribution (distribution e m h) = Some (pretty e, pretty m, pretty h).
Proof.
  apply matchDistribution_here.
  rewrite <- (append_empty_r (distribution e m h)). apply matchHere_distribution.
Qed.

(** X18.  Generation and submission fit together: once a teacher has
    generated an assignment from the templates, a student's submission
    addressed to its id passes the gates exactly for the indices of the
    generated problems, and is judged against the template problem at that
    index; any other index is answered 400. *)
Theorem generated_assignment_accepts_submissions (env : Env) (st : Storage.t)
    (teacherUser : User) (form : GenerateBody) (e m h : nat)
    (req : Request) (studentUser : User) (data : SubmissionData) :
  isTeacher teacherUser = true →
  g_difficultyDistribution form = Some (distribution e m h) →
  session req = Some studentUser →
  isStudent studentUser = true →
  parse (body req) (u_id studentUser) = Some data →
  assignmentId data = randomUUID env →
  resolve (Storage.forget (Routes.postGenerate None env st (Some teacherUser) form).2) req
  = match problemAt (generateSampleProblems (g_topic form)
                       {| easy := e; medium := m; hard := h |})
                    (problemIndex data) with
    | Some problem => inr (data, problem)
    | None => inl {| http := 400; json := Message "Invalid problem index" |}
    end.
Proof.
  intros Hteacher Hform Hsession Hstudent Hparse Hid.
  unfold Routes.postGenerate.
  rewrite Hteacher, Hform, matchDistribution_exact. cbv zeta.
  rewrite !parseInt_pretty. cbn [Text.rounds]. rewrite !Nat2Z.id.
  cbn [negb generateAssignment topic counts].
  match goal with
  | |- context [Storage.createAssignment env st ?ins] =>
      pose proof (forget_createAssignment_lookup env st ins (assignmentId data)) as Hlook;
      destruct (Storage.createAssignment env st ins) as [row st'] eqn:Hcreate
  end.
  cbn [fst snd] in *.
  unfold resolve. rewrite Hsession, Hstudent, Hparse. cbn [negb].
  rewrite Hlook. destruct (decide (randomUUID env = assignmentId data)); [|congruence].
  unfold Storage.createAssignment in Hcreate. injection Hcreate as <- _.
  reflexivity.
Qed.

Lemma generated_assignment_accepts_submissions_witness :
  isTeacher {| u_id := "t-1"; u_role := teacher |} = true
  ∧ g_difficultyDistribution (mkGenerateBody "Recursion" (Some "2 Easy, 0 Medium, 0 Hard") "180")
    = Some (distribution 2 0 0)
  ∧ session (mkRequest (Some Sample.alice) (mkBody (Some "sub-1") (Some 1) (Some Sample.goodCode)))
    = Some Sample.alice
  ∧ isStudent Sample.alice = true
  ∧ parse (body (mkRequest (Some Sample.alice)
                   (mkBody (Some "sub-1") (Some 1) (Some Sample.goodCode))))
          (u_id Sample.alice)
    = Some (mkSubmissionData "s-1" "sub-1" 1 Sample.goodCode)
  ∧ assignmentId (mkSubmissionData "s-1" "sub-1" 1 Sample.goodCode) = randomUUID Sample.env
  ∧ resolve
      (Storage.forget
         (Routes.postGenerate None Sample.env Storage.empty
            (Some {| u_id := "t-1"; u_role := teacher |})
            (mkGenerateBody "Recursion" (Some "2 Easy, 0 Medium, 0 Hard") "180")).2)
      (mkRequest (Some Sample.alice) (mkBody (Some "sub-1") (Some 1) (Some Sample.goodCode)))
    = match problemAt
              (generateSampleProblems
                 (g_topic (mkGenerateBody "Recursion" (Some "2 Easy, 0 Medium, 0 Hard") "180"))
                 {| easy := 2; medium := 0; hard := 0 |})
              (problemIndex (mkSubmissionData "s-1" "sub-1" 1 Sample.goodCode)) with
      | Some problem => inr (mkSubmissionData "s-1" "sub-1" 1 Sample.goodCode, problem)
      | None => inl {| http := 400; json := Message "Invalid problem index" |}
      end.
Proof.
  split; [reflexivity|]. split; [vm_compute; reflexivity|].
  split; [reflexivity|]. split; [reflexivity|]. split; [reflexivity|].
  split; [reflexivity|].
  apply (generated_assignment_accepts_submissions Sample.env Storage.empty
           {| u_id := "t-1"; u_role := teacher |}
           (mkGenerateBody "Recursion" (Some "2 Easy, 0 Medium, 0 Hard") "180") 2 0 0
           (mkRequest (Some Sample.alice) (mkBody (Some "sub-1") (Some 1) (Some Sample.goodCode)))
           Sample.alice (mkSubmissionData "s-1" "sub-1" 1 Sample.goodCode));
    first [reflexivity | vm_compute; reflexivity].
Defined.

(** ** Reading routes and deactivation *)

Lemma filter_In_iff {A : Type} (f : A → bool) (l : list A) (x : A) :
  In x (List.filter f l) ↔ In x l ∧ f x = true.
Proof. apply List.filter_In. Qed.

(** X19.  Deactivating a stored assignment closes it for students: its
    details are answered 403 to every student, a submission addressed to it
    is answered 404 and writes nothing, the active listing loses it and gains
    nothing, and teachers still read it. *)
Theorem deactivated_assignment_is_closed (st : Storage.t) (id : string) (row : AssignmentRow) :
  Storage.getAssignment st id = Some row →
  ∃ st',
    Storage.updateAssignment st id deactivate = (Some (patchAssignment row deactivate), st')
    ∧ (∀ user, isStudent user = true →
         Routes.getAssignmentDetails st' (Some user) id
         = {| statusCode := 403; payload := Said "Assignment not available" |})
    ∧ (∀ user, isStudent user = false →
         Routes.getAssignmentDetails st' (Some user) id
         = {| statusCode := 200;
              payload := AssignmentDetails (patchAssignment row deactivate) |})
    ∧ (∀ openai env req user data,
         session req = Some user → isStudent user = true →
         parse (body req) (u_id user) = Some data → assignmentId data = id →
         postSubmissions openai env (Storage.forget st') req
         = ({| http := 404; json := Message "Assignment not found or inactive" |},
            Storage.forget st'))
    ∧ (∀ r, In r (Storage.getActiveAssignments st') → In r (Storage.getActiveAssignments st))
    ∧ length (Storage.getActiveAssignments st')
      = (length (Storage.getActiveAssignments st)
         - if ia_isActive (ar_insert row) then 1 else 0)%nat.
Proof.
  intros Hget.
  pose proof (updateAssignment_effect st id deactivate) as Hupd. rewrite Hget in Hupd.
  destruct Hupd as (st' & Hupd & Hget' & _ & _ & _ & _).
  exists st'. split; [exact Hupd|].
  split.
  { intros user Hu. unfold Routes.getAssignmentDetails. by rewrite Hget', Hu. }
  split.
  { intros user Hu. unfold Routes.getAssignmentDetails. by rewrite Hget', Hu. }
  split.
  { intros openai env req user data Hs Hu Hp Ha.
    apply postSubmissions_rejected. unfold resolve.
    rewrite Hs, Hu, Hp. cbn [negb]. rewrite forget_getAssignment, Ha, Hget'. done. }
  unfold Storage.updateAssignment in Hupd. unfold Storage.getAssignment in Hget.
  rewrite Hget in Hupd. injection Hupd as <-.
  unfold Storage.getActiveAssignments. cbn [Storage.assignments].
  destruct (omap_set_present _ _ (patchAssignment row deactivate) _ Hget)
    as (m1 & m2 & Hm & _ & ->).
  rewrite Hm, !omap_values_app, !List.filter_app.
  cbn [OMap.values fmap list_fmap snd List.filter patchAssignment ar_insert ia_isActive
         deactivate ap_isActive from_option Datatypes.id].
  split.
  - intros r Hr. rewrite !in_app_iff in *.
    destruct Hr as [Hr|Hr]; [by left|]. right.
    destruct (ia_isActive (ar_insert row)); [by right|done].
  - rewrite !length_app. destruct (ia_isActive (ar_insert row)); simpl; lia.
Qed.

Lemma deactivated_assignment_is_closed_witness :
  Storage.getAssignment Sample.repo "a-1" = Some Sample.row
  ∧ ∃ st',
      Storage.updateAssignment Sample.repo "a-1" deactivate
      = (Some (patchAssignment Sample.row deactivate), st')
      ∧ (∀ user, isStudent user = true →
           Routes.getAssignmentDetails st' (Some user) "a-1"
           = {| statusCode := 403; payload := Said "Assignment not available" |})
      ∧ (∀ user, isStudent user = false →
           Routes.getAssignmentDetails st' (Some user) "a-1"
           = {| statusCode := 200;
                payload := AssignmentDetails (patchAssignment Sample.row deactivate) |})
      ∧ (∀ openai env req user data,
           session req = Some user → isStudent user = true →
           parse (body req) (u_id user) = Some data → assignmentId data = "a-1" →
           postSubmissions openai env (Storage.forget st') req
           = ({| http := 404; json := Message "Assignment not found or inactive" |},
              Storage.forget st'))
      ∧ (∀ r, In r (Storage.getActiveAssignments st') →
              In r (Storage.getActiveAssignments Sample.repo))
      ∧ length (Storage.getActiveAssignments st')
        = (length (Storage.getActiveAssignments Sample.repo)
           - if ia_isActive (ar_insert Sample.row) then 1 else 0)%nat.
Proof.
  split; [reflexivity|].
  apply (deactivated_assignment_is_closed Sample.repo "a-1" Sample.row). reflexivity.
Defined.

(** X20.  A student never receives an inactive assignment: the details route
    hands a student only active rows, and so does the active listing. *)
Theorem student_reads_active_only (st : Storage.t) (user : User) :
  isStudent user = true →
  (∀ id row,
     payload (Routes.getAssignmentDetails st (Some user) id) = AssignmentDetails row →
     Storage.getAssignment st id = Some row ∧ ia_isActive (ar_insert row) = true)
  ∧ ∃ rows,
      Routes.getActive st (Some user) = {| statusCode := 200; payload := AssignmentList rows |}
      ∧ Forall (λ row, ia_isActive (ar_insert row) = true) rows.
Proof.
  intros Hu. split.
  - intros id row. unfold Routes.getAssignmentDetails. rewrite Hu.
    destruct (Storage.getAssignment st id) as [r|]; [|discriminate].
    destruct (ia_isActive (ar_insert r)) eqn:Hact; [|discriminate].
    simpl. by intros [= <-].
  - unfold Routes.getActive. rewrite Hu. eexists. split; [reflexivity|].
    apply Forall_forall. intros row Hrow%list_elem_of_In.
    by apply List.filter_In in Hrow as [_ Hact].
Qed.

Lemma student_reads_active_only_witness :
  isStudent Sample.alice = true
  ∧ (∀ id row,
       payload (Routes.getAssignmentDetails Sample.repo (Some Sample.alice) id)
       = AssignmentDetails row →
       Storage.getAssignment Sample.repo id = Some row ∧ ia_isActive (ar_insert row) = true)
  ∧ ∃ rows,
      Routes.getActive Sample.repo (Some Sample.alice)
      = {| statusCode := 200; payload := AssignmentList rows |}
      ∧ Forall (λ row, ia_isActive (ar_insert row) = true) rows.
Proof.
  split; [reflexivity|].
  apply (student_reads_active_only Sample.repo Sample.alice). reflexivity.
Defined.

(** X21.  A student's listing of submissions holds exactly the stored rows
    that carry the student's own id and the requested assignment: nothing of
    another student, nothing of another assignment, nothing left out. *)
Theorem getOwnSubmissions_scoped (st : Storage.t) (user : User) (assignment : string) :
  isStudent user = true →
  ∃ rows,
    Routes.getOwnSubmissions st (Some user) assignment
    = {| statusCode := 200; payload := SubmissionList rows |}
    ∧ ∀ s, In s rows
           ↔ In s (OMap.values (Storage.submissions st))
             ∧ studentId (i_data (s_insert s)) = u_id user
             ∧ assignmentId (i_data (s_insert s)) = assignment.
Proof.
  intros Hu. unfold Routes.getOwnSubmissions. rewrite Hu.
  eexists. split; [reflexivity|].
  intros s. unfold Storage.getStudentSubmissions.
  rewrite List.filter_In, andb_true_iff, !String.eqb_eq. tauto.
Qed.

Lemma getOwnSubmissions_scoped_witness :
  isStudent Sample.alice = true
  ∧ ∃ rows,
      Routes.getOwnSubmissions Sample.repo (Some Sample.alice) "a-1"
      = {| statusCode := 200; payload := SubmissionList rows |}
      ∧ ∀ s, In s rows
             ↔ In s (OMap.values (Storage.submissions Sample.repo))
               ∧ studentId (i_data (s_insert s)) = u_id Sample.alice
               ∧ assignmentId (i_data (s_insert s)) = "a-1".
Proof.
  split; [reflexivity|].
  apply (getOwnSubmissions_scoped Sample.repo Sample.alice "a-1"). reflexivity.
Defined.

(** ** The run route *)

(** X22.  For a student the run route always answers 200; it reports success
    exactly when the code contains ["int main"] and ["#include"].  Code that
    passes the pre-check of the submission route therefore always runs, and
    code the run route refuses is always failed on submission. *)
Theorem postRun_agrees_with_precheck (user : User) (code : string) :
  isStudent user = true →
  ∃ success output error,
    Routes.postRun (Some user) (Some code)
    = {| statusCode := 200; payload := RunResult success output error |}
    ∧ (success = true
       ↔ JS.includes code "int main" = true ∧ JS.includes code "#include" = true)
    ∧ (missingStructure code = false → success = true)
    ∧ (success = false → missingStructure code = true)
    ∧ (success = true ↔ error = None).
Proof.
  intros Hu. unfold Routes.postRun, missingStructure. rewrite Hu. cbv zeta.
  destruct (JS.includes code "int main"), (JS.includes code "#include"),
    (JS.includes code "return"); simpl;
    eexists _, _, _; (split; [reflexivity|]); intuition congruence.
Qed.

Lemma postRun_agrees_with_precheck_witness :
  isStudent Sample.alice = true
  ∧ ∃ success output error,
      Routes.postRun (Some Sample.alice) (Some Sample.goodCode)
      = {| statusCode := 200; payload := RunResult success output error |}
      ∧ (success = true
         ↔ JS.includes Sample.goodCode "int main" = true
           ∧ JS.includes Sample.goodCode "#include" = true)
      ∧ (missingStructure Sample.goodCode = false → success = true)
      ∧ (success = false → missingStructure Sample.goodCode = true)
      ∧ (success = true ↔ error = None).
Proof.
  split; [reflexivity|].
  apply (postRun_agrees_with_precheck Sample.alice Sample.goodCode). reflexivity.
Defined.

(** ** The student dashboard *)

Lemma dashboardInvariant_step (s s' : Dashboard.State) :
  dashboardInvariant s → Dashboard.step s s' → dashboardInvariant s'.
Proof.
  unfold dashboardInvariant. intros Hinv Hstep.
  destruct Hstep as [s a Hview|s Hview|s Hview|s Hview]; rewrite Hview in Hinv.
  - destruct Hinv as (_ & Hp & Hi).
    unfold Dashboard.handleStartAssignment.
    destruct (0 <? length (a_problems a))%nat eqn:Hlen; simpl.
    + by exists a.
    + exists a. split; [done|]. rewrite Hp, Hi.
      apply Nat.ltb_ge in Hlen. by destruct (a_problems a); [|simpl in Hlen; lia].
  - done.
  - destruct Hinv as (a & Ha & Hp).
    unfold Dashboard.handleNextProblem. rewrite Ha. simpl. rewrite Hview. by exists a.
  - destruct Hinv as (a & Ha & Hp).
    unfold Dashboard.handlePreviousProblem. rewrite Ha. simpl. rewrite Hview. by exists a.
Qed.

Lemma dashboardInvariant_reachable (s : Dashboard.State) :
  Dashboard.reachable s → dashboardInvariant s.
Proof.
  induction 1 as [|s s' _ IH Hstep].
  - by repeat split.
  - by eapply dashboardInvariant_step.
Qed.

(** X23.  Whatever buttons the student presses, when the editor is shown the
    index it submits addresses, in the selected assignment, exactly the
    problem on screen: the index is in range, so a submission made from the
    dashboard is never refused as an invalid problem index. *)
Theorem dashboard_submits_valid_index (s : Dashboard.State)
    (id : string) (index : Z) (problem : Problem) :
  Dashboard.reachable s →
  Dashboard.editorSubmits s = Some (id, index, problem) →
  ∃ assignment,
    Dashboard.selectedAssignment s = Some assignment
    ∧ a_id assignment = id
    ∧ problemAt (a_problems assignment) index = Some problem
    ∧ 0 <= index < Z.of_nat (length (a_problems assignment)).
Proof.
  intros Hreach Hsub. apply dashboardInvariant_reachable in Hreach.
  unfold Dashboard.editorSubmits in Hsub. unfold dashboardInvariant in Hreach.
  destruct (Dashboard.selectedProblem s) as [p|] eqn:Hp; [|discriminate].
  destruct (Dashboard.selectedAssignment s) as [a|] eqn:Ha; [|discriminate].
  injection Hsub as <- <- <-.
  destruct (Dashboard.currentView s).
  - by destruct Hreach as (? & _).
  - destruct Hreach as (a' & [= <-] & Hsel).
    exists a. split; [done|]. split; [done|]. split; [done|].
    by eapply problemAt_Some.
Qed.

Lemma dashboard_submits_valid_index_witness :
  Dashboard.reachable Sample.editing
  ∧ Dashboard.editorSubmits Sample.editing = Some ("a-1", 1, Sample.sum)
  ∧ ∃ assignment,
      Dashboard.selectedAssignment Sample.editing = Some assignment
      ∧ a_id assignment = "a-1"
      ∧ problemAt (a_problems assignment) 1 = Some Sample.sum
      ∧ 0 <= 1 < Z.of_nat (length (a_problems assignment)).
Proof.
  assert (Dashboard.reachable Sample.editing) as Hreach.
  { eapply Dashboard.reachable_step;
      [eapply Dashboard.reachable_step; [apply Dashboard.reachable_initial|]|].
    - apply (Dashboard.step_start Dashboard.initial Sample.assignment). reflexivity.
    - apply Dashboard.step_next. reflexivity. }
  split; [exact Hreach|]. split; [vm_compute; reflexivity|].
  apply (dashboard_submits_valid_index Sample.editing "a-1" 1 Sample.sum);
    [exact Hreach | vm_compute; reflexivity].
Defined.

(** ** The statistics routes *)

Lemma foldl_sum_bounds (f : Submission → Z) (lo hi : Z) (l : list Submission) :
  Forall (λ s, lo <= f s <= hi) l →
  ∀ acc, acc + lo * Z.of_nat (length l)
         <= foldl (λ sum s, sum + f s) acc l
         <= acc + hi * Z.of_nat (length l).
Proof.
  induction 1 as [|s l Hs _ IH]; intros acc; simpl; [lia|].
  specialize (IH (acc + f s)). lia.
Qed.

Lemma scoreOrZero_range (s : Submission) :
  scoreInRange s → 0 <= Routes.scoreOrZero s <= 100.
Proof.
  unfold scoreInRange, Routes.scoreOrZero, Text.orElse.
  destruct (s_score s) as [z|]; [|lia].
  destruct (Z.eqb_spec z 0); lia.
Qed.

Lemma roundDiv_range (sum : Z) (n : nat) :
  (0 < n)%nat → 0 <= sum <= 100 * Z.of_nat n → 0 <= Routes.roundDiv sum n <= 100.
Proof.
  intros Hn Hsum. unfold Routes.roundDiv. split.
  - apply Z.div_pos; lia.
  - apply Z.lt_succ_r. apply Z.div_lt_upper_bound; lia.
Qed.

Lemma averageScore_range (subs : list Submission) :
  Forall scoreInRange subs → 0 <= Routes.averageScore subs <= 100.
Proof.
  intros Hall. unfold Routes.averageScore.
  destruct (Nat.ltb_spec 0 (length subs)) as [Hpos|_]; [|lia].
  apply roundDiv_range; [done|].
  assert (Forall (λ s, 0 <= Routes.scoreOrZero s <= 100) subs) as Hr.
  { eapply Forall_impl; [exact Hall|]. intros s. apply scoreOrZero_range. }
  pose proof (foldl_sum_bounds _ _ _ _ Hr 0). lia.
Qed.

Lemma remove_dups_length (xs : list string) : (length (remove_dups xs) <= length xs)%nat.
Proof.
  induction xs as [|x xs IH]; simpl; [done|].
  destruct (decide_rel elem_of x xs); simpl; lia.
Qed.

Lemma Forall_filter_values {A : Type} (P : A → Prop) (f : A → bool) (l : list A) :
  Forall P l → Forall P (List.filter f l).
Proof.
  rewrite !Forall_forall. intros H x Hx%list_elem_of_In.
  apply List.filter_In in Hx as [Hx _]. by apply H, list_elem_of_In.
Qed.

(** X24.  The teacher statistics count the caller's assignments and the
    submissions made to them; the number of active students never exceeds the
    number of submissions; without submissions the average is 0; and when
    every stored score is absent or within 0 to 100, with an absent score
    counted as 0, the average lies within 0 to 100. *)
Theorem getTeacherStats_bounds (st : Storage.t) (user : User) :
  isTeacher user = true →
  ∃ total students subs average,
    Routes.getTeacherStats st (Some user)
    = {| statusCode := 200; payload := TeacherStats total students subs average |}
    ∧ total = length (Storage.getAssignmentsByTeacher st (u_id user))
    ∧ (students <= subs)%nat
    ∧ (subs = 0%nat → average = 0)
    ∧ (Forall scoreInRange (OMap.values (Storage.submissions st)) → 0 <= average <= 100).
Proof.
  intros Hu. unfold Routes.getTeacherStats. rewrite Hu. cbv zeta.
  eexists _, _, _, _. split; [reflexivity|]. split; [reflexivity|].
  split.
  { unfold Routes.distinct. etrans; [apply remove_dups_length|]. by rewrite length_fmap. }
  split.
  { intros Hlen. unfold Routes.averageScore. by rewrite Hlen. }
  intros Hall. apply averageScore_range.
  apply Forall_concat, Forall_fmap, Forall_forall. intros a _. simpl.
  by apply Forall_filter_values.
Qed.

Lemma getTeacherStats_bounds_witness :
  isTeacher Sample.bob = true
  ∧ ∃ total students subs average,
      Routes.getTeacherStats Sample.repo (Some Sample.bob)
      = {| statusCode := 200; payload := TeacherStats total students subs average |}
      ∧ total = length (Storage.getAssignmentsByTeacher Sample.repo (u_id Sample.bob))
      ∧ (students <= subs)%nat
      ∧ (subs = 0%nat → average = 0)
      ∧ (Forall scoreInRange (OMap.values (Storage.submissions Sample.repo)) →
         0 <= average <= 100).
Proof.
  split; [reflexivity|].
  apply (getTeacherStats_bounds Sample.repo Sample.bob). reflexivity.
Defined.

(** X25.  In the student statistics the number of assignments in progress is
    never negative and never more than the number of active assignments,
    the number of completed assignments never exceeds the number of the
    student's passed submissions, and the average obeys the same bounds as
    for teachers. *)
Theorem getStudentStats_bounds (st : Storage.t) (user : User) :
  isStudent user = true →
  ∃ completed inProgress average,
    Routes.getStudentStats st (Some user)
    = {| statusCode := 200; payload := StudentStats completed inProgress average |}
    ∧ 0 <= inProgress <= Z.of_nat (length (Storage.getActiveAssignments st))
    ∧ (completed
       <= length (List.filter Routes.isPassed
                    (Storage.getSubmissionsByStudent st (u_id user))))%nat
    ∧ (Storage.getSubmissionsByStudent st (u_id user) = [] →
       completed = 0%nat
       ∧ inProgress = Z.of_nat (length (Storage.getActiveAssignments st))
       ∧ average = 0)
    ∧ (Forall scoreInRange (OMap.values (Storage.submissions st)) → 0 <= average <= 100).
Proof.
  intros Hu. unfold Routes.getStudentStats. rewrite Hu. cbv zeta.
  eexists _, _, _. split; [reflexivity|].
  assert (Routes.distinct
            ((λ s, assignmentId (i_data (s_insert s)))
               <$> List.filter Routes.isPassed (Storage.getSubmissionsByStudent st (u_id user)))
          <= length (List.filter Routes.isPassed
                       (Storage.getSubmissionsByStudent st (u_id user))))%nat as Hc.
  { unfold Routes.distinct. etrans; [apply remove_dups_length|]. by rewrite length_fmap. }
  split; [lia|]. split; [exact Hc|]. split.
  - intros Hnone. rewrite Hnone.
    change (Routes.distinct
              ((λ s, assignmentId (i_data (s_insert s))) <$> List.filter Routes.isPassed []))
      with 0%nat.
    split; [done|]. split; [lia|done].
  - intros Hall. apply averageScore_range. by apply Forall_filter_values.
Qed.

Lemma getStudentStats_bounds_witness :
  isStudent Sample.alice = true
  ∧ ∃ completed inProgress average,
      Routes.getStudentStats Sample.repo (Some Sample.alice)
      = {| statusCode := 200; payload := StudentStats completed inProgress average |}
      ∧ 0 <= inProgress <= Z.of_nat (length (Storage.getActiveAssignments Sample.repo))
      ∧ (completed
         <= length (List.filter Routes.isPassed
                      (Storage.getSubmissionsByStudent Sample.repo (u_id Sample.alice))))%nat
      ∧ (Storage.getSubmissionsByStudent Sample.repo (u_id Sample.alice) = [] →
         completed = 0%nat
         ∧ inProgress = Z.of_nat (length (Storage.getActiveAssignments Sample.repo))
         ∧ average = 0)
      ∧ (Forall scoreInRange (OMap.values (Storage.submissions Sample.repo)) →
         0 <= average <= 100).
Proof.
  split; [reflexivity|].
  apply (getStudentStats_bounds Sample.repo Sample.alice). reflexivity.
Defined.

(** ** The whole pipeline *)

(** X27.  Without a provider, when the code passes the pre-check and every
    simulated test case of a problem with test cases passes, the Submission
    is stored as [passed] and its score is the built-in analyzer's score,
    which is at least 50. *)
Theorem builtin_pipeline_passed (env : Env) (st : MemStorage) (req : Request)
    (data : SubmissionData) (problem : Problem) :
  resolve st req = inr (data, problem) →
  missingStructure (code data) = false →
  testCases problem ≠ [] →
  (∀ i, (i < length (testCases problem))%nat → above20 (random env i) = true) →
  ∃ submission results st',
    postSubmissions None env st req
    = ({| http := 200;
          json := Evaluation submission results
                    (feedback (analyzeCodeBuiltIn (code data) problem))
                    (suggestions (analyzeCodeBuiltIn (code data) problem)) |}, st')
    ∧ submissions st' !! s_id submission = Some submission
    ∧ length results = length (testCases problem)
    ∧ s_status submission = passed
    ∧ s_score submission = JS.Num (score (analyzeCodeBuiltIn (code data) problem))
    ∧ 50 <= score (analyzeCodeBuiltIn (code data) problem) <= 100.
Proof.
  intros Hres Hok Hne Hall.
  assert (0 < length (testCases problem))%nat as Hpos
    by (destruct (testCases problem); [done | simpl; lia]).
  destruct (simulate_results env (code data) problem Hok) as (Hr & Hscore & Hstatus).
  pose proof (simulate_results_Forall env (code data) problem true Hok Hall) as Hf.
  assert (sim_score (simulate env (code data) problem) = JS.Num 100) as H100.
  { by rewrite Hscore, (filter_all _ Hf), Hr, length_imap, (roundPercent_all _ Hpos). }
  pose proof (precheck_pass_score (code data) problem Hok) as Hrange.
  rewrite (postSubmissions_resolved _ _ _ _ _ _ Hres).
  rewrite (evaluate_returns None env st data problem (analyzeCodeBuiltIn (code data) problem))
    by reflexivity.
  cbv zeta. eexists _, _, _. split; [reflexivity|].
  split; [apply lookup_insert_eq|].
  split; [by rewrite Hr, length_imap|].
  unfold s_status, s_score, persisted; simpl.
  split; [by rewrite Hstatus, H100|].
  split; [|exact Hrange]. rewrite H100. cbn [JS.min]. f_equal.
  unfold JS.clamp100. lia.
Qed.

Lemma builtin_pipeline_passed_witness :
  resolve Sample.store (Sample.submit 0 Sample.goodCode)
  = inr (Sample.payload 0 Sample.goodCode, Sample.hello)
  ∧ missingStructure (code (Sample.payload 0 Sample.goodCode)) = false
  ∧ testCases Sample.hello ≠ []
  ∧ (∀ i, (i < length (testCases Sample.hello))%nat → above20 (random Sample.env i) = true)
  ∧ ∃ submission results st',
      postSubmissions None Sample.env Sample.store (Sample.submit 0 Sample.goodCode)
      = ({| http := 200;
            json := Evaluation submission results
                      (feedback (analyzeCodeBuiltIn (code (Sample.payload 0 Sample.goodCode))
                                   Sample.hello))
                      (suggestions (analyzeCodeBuiltIn (code (Sample.payload 0 Sample.goodCode))
                                      Sample.hello)) |}, st')
      ∧ submissions st' !! s_id submission = Some submission
      ∧ length results = length (testCases Sample.hello)
      ∧ s_status submission = passed
      ∧ s_score submission
        = JS.Num (score (analyzeCodeBuiltIn (code (Sample.payload 0 Sample.goodCode))
                           Sample.hello))
      ∧ 50 <= score (analyzeCodeBuiltIn (code (Sample.payload 0 Sample.goodCode))
                       Sample.hello) <= 100.
Proof.
  assert (∀ i, (i < length (testCases Sample.hello))%nat →
               above20 (random Sample.env i) = true) as Hall by (intros i _; reflexivity).
  split; [vm_compute; reflexivity|]. split; [vm_compute; reflexivity|].
  split; [discriminate|]. split; [exact Hall|].
  apply (builtin_pipeline_passed Sample.env Sample.store (Sample.submit 0 Sample.goodCode)
           (Sample.payload 0 Sample.goodCode) Sample.hello);
    [vm_compute; reflexivity | vm_compute; reflexivity | discriminate | exact Hall].
Defined.
